(** * Invoice QC service: the validation rule engine, the batch aggregator,
      the regex fallback of the extractor and the table of invoices,
      embedded from [invoice_qc/validator.py], [invoice_qc/extractor.py]
      and [invoice_qc/database.py]. *)

From Stdlib Require Import ZArith NArith QArith Qpower Qabs Lia Ascii String List Bool.
From stdpp Require Import base tactics option list strings pretty gmap fin_maps sorting.

Close Scope Q_scope.
Local Open Scope string_scope.
Local Open Scope Z_scope.

(** ** Outcomes of a call: a value, or a raised exception *)

Module Py.

(** The exception classes that the modelled code paths can raise.
    [InvalidOperation] and [Overflow] are the [decimal] module's signals
    (subclasses of [ArithmeticError], hence neither [ValueError] nor
    [TypeError]). *)
Inductive exn : Set :=
| InvalidOperation
| Overflow
| AttributeError
| TypeError
| ValueError.

Inductive outcome (A : Type) : Type :=
| Ok (a : A)
| Raise (e : exn).
Arguments Ok {A} a.
Arguments Raise {A} e.

#[global] Instance exn_eq_dec : EqDecision exn.
Proof. solve_decision. Defined.

#[global] Instance outcome_ret : MRet outcome := @Ok.
#[global] Instance outcome_bind : MBind outcome := fun A B f m =>
  match m with
  | Ok a => f a
  | Raise e => Raise e
  end.

#[global] Instance outcome_fmap : FMap outcome := fun A B f m =>
  match m with
  | Ok a => Ok (f a)
  | Raise e => Raise e
  end.

Definition returns {A} (m : outcome A) : Prop := exists a, m = Ok a.

(** ** Strings: the [str] methods the validator calls

    A string is the sequence of the bytes of its UTF-8 encoding: a
    character of ASCII is one byte below 128, any other character is two
    to four bytes from 128 on, the first of them from 194 on.  What
    Python decides character by character from the Unicode database is
    written out here for ASCII and for whitespace; for other text it is
    left to the interpreter (see [runtime] below). *)

Definition code (c : ascii) : nat := nat_of_ascii c.

Definition is_ascii (c : ascii) : bool := (code c <? 128)%nat.

(** [c.isspace()] for a character of one, two or three bytes (no
    character of four bytes is whitespace): TAB..CR, FS..US and the
    space; U+0085 and U+00A0; U+1680, U+2000..U+200A, U+2028, U+2029,
    U+202F, U+205F and U+3000. *)
Definition is_space (c : ascii) : bool :=
  let n := code c in
  ((9 <=? n) && (n <=? 13) || (28 <=? n) && (n <=? 32))%nat.

Definition is_space2 (a b : ascii) : bool :=
  ((code a =? 194) && ((code b =? 133) || (code b =? 160)))%nat.

Definition is_space3 (a b c : ascii) : bool :=
  ((code a =? 225) && (code b =? 154) && (code c =? 128)
   || (code a =? 226) && (code b =? 128)
      && ((128 <=? code c) && (code c <=? 138) || (168 <=? code c) && (code c <=? 169)
          || (code c =? 175))
   || (code a =? 226) && (code b =? 129) && (code c =? 159)
   || (code a =? 227) && (code b =? 128) && (code c =? 128))%nat.

Definition is_digit (c : ascii) : bool :=
  let n := code c in ((48 <=? n) && (n <=? 57))%nat.

Definition is_upper (c : ascii) : bool :=
  let n := code c in ((65 <=? n) && (n <=? 90))%nat.

Definition is_lower (c : ascii) : bool :=
  let n := code c in ((97 <=? n) && (n <=? 122))%nat.

Definition is_alnum (c : ascii) : bool := is_digit c || is_upper c || is_lower c.

Definition digit_val (c : ascii) : N := N.of_nat (code c - 48).

Definition to_upper (c : ascii) : ascii :=
  if is_lower c then ascii_of_nat (code c - 32) else c.

Definition to_lower (c : ascii) : ascii :=
  if is_upper c then ascii_of_nat (code c + 32) else c.

Fixpoint str_map (f : ascii -> ascii) (s : string) : string :=
  match s with
  | EmptyString => EmptyString
  | String c r => String (f c) (str_map f r)
  end.

Fixpoint str_all (p : ascii -> bool) (s : string) : bool :=
  match s with
  | EmptyString => true
  | String c r => p c && str_all p r
  end.

Definition is_empty (s : string) : bool :=
  match s with EmptyString => true | _ => false end.

(** [s.isascii()] *)
Definition ascii_text (s : string) : bool := str_all is_ascii s.

(** [s.upper()], [s.lower()] for a text of ASCII *)
Definition upper (s : string) : string := str_map to_upper s.
Definition lower (s : string) : string := str_map to_lower s.

(** [s.lstrip()]: the whitespace characters at the start are dropped. *)
Fixpoint lstrip (s : string) : string :=
  match s with
  | EmptyString => EmptyString
  | String a r =>
      if is_space a then lstrip r
      else
        match r with
        | String b r2 =>
            if is_space2 a b then lstrip r2
            else
              match r2 with
              | String c r3 => if is_space3 a b c then lstrip r3 else s
              | EmptyString => s
              end
        | EmptyString => s
        end
  end.

(** [s] holds whitespace characters only ([s.isspace()], or [s] is
    empty). *)
Fixpoint spaces (s : string) : bool :=
  match s with
  | EmptyString => true
  | String a r =>
      if is_space a then spaces r
      else
        match r with
        | String b r2 =>
            if is_space2 a b then spaces r2
            else
              match r2 with
              | String c r3 => is_space3 a b c && spaces r3
              | EmptyString => false
              end
        | EmptyString => false
        end
  end.

(** [s.rstrip()]: the whitespace characters at the end are dropped, that
    is, what follows the last byte of the last other character. *)
Fixpoint rstrip (s : string) : string :=
  match s with
  | EmptyString => EmptyString
  | String c r => if spaces s then EmptyString else String c (rstrip r)
  end.

(** [s.strip()] *)
Definition strip (s : string) : string := rstrip (lstrip s).

(** [s.replace(old, new)] for a one-character [old] *)
Fixpoint replace (old : ascii) (new : string) (s : string) : string :=
  match s with
  | EmptyString => EmptyString
  | String c r =>
      if Ascii.eqb c old then new +:+ replace old new r
      else String c (replace old new r)
  end.

(** [s.isalnum()] for a text of ASCII: at least one character, and all of
    them letters or digits *)
Definition isalnum (s : string) : bool := negb (is_empty s) && str_all is_alnum s.

(** [c in s] for a one-character [c] *)
Fixpoint contains (c : ascii) (s : string) : bool :=
  match s with
  | EmptyString => false
  | String d r => Ascii.eqb d c || contains c r
  end.

Fixpoint join (sep : string) (l : list string) : string :=
  match l with
  | [] => EmptyString
  | [x] => x
  | x :: r => x +:+ sep +:+ join sep r
  end.

Fixpoint repeat_char (c : ascii) (n : nat) : string :=
  match n with
  | O => EmptyString
  | S k => String c (repeat_char c k)
  end.

Fixpoint str_take (n : nat) (s : string) : string :=
  match n, s with
  | S k, String c r => String c (str_take k r)
  | _, _ => EmptyString
  end.

Fixpoint str_drop (n : nat) (s : string) : string :=
  match n, s with
  | S k, String _ r => str_drop k r
  | _, _ => s
  end.

Fixpoint strip_prefix (p s : string) : option string :=
  match p, s with
  | EmptyString, _ => Some s
  | String a p', String b s' => if Ascii.eqb a b then strip_prefix p' s' else None
  | _, _ => None
  end.

End Py.

(** ** [decimal.Decimal] under the default context

    Precision 28, rounding ROUND_HALF_EVEN, Emax 999999, Emin -999999,
    traps on InvalidOperation, DivisionByZero and Overflow.  The
    operations are those the validator calls: the constructor from a
    string, [str], [+], [-], [*], [abs], the order comparisons and
    truthiness.  Exponents are unbounded integers (the constructor is
    exact). *)

Module Decimal.
Import Py.

Inductive Dec : Set :=
| DFin (neg : bool) (coeff : N) (exp : Z)
| DInf (neg : bool)
| DNaN (neg : bool) (signaling : bool) (payload : N).

#[global] Instance Dec_eq_dec : EqDecision Dec.
Proof. solve_decision. Defined.

Definition prec : Z := 28.
Definition Emax : Z := 999999.
Definition Emin : Z := -999999.
Definition Etiny : Z := Emin - prec + 1.
Definition Etop : Z := Emax - prec + 1.

(** Number of decimal digits of a coefficient ([len(self._int)]). *)
Fixpoint ndigits_fuel (fuel : nat) (n : N) : nat :=
  match fuel with
  | O => 1%nat
  | S f => if (n <? 10)%N then 1%nat else S (ndigits_fuel f (n / 10)%N)
  end.

Definition ndigits (n : N) : nat := ndigits_fuel (N.size_nat n) n.

(** Dropping the last [shift] digits of [c], rounding half to even. *)
Definition round_half_even (c shift : Z) : Z :=
  let p := 10 ^ shift in
  let q := c / p in
  let r := c mod p in
  if (2 * r >? p) || ((2 * r =? p) && Z.odd q) then q + 1 else q.

(** [Decimal._fix]: round a finite result to the context. *)
Definition fix_finite (neg : bool) (c : N) (e : Z) : outcome Dec :=
  if (c =? 0)%N then Ok (DFin neg 0 (Z.min (Z.max e Etiny) Emax))
  else
    let exp_min := Z.of_nat (ndigits c) + e - prec in
    if exp_min >? Etop then Raise Overflow
    else
      let exp_min := Z.max exp_min Etiny in
      if e <? exp_min then
        let q := round_half_even (Z.of_N c) (exp_min - e) in
        let '(q, exp_min) :=
          if q >=? 10 ^ prec then (q / 10, exp_min + 1) else (q, exp_min) in
        if exp_min >? Etop then Raise Overflow
        else Ok (DFin neg (Z.to_N q) exp_min)
      else Ok (DFin neg c e).

(** [Decimal._fix_nan]: the payload keeps its last [prec] digits. *)
Definition fix_nan (neg : bool) (payload : N) : Dec :=
  DNaN neg false (payload mod 10 ^ 28)%N.

(** [Decimal._check_nans]: a signaling NaN raises, a quiet NaN is the
    result; [None] when neither operand is a NaN. *)
Definition check_nans (a b : Dec) : option (outcome Dec) :=
  match a, b with
  | DNaN _ true _, _ => Some (Raise InvalidOperation)
  | _, DNaN _ true _ => Some (Raise InvalidOperation)
  | DNaN s false p, _ => Some (Ok (fix_nan s p))
  | _, DNaN s false p => Some (Ok (fix_nan s p))
  | _, _ => None
  end.

Definition is_nan (d : Dec) : bool :=
  match d with DNaN _ _ _ => true | _ => false end.

Definition copy_negate (d : Dec) : Dec :=
  match d with
  | DFin s c e => DFin (negb s) c e
  | DInf s => DInf (negb s)
  | DNaN s g p => DNaN (negb s) g p
  end.

(** The signed coefficient of a finite decimal written at exponent [m]
    (for [m] at most the decimal's own exponent). *)
Definition scaled (neg : bool) (c : N) (e m : Z) : Z :=
  (if neg then -1 else 1) * Z.of_N c * 10 ^ (e - m).

(** The unrounded sum of two finite decimals: its exponent is the smaller
    of the two; a zero sum is negative only when both operands are. *)
Definition exact_sum (s1 : bool) (c1 : N) (e1 : Z) (s2 : bool) (c2 : N) (e2 : Z)
  : bool * N * Z :=
  let e := Z.min e1 e2 in
  let z := scaled s1 c1 e1 e + scaled s2 c2 e2 e in
  let neg := if z =? 0 then s1 && s2 else z <? 0 in
  (neg, Z.abs_N z, e).

Definition add_finite (s1 : bool) (c1 : N) (e1 : Z) (s2 : bool) (c2 : N) (e2 : Z)
  : outcome Dec :=
  let '(neg, c, e) := exact_sum s1 c1 e1 s2 c2 e2 in
  fix_finite neg c e.

(** [a + b] *)
Definition add (a b : Dec) : outcome Dec :=
  match check_nans a b with
  | Some r => r
  | None =>
      match a, b with
      | DInf s1, DInf s2 => if xorb s1 s2 then Raise InvalidOperation else Ok (DInf s1)
      | DInf s1, _ => Ok (DInf s1)
      | _, DInf s2 => Ok (DInf s2)
      | DFin s1 c1 e1, DFin s2 c2 e2 => add_finite s1 c1 e1 s2 c2 e2
      | _, _ => Raise InvalidOperation
      end
  end.

(** [a - b] *)
Definition sub (a b : Dec) : outcome Dec :=
  match check_nans a b with
  | Some r => r
  | None => add a (copy_negate b)
  end.

(** [a * b] *)
Definition mul (a b : Dec) : outcome Dec :=
  match check_nans a b with
  | Some r => r
  | None =>
      match a, b with
      | DInf s1, DInf s2 => Ok (DInf (xorb s1 s2))
      | DInf s1, DFin s2 c2 _ =>
          if (c2 =? 0)%N then Raise InvalidOperation else Ok (DInf (xorb s1 s2))
      | DFin s1 c1 _, DInf s2 =>
          if (c1 =? 0)%N then Raise InvalidOperation else Ok (DInf (xorb s1 s2))
      | DFin s1 c1 e1, DFin s2 c2 e2 => fix_finite (xorb s1 s2) (c1 * c2)%N (e1 + e2)
      | _, _ => Raise InvalidOperation
      end
  end.

(** [abs(a)] *)
Definition abs (a : Dec) : outcome Dec :=
  match a with
  | DNaN _ true _ => Raise InvalidOperation
  | DNaN s false p => Ok (fix_nan s p)
  | DInf _ => Ok (DInf false)
  | DFin _ c e => fix_finite false c e
  end.

(** [Decimal._cmp] on two decimals that are not NaN. *)
Definition cmp (a b : Dec) : comparison :=
  match a, b with
  | DFin s1 c1 e1, DFin s2 c2 e2 =>
      let m := Z.min e1 e2 in
      Z.compare (scaled s1 c1 e1 m) (scaled s2 c2 e2 m)
  | DInf s1, DInf s2 =>
      match s1, s2 with
      | true, false => Lt
      | false, true => Gt
      | _, _ => Eq
      end
  | DInf s, _ => if s then Lt else Gt
  | _, DInf s => if s then Gt else Lt
  | _, _ => Eq
  end.

(** [a < b] and [a > b]: a NaN operand signals InvalidOperation. *)
Definition lt (a b : Dec) : outcome bool :=
  if is_nan a || is_nan b then Raise InvalidOperation
  else Ok (match cmp a b with Lt => true | _ => false end).

Definition gt (a b : Dec) : outcome bool :=
  if is_nan a || is_nan b then Raise InvalidOperation
  else Ok (match cmp a b with Gt => true | _ => false end).

(** [bool(a)] *)
Definition truthy (a : Dec) : bool :=
  match a with
  | DFin _ c _ => negb (c =? 0)%N
  | _ => true
  end.

(** *** [str(a)]: the scientific string of the specification *)

Definition sign_str (neg : bool) : string := if neg then "-" else EmptyString.

(** ["%+d" % z] *)
Definition signed_int_str (z : Z) : string :=
  (if z <? 0 then "-" else "+") +:+ pretty (Z.abs_N z).

Definition payload_str (p : N) : string :=
  if (p =? 0)%N then EmptyString else pretty p.

Definition to_str (d : Dec) : string :=
  match d with
  | DInf s => sign_str s +:+ "Infinity"
  | DNaN s false p => sign_str s +:+ "NaN" +:+ payload_str p
  | DNaN s true p => sign_str s +:+ "sNaN" +:+ payload_str p
  | DFin s c e =>
      let digits := pretty c in
      let nd := Z.of_nat (String.length digits) in
      let leftdigits := e + nd in
      let dotplace := if (e <=? 0) && (leftdigits >? -6) then leftdigits else 1 in
      let body :=
        if dotplace <=? 0 then
          "0." +:+ repeat_char "0" (Z.to_nat (- dotplace)) +:+ digits
        else if dotplace >=? nd then
          digits +:+ repeat_char "0" (Z.to_nat (dotplace - nd))
        else
          str_take (Z.to_nat dotplace) digits +:+ "." +:+
          str_drop (Z.to_nat dotplace) digits in
      let ex :=
        if leftdigits =? dotplace then EmptyString
        else "E" +:+ signed_int_str (leftdigits - dotplace) in
      sign_str s +:+ body +:+ ex
  end.

(** *** [Decimal(s)] for a string [s]

    The string is stripped, underscores are removed, and the rest must be
    (case-insensitively) an optional sign followed by a number with at
    least one digit and an optional exponent, or [Inf]/[Infinity], or
    [NaN]/[sNaN] with optional diagnostic digits.  [None] stands for the
    raised [InvalidOperation] (ConversionSyntax). *)

Fixpoint read_digits (s : string) (acc : N) (n : nat) : N * nat * string :=
  match s with
  | String c r =>
      if is_digit c then read_digits r (acc * 10 + digit_val c)%N (S n)
      else (acc, n, s)
  | EmptyString => (acc, n, s)
  end.

Definition read_sign (s : string) : bool * string :=
  match s with
  | String "-" r => (true, r)
  | String "+" r => (false, r)
  | _ => (false, s)
  end.

(** the exponent part: [E], an optional sign, at least one digit, the end *)
Definition read_exponent (s : string) : option Z :=
  match s with
  | EmptyString => Some 0
  | String "e" r =>
      let '(neg, r1) := read_sign r in
      let '(v, n, r2) := read_digits r1 0 0 in
      if (n =? 0)%nat || negb (is_empty r2) then None
      else Some (if neg then - Z.of_N v else Z.of_N v)
  | _ => None
  end.

Definition read_payload (neg signaling : bool) (s : string) : option Dec :=
  let '(v, _, r) := read_digits s 0 0 in
  if is_empty r then Some (DNaN neg signaling v) else None.

Definition of_string (s : string) : option Dec :=
  let s1 := lower (replace "_" EmptyString (strip s)) in
  let '(neg, s2) := read_sign s1 in
  if String.eqb s2 "inf" || String.eqb s2 "infinity" then Some (DInf neg)
  else
    match strip_prefix "nan" s2 with
    | Some r => read_payload neg false r
    | None =>
        match strip_prefix "snan" s2 with
        | Some r => read_payload neg true r
        | None =>
            let '(i, ni, r1) := read_digits s2 0 0 in
            let '(c, nf, r2) :=
              match r1 with
              | String "." r => read_digits r i 0
              | _ => (i, O, r1)
              end in
            if (ni + nf =? 0)%nat then None
            else
              match read_exponent r2 with
              | Some x => Some (DFin neg c (x - Z.of_nat nf))
              | None => None
              end
        end
    end.

(** The exact value of a finite decimal. *)
Definition ten : Q := inject_Z 10.

Definition value (neg : bool) (c : N) (e : Z) : Q :=
  (inject_Z ((if neg then -1 else 1) * Z.of_N c) * Qpower ten e)%Q.

Definition dvalue (d : Dec) : Q :=
  match d with
  | DFin s c e => value s c e
  | _ => 0%Q
  end.

Definition is_finite (d : Dec) : bool :=
  match d with DFin _ _ _ => true | _ => false end.

(** A coefficient and exponent that the context leaves as they are: at
    most [prec] digits, the exponent between Etiny and Etop. *)
Definition fits (c : N) (e : Z) : Prop :=
  (c < 10 ^ 28)%N /\ Etiny <= e <= Etop.

(** The unrounded sum and difference of two finite decimals. *)
Definition exact_add (a b : Dec) : Dec :=
  match a, b with
  | DFin s1 c1 e1, DFin s2 c2 e2 =>
      let '(neg, c, e) := exact_sum s1 c1 e1 s2 c2 e2 in DFin neg c e
  | _, _ => a
  end.

Definition exact_sub (a b : Dec) : Dec := exact_add a (copy_negate b).

Definition dec_fits (d : Dec) : Prop :=
  match d with
  | DFin _ c e => fits c e
  | _ => False
  end.

End Decimal.

(** ** The values an invoice record can hold

    A record is a Python [dict] from field names to untyped values:
    [None], booleans, integers, floats, strings, decimals, dates, lists
    and dicts.  A [float] is carried as the pair of its [repr] and its
    exact value, which is all the validator observes of it; a [dict] is
    the list of its bindings in insertion order, with distinct string
    keys ([get] reads the first binding of a key). *)

Module Value.
Import Py.
Import Decimal.

Inductive fval : Set :=
| FNan
| FInf (neg : bool)
| FFin (q : Q).

Record pyfloat : Set := mk_float { fl_repr : string; fl_val : fval }.

(** [datetime.date] *)
Record date : Set := mk_date { year : N; month : N; day : N }.

#[warnings="-register-all"] Inductive pyval : Set :=
| VNone
| VBool (b : bool)
| VInt (z : Z)
| VFloat (f : pyfloat)
| VStr (s : string)
| VDecimal (d : Dec)
| VDate (d : date)
| VList (l : list pyval)
| VDict (m : list (string * pyval)).

Definition record : Set := list (string * pyval).

(** [d.get(key)] and [d.get(key, default)] *)
Fixpoint get_default (key : string) (default : pyval) (d : record) : pyval :=
  match d with
  | [] => default
  | (k, v) :: r => if String.eqb k key then v else get_default key default r
  end.

Definition get (key : string) (d : record) : pyval := get_default key VNone d.

(** [key in d] *)
Fixpoint has_key (key : string) (d : record) : bool :=
  match d with
  | [] => false
  | (k, _) :: r => String.eqb k key || has_key key r
  end.

(** *** Truthiness, [bool(v)] *)

Definition float_truthy (f : pyfloat) : bool :=
  match fl_val f with
  | FFin q => negb (Qnum q =? 0)
  | _ => true
  end.

Definition truthy (v : pyval) : bool :=
  match v with
  | VNone => false
  | VBool b => b
  | VInt z => negb (z =? 0)
  | VFloat f => float_truthy f
  | VStr s => negb (is_empty s)
  | VDecimal d => Decimal.truthy d
  | VDate _ => true
  | VList l => match l with [] => false | _ => true end
  | VDict m => match m with [] => false | _ => true end
  end.

(** *** The interpreter

    What the interpreter's library decides and the embedding does not
    compute: [datetime.fromisoformat(s).date()] ([None] for the raised
    [ValueError]; the accepted formats depend on the Python version),
    [<] between two lists (it depends on the identity of the elements),
    and what the Unicode database says of a text that is not ASCII: its
    [upper()], its [isalnum()], its [repr()], and the ASCII numeral that
    [Decimal] reads in its place (the whitespace around it dropped,
    every decimal digit of any script written as the digit of ASCII,
    and empty if the text holds any other character outside ASCII).

    The interpreter is an implicit argument of every function below that
    consults it: a statement that binds [rt] speaks of that interpreter
    throughout. *)
Record runtime : Type := mk_runtime {
  fromisoformat : string -> option date;
  list_lt : list pyval -> list pyval -> outcome bool;
  unicode_upper : string -> string;
  unicode_isalnum : string -> bool;
  unicode_repr : string -> string;
  unicode_numeral : string -> string
}.

Existing Class runtime.

(** [s.upper()] and [s.isalnum()] *)
Definition str_upper {rt : runtime} (s : string) : string :=
  if ascii_text s then upper s else unicode_upper rt s.

Definition str_isalnum {rt : runtime} (s : string) : bool :=
  if ascii_text s then isalnum s else unicode_isalnum rt s.

(** The text that [Decimal(s)] parses. *)
Definition numeral {rt : runtime} (s : string) : string :=
  if ascii_text s then s else unicode_numeral rt s.

(** *** [str(v)] and [repr(v)] *)

Definition dq : ascii := ascii_of_nat 34.
Definition sq : ascii := ascii_of_nat 39.
Definition backslash : ascii := ascii_of_nat 92.

Definition hex_digit (n : nat) : ascii :=
  if (n <? 10)%nat then ascii_of_nat (48 + n) else ascii_of_nat (87 + n).

Definition repr_char (quote c : ascii) : string :=
  let n := code c in
  if Ascii.eqb c quote || Ascii.eqb c backslash then String backslash (String c EmptyString)
  else if (n =? 9)%nat then String backslash "t"
  else if (n =? 10)%nat then String backslash "n"
  else if (n =? 13)%nat then String backslash "r"
  else if (n <? 32)%nat || (n =? 127)%nat then
    String backslash (String "x" (String (hex_digit (n / 16)) (String (hex_digit (n mod 16)) EmptyString)))
  else String c EmptyString.

Fixpoint repr_chars (quote : ascii) (s : string) : string :=
  match s with
  | EmptyString => EmptyString
  | String c r => repr_char quote c +:+ repr_chars quote r
  end.

(** [repr(s)] of a string of ASCII: single quotes, unless the string
    holds a single quote and no double quote. *)
Definition ascii_repr (s : string) : string :=
  let quote := if contains sq s && negb (contains dq s) then dq else sq in
  String quote (repr_chars quote s) +:+ String quote EmptyString.

(** [repr(s)] *)
Definition str_repr {rt : runtime} (s : string) : string :=
  if ascii_text s then ascii_repr s else unicode_repr rt s.

(** zero-padding to a width, ["%0wd"] *)
Definition pad0 (w : nat) (n : N) : string :=
  let s := pretty n in
  repeat_char "0" (w - String.length s) +:+ s.

(** [d.isoformat()] *)
Definition isoformat (d : date) : string :=
  pad0 4 (year d) +:+ "-" +:+ pad0 2 (month d) +:+ "-" +:+ pad0 2 (day d).

Definition date_repr (d : date) : string :=
  "datetime.date(" +:+ pretty (year d) +:+ ", " +:+ pretty (month d) +:+ ", "
    +:+ pretty (day d) +:+ ")".

Fixpoint py_repr {rt : runtime} (v : pyval) : string :=
  match v with
  | VNone => "None"
  | VBool b => if b then "True" else "False"
  | VInt z => pretty z
  | VFloat f => fl_repr f
  | VStr s => str_repr s
  | VDecimal d => "Decimal('" +:+ Decimal.to_str d +:+ "')"
  | VDate d => date_repr d
  | VList l => "[" +:+ join ", " (map py_repr l) +:+ "]"
  | VDict m =>
      "{" +:+ join ", " (map (fun kv => str_repr (fst kv) +:+ ": " +:+ py_repr (snd kv)) m)
        +:+ "}"
  end.

(** The text of [str(v)], and of [v] in an f-string. *)
Definition py_str {rt : runtime} (v : pyval) : string :=
  match v with
  | VStr s => s
  | VDecimal d => Decimal.to_str d
  | VDate d => isoformat d
  | _ => py_repr v
  end.

(** The conversion of an [int] to a string raises ValueError when the
    integer has more digits than [sys.get_int_max_str_digits()], 4300
    unless it is changed, which the program does not do: so does the
    conversion of a list or a dict that holds such an integer. *)
Definition int_max_str_digits : nat := 4300.

Definition int_digits (z : Z) : nat := String.length (pretty (Z.abs_N z)).

Fixpoint str_ok (v : pyval) : bool :=
  match v with
  | VInt z => (int_digits z <=? int_max_str_digits)%nat
  | VList l => forallb str_ok l
  | VDict m => forallb (fun kv => str_ok (snd kv)) m
  | _ => true
  end.

(** [str(v)], [f"{v}"] *)
Definition call_str {rt : runtime} (v : pyval) : outcome string :=
  if str_ok v then Ok (py_str v) else Raise ValueError.

(** *** Order comparisons *)

Definition date_compare (a b : date) : comparison :=
  match (year a ?= year b)%N with
  | Eq => match (month a ?= month b)%N with
          | Eq => (day a ?= day b)%N
          | c => c
          end
  | c => c
  end.

Definition date_lt (a b : date) : bool :=
  match date_compare a b with Lt => true | _ => false end.

(** The numbers: [bool], [int], [float] and [Decimal], with their exact
    value and whether they are a [Decimal]. *)
Definition dec_fval (d : Dec) : fval :=
  match d with
  | DFin s c e => FFin (Decimal.value s c e)
  | DInf s => FInf s
  | DNaN _ _ _ => FNan
  end.

Definition as_number (v : pyval) : option (bool * fval) :=
  match v with
  | VBool b => Some (false, FFin (inject_Z (if b then 1 else 0)))
  | VInt z => Some (false, FFin (inject_Z z))
  | VFloat f => Some (false, fl_val f)
  | VDecimal d => Some (true, dec_fval d)
  | _ => None
  end.

Definition fval_compare (a b : fval) : comparison :=
  match a, b with
  | FFin p, FFin q => Qcompare p q
  | FInf s1, FInf s2 =>
      match s1, s2 with
      | true, false => Lt
      | false, true => Gt
      | _, _ => Eq
      end
  | FInf s, _ => if s then Lt else Gt
  | _, FInf s => if s then Gt else Lt
  | _, _ => Eq
  end.

Definition is_fnan (a : fval) : bool := match a with FNan => true | _ => false end.

(** [a < b] between two numbers: a NaN compares false, except that a
    comparison in which a [Decimal] takes part signals InvalidOperation. *)
Definition number_lt (a b : bool * fval) : outcome bool :=
  if is_fnan (snd a) || is_fnan (snd b) then
    if fst a || fst b then Raise InvalidOperation else Ok false
  else Ok (match fval_compare (snd a) (snd b) with Lt => true | _ => false end).

End Value.

(** ** [invoice_qc/validator.py]: class [InvoiceValidator] *)

Module Validator.
Import Py.
Import Decimal.
Import Value.

(** [models.ValidationResult] *)
Record ValidationResult : Set := mk_result {
  invoice_id : string;
  is_valid : bool;
  errors : list string;
  warnings : list string
}.

(** [models.ValidationSummary] (the timestamp, taken from the clock when
    the summary is built, is left out). *)
Record ValidationSummary : Type := mk_summary {
  total_invoices : Z;
  valid_invoices : Z;
  invalid_invoices : Z;
  error_counts : gmap string nat
}.

(** The state outside the record that a validation reads: the clock
    ([date.today()]) and the duplicate oracle ([self.db.check_duplicate]). *)
Record env : Type := mk_env {
  today : date;
  check_duplicate : pyval -> pyval -> string -> outcome bool
}.

(** [result.errors.append(msg)], [result.warnings.append(msg)] *)
Definition add_error (msg : string) (r : ValidationResult) : ValidationResult :=
  mk_result (invoice_id r) (is_valid r) (errors r ++ [msg]) (warnings r).

Definition add_warning (msg : string) (r : ValidationResult) : ValidationResult :=
  mk_result (invoice_id r) (is_valid r) (errors r) (warnings r ++ [msg]).

(** [try: body  except (ValueError, TypeError): handler] *)
Definition except_value_type {A} (body : outcome A) (handler : outcome A) : outcome A :=
  match body with
  | Raise ValueError => handler
  | Raise TypeError => handler
  | _ => body
  end.

(** [try: body  except Exception: handler] *)
Definition except_exception {A} (body : outcome A) (handler : outcome A) : outcome A :=
  match body with
  | Raise _ => handler
  | _ => body
  end.

(** [for x in xs: body], threading the result under construction *)
Fixpoint for_each {A S} (xs : list A) (body : A -> S -> outcome S) (s : S) : outcome S :=
  match xs with
  | [] => Ok s
  | x :: r => s' ← body x s; for_each r body s'
  end.

Definition tolerance : Dec := DFin false 1 (-2).
Definition high_amount_threshold : Dec := DFin false 100000000 (-2).
Definition dec_zero : Dec := DFin false 0 0.

(** [Decimal(s)] for a string [s] *)
Definition decimal_of_string {rt : runtime} (s : string) : outcome Dec :=
  match Decimal.of_string (numeral s) with
  | Some d => Ok d
  | None => Raise InvalidOperation
  end.

(** [Decimal(str(v))] *)
Definition decimal_of_str {rt : runtime} (v : pyval) : outcome Dec :=
  s ← call_str v;
  decimal_of_string s.

(** [InvoiceValidator._to_decimal] *)
Definition _to_decimal {rt : runtime} (value : pyval) : outcome (option Dec) :=
  match value with
  | VNone => Ok None
  | _ =>
      except_value_type
        (match value with
         | VDecimal d => Ok (Some d)
         | _ => d ← decimal_of_str value; Ok (Some d)
         end)
        (Ok None)
  end.

(** *** [_check_required_fields] *)

Definition required_fields : list string :=
  ["invoice_number"; "invoice_date"; "seller_name"; "buyer_name";
   "currency"; "net_total"; "tax_amount"; "gross_total"].

(** [isinstance(value, (int, float, Decimal))] *)
Definition is_number (value : pyval) : bool :=
  match value with
  | VBool _ | VInt _ | VFloat _ | VDecimal _ => true
  | _ => false
  end.

(** [value < 0] for such a number *)
Definition lt_zero (value : pyval) : outcome bool :=
  match value with
  | VBool _ => Ok false
  | VInt z => Ok (z <? 0)
  | VFloat f =>
      Ok (match fl_val f with
          | FFin q => Qnum q <? 0
          | FInf s => s
          | FNan => false
          end)
  | VDecimal d => Decimal.lt d dec_zero
  | _ => Raise TypeError
  end.

(** [isinstance(value, str) and not value.strip()] *)
Definition is_blank_str (value : pyval) : bool :=
  match value with
  | VStr s => is_empty (strip s)
  | _ => false
  end.

Definition check_required_field (invoice : record) (field : string)
    (result : ValidationResult) : outcome ValidationResult :=
  let value := get field invoice in
  match value with
  | VNone => Ok (add_error ("Missing required field: " +:+ field) result)
  | _ =>
      if is_blank_str value then
        Ok (add_error ("Empty required field: " +:+ field) result)
      else if is_number value then
        negative ← lt_zero value;
        if negative : bool then
          Ok (add_error ("Negative value in required field: " +:+ field) result)
        else Ok result
      else Ok result
  end.

Definition _check_required_fields (invoice : record) (result : ValidationResult)
  : outcome ValidationResult :=
  for_each required_fields (check_required_field invoice) result.

(** *** [_check_formats] *)

(** [datetime.fromisoformat(v).date()] when [v] is a string, [v] itself
    otherwise. *)
Definition parse_date (rt : runtime) (v : pyval) : outcome pyval :=
  match v with
  | VStr s =>
      match fromisoformat rt s with
      | Some d => Ok (VDate d)
      | None => Raise ValueError
      end
  | _ => Ok v
  end.

(** [v > date.today()] *)
Definition gt_date (v : pyval) (d : date) : outcome bool :=
  match v with
  | VDate x => Ok (date_lt d x)
  | _ => Raise TypeError
  end.

(** [a < b] on what [parse_date] returns *)
Definition py_lt (rt : runtime) (a b : pyval) : outcome bool :=
  match a, b with
  | VDate x, VDate y => Ok (date_lt x y)
  | VStr x, VStr y => Ok (String.ltb x y)
  | VList x, VList y => list_lt rt x y
  | _, _ =>
      match as_number a, as_number b with
      | Some x, Some y => number_lt x y
      | _, _ => Raise TypeError
      end
  end.

Definition allowed_currencies : list string := ["EUR"; "USD"; "INR"; "GBP"].

(** [s in allowed_currencies] *)
Definition in_list (s : string) (l : list string) : bool :=
  existsb (String.eqb s) l.

(** [v.upper()] *)
Definition call_upper {rt : runtime} (v : pyval) : outcome string :=
  match v with
  | VStr s => Ok (str_upper s)
  | _ => Raise AttributeError
  end.

(** [v.replace('-', '').replace(' ', '').isalnum()]; a [date] has a
    [replace] method of its own, which rejects the string arguments. *)
Definition tax_id_alnum {rt : runtime} (v : pyval) : outcome bool :=
  match v with
  | VStr s => Ok (str_isalnum (replace " " EmptyString (replace "-" EmptyString s)))
  | VDate _ => Raise TypeError
  | _ => Raise AttributeError
  end.

Definition check_invoice_date (rt : runtime) (e : env) (invoice : record)
    (result : ValidationResult) : outcome ValidationResult :=
  let invoice_date := get "invoice_date" invoice in
  if truthy invoice_date then
    except_value_type
      (parsed_date ← parse_date rt invoice_date;
       future ← gt_date parsed_date (today e);
       if future : bool then Ok (add_error "Invoice date cannot be in the future" result)
       else Ok result)
      (shown ← call_str invoice_date;
       Ok (add_error ("Invalid invoice_date format: " +:+ shown) result))
  else Ok result.

Definition check_due_date (rt : runtime) (invoice : record)
    (result : ValidationResult) : outcome ValidationResult :=
  let invoice_date := get "invoice_date" invoice in
  let due_date := get "due_date" invoice in
  if truthy due_date && truthy invoice_date then
    except_value_type
      (parsed_due ← parse_date rt due_date;
       parsed_invoice ← parse_date rt invoice_date;
       before ← py_lt rt parsed_due parsed_invoice;
       if before : bool then Ok (add_error "Due date cannot be before invoice date" result)
       else Ok result)
      (shown ← call_str due_date;
       Ok (add_error ("Invalid due_date format: " +:+ shown) result))
  else Ok result.

(** The currency, and below the tax identifier, is a string where the
    message is written (any other value has raised before), and the
    allowed codes are ASCII: these conversions return. *)
Definition check_currency {rt : runtime} (invoice : record) (result : ValidationResult)
  : outcome ValidationResult :=
  let currency := get "currency" invoice in
  if truthy currency then
    up ← call_upper currency;
    if negb (in_list up allowed_currencies) then
      Ok (add_error ("Invalid currency: " +:+ py_str currency +:+ ". Must be one of "
                       +:+ py_str (VList (map VStr allowed_currencies))) result)
    else Ok result
  else Ok result.

Definition check_tax_id {rt : runtime} (field label : string) (invoice : record)
    (result : ValidationResult) : outcome ValidationResult :=
  let tax_id := get field invoice in
  if truthy tax_id then
    ok ← tax_id_alnum tax_id;
    if negb ok then
      Ok (add_warning (label +:+ " tax ID format may be invalid: " +:+ py_str tax_id) result)
    else Ok result
  else Ok result.

Definition _check_formats (rt : runtime) (e : env) (invoice : record)
    (result : ValidationResult) : outcome ValidationResult :=
  result ← check_invoice_date rt e invoice result;
  result ← check_due_date rt invoice result;
  result ← check_currency invoice result;
  result ← check_tax_id "seller_tax_id" "Seller" invoice result;
  check_tax_id "buyer_tax_id" "Buyer" invoice result.

(** *** [_check_business_rules] *)

(** [for item in v]: only lists, dicts (their keys) and strings (their
    characters) can be iterated. *)
Fixpoint chars (s : string) : list pyval :=
  match s with
  | EmptyString => []
  | String c r => VStr (String c EmptyString) :: chars r
  end.

Definition iterate (v : pyval) : outcome (list pyval) :=
  match v with
  | VList l => Ok l
  | VDict m => Ok (map (fun kv => VStr (fst kv)) m)
  | VStr s => Ok (chars s)
  | _ => Raise TypeError
  end.

(** [item.get(key)]: only a dict has the method *)
Definition item_get (item : pyval) (key : string) : outcome pyval :=
  match item with
  | VDict m => Ok (get key m)
  | _ => Raise AttributeError
  end.

(** truthiness of an [Optional[Decimal]] *)
Definition opt_truthy (o : option Dec) : bool :=
  match o with
  | Some d => Decimal.truthy d
  | None => false
  end.

(** [abs(a - b) > tolerance] *)
Definition differs (a b : Dec) : outcome bool :=
  diff ← Decimal.sub a b;
  magnitude ← Decimal.abs diff;
  Decimal.gt magnitude tolerance.

Definition mismatch_message (net_total tax_amount gross_total expected_gross : Dec) : string :=
  "Total calculation mismatch: net (" +:+ Decimal.to_str net_total +:+ ") + tax ("
    +:+ Decimal.to_str tax_amount +:+ ") != gross (" +:+ Decimal.to_str gross_total
    +:+ "). Expected: " +:+ Decimal.to_str expected_gross.

(** Rule 1: totals validation (net + tax = gross) *)
Definition check_totals (net_total tax_amount gross_total : option Dec)
    (result : ValidationResult) : outcome ValidationResult :=
  match net_total, tax_amount, gross_total with
  | Some n, Some t, Some g =>
      expected_gross ← Decimal.add n t;
      bad ← differs expected_gross g;
      if bad : bool then Ok (add_error (mismatch_message n t g expected_gross) result)
      else Ok result
  | _, _, _ => Ok result
  end.

Definition add_item_total {rt : runtime} (item : pyval) (line_items_sum : Dec) : outcome Dec :=
  v ← item_get item "line_total";
  item_total ← _to_decimal v;
  match item_total with
  | Some d => if Decimal.truthy d then Decimal.add line_items_sum d else Ok line_items_sum
  | None => Ok line_items_sum
  end.

(** Rule 2: line items sum validation *)
Definition check_line_items_sum {rt : runtime} (line_items : pyval) (net_total : option Dec)
    (result : ValidationResult) : outcome ValidationResult :=
  if truthy line_items then
    match net_total with
    | Some n =>
        items ← iterate line_items;
        line_items_sum ← for_each items add_item_total dec_zero;
        bad ← differs line_items_sum n;
        if bad : bool then
          Ok (add_warning ("Line items sum (" +:+ Decimal.to_str line_items_sum
                             +:+ ") does not match net total (" +:+ Decimal.to_str n +:+ ")")
                          result)
        else Ok result
    | None => Ok result
    end
  else Ok result.

(** Rule 3: negative amounts check *)
Definition amount_fields : list string := ["net_total"; "tax_amount"; "gross_total"].

Definition check_negative_amount {rt : runtime} (invoice : record) (field : string)
    (result : ValidationResult) : outcome ValidationResult :=
  value ← _to_decimal (get field invoice);
  match value with
  | Some d =>
      negative ← Decimal.lt d dec_zero;
      if negative : bool then
        Ok (add_error ("Negative amount not allowed: " +:+ field +:+ " = "
                         +:+ Decimal.to_str d) result)
      else Ok result
  | None => Ok result
  end.

(** [enumerate(xs)] *)
Fixpoint enumerate_from {A} (i : nat) (xs : list A) : list (nat * A) :=
  match xs with
  | [] => []
  | x :: r => (i, x) :: enumerate_from (S i) r
  end.

Definition line_item_message (idx : nat) : string :=
  "Line item " +:+ pretty (idx + 1)%nat +:+ ": quantity * unit_price != line_total".

(** Rule 4: line item validation *)
Definition check_line_item {rt : runtime} (entry : nat * pyval) (result : ValidationResult)
  : outcome ValidationResult :=
  let '(idx, item) := entry in
  quantity ← item_get item "quantity";
  up ← item_get item "unit_price";
  unit_price ← _to_decimal up;
  lt ← item_get item "line_total";
  line_total ← _to_decimal lt;
  match unit_price, line_total with
  | Some p, Some t =>
      if truthy quantity && Decimal.truthy p && Decimal.truthy t then
        q ← decimal_of_str quantity;
        expected ← Decimal.mul q p;
        bad ← differs expected t;
        if bad : bool then Ok (add_warning (line_item_message idx) result)
        else Ok result
      else Ok result
  | _, _ => Ok result
  end.

Definition _check_business_rules {rt : runtime} (invoice : record) (result : ValidationResult)
  : outcome ValidationResult :=
  net_total ← _to_decimal (get "net_total" invoice);
  tax_amount ← _to_decimal (get "tax_amount" invoice);
  gross_total ← _to_decimal (get "gross_total" invoice);
  result ← check_totals net_total tax_amount gross_total result;
  let line_items := get_default "line_items" (VList []) invoice in
  result ← check_line_items_sum line_items net_total result;
  result ← for_each amount_fields (check_negative_amount invoice) result;
  items ← iterate line_items;
  for_each (enumerate_from 0 items) check_line_item result.

(** *** [_check_anomalies] *)

Definition warn_if_missing (field msg : string) (invoice : record)
    (result : ValidationResult) : ValidationResult :=
  if negb (truthy (get field invoice)) then add_warning msg result else result.

Definition _check_anomalies {rt : runtime} (invoice : record) (result : ValidationResult)
  : outcome ValidationResult :=
  gross_total ← _to_decimal (get "gross_total" invoice);
  result ←
    match gross_total with
    | Some g =>
        if Decimal.truthy g then
          high ← Decimal.gt g high_amount_threshold;
          if high : bool then
            Ok (add_warning ("Unusually high gross total: " +:+ Decimal.to_str g
                               +:+ " (threshold: " +:+ Decimal.to_str high_amount_threshold
                               +:+ ")") result)
          else Ok result
        else Ok result
    | None => Ok result
    end;
  let result := warn_if_missing "due_date" "Due date is missing" invoice result in
  let result := warn_if_missing "seller_tax_id" "Seller tax ID is missing" invoice result in
  let result := warn_if_missing "buyer_tax_id" "Buyer tax ID is missing" invoice result in
  Ok (warn_if_missing "line_items" "No line items found in invoice" invoice result).

(** *** [_check_duplicates] *)

Definition _check_duplicates {rt : runtime} (e : env) (invoice : record) (result : ValidationResult)
  : outcome ValidationResult :=
  let invoice_number := get "invoice_number" invoice in
  let seller_name := get "seller_name" invoice in
  let invoice_date := get "invoice_date" invoice in
  if negb (truthy invoice_number && truthy seller_name && truthy invoice_date) then
    Ok result
  else
    invoice_date ← call_str invoice_date;
    except_exception
      (is_duplicate ← check_duplicate e invoice_number seller_name invoice_date;
       if is_duplicate : bool then
         number ← call_str invoice_number;
         seller ← call_str seller_name;
         Ok (add_warning ("Duplicate invoice detected: " +:+ number
                            +:+ " from " +:+ seller +:+ " on " +:+ invoice_date)
                         result)
       else Ok result)
      (Ok result).

(** *** [validate] *)

(** [f"UNKNOWN_{invoice.get('source_file', 'NO_FILE')}"] *)
Definition unknown_id {rt : runtime} (invoice : record) : outcome string :=
  source_file ← call_str (get_default "source_file" (VStr "NO_FILE") invoice);
  Ok ("UNKNOWN_" +:+ source_file).

Definition make_invoice_id {rt : runtime} (invoice : record) : outcome string :=
  let invoice_number := get "invoice_number" invoice in
  match invoice_number with
  | VNone => unknown_id invoice
  | _ =>
      if is_blank_str invoice_number then unknown_id invoice
      else call_str invoice_number
  end.

Definition set_validity (r : ValidationResult) : ValidationResult :=
  mk_result (invoice_id r) (Nat.eqb (length (errors r)) 0) (errors r) (warnings r).

Definition validate (rt : runtime) (e : env) (invoice : record) : outcome ValidationResult :=
  invoice_id ← make_invoice_id invoice;
  let result := mk_result invoice_id true [] [] in
  result ← _check_required_fields invoice result;
  result ← _check_formats rt e invoice result;
  result ← _check_business_rules invoice result;
  result ← _check_anomalies invoice result;
  result ← _check_duplicates e invoice result;
  Ok (set_validity result).

(** *** [validate_batch] *)

(** [for error in errors: error_counts[error] += 1] on a
    [defaultdict(int)] *)
Definition count_error (error : string) (counts : gmap string nat) : gmap string nat :=
  <[error := S (default O (counts !! error))]> counts.

Definition count_errors (errs : list string) (counts : gmap string nat) : gmap string nat :=
  foldl (fun acc error => count_error error acc) counts errs.

Definition batch_step (rt : runtime) (e : env) (invoice : record)
    (acc : list ValidationResult * gmap string nat)
  : outcome (list ValidationResult * gmap string nat) :=
  result ← validate rt e invoice;
  Ok ((fst acc ++ [result])%list, count_errors (errors result) (snd acc)).

(** [sum(1 for r in results if r.is_valid)] *)
Fixpoint valid_count (results : list ValidationResult) : Z :=
  match results with
  | [] => 0
  | r :: rest => (if is_valid r then 1 else 0) + valid_count rest
  end.

Definition validate_batch (rt : runtime) (e : env) (invoices : list record)
  : outcome (ValidationSummary * list ValidationResult) :=
  acc ← for_each invoices (batch_step rt e) ([], ∅);
  let results := fst acc in
  let valid := valid_count results in
  let invalid := Z.of_nat (length results) - valid in
  Ok (mk_summary (Z.of_nat (length results)) valid invalid (snd acc), results).

End Validator.

(** ** [invoice_qc/extractor.py]: the amount normalizer of
      [InvoiceExtractor._extract_with_regex]

    The strings it is given are the matches of [[\d.,]+\d{2}]: digits,
    dots and commas, ending in two digits.  [float(clean)] returns the
    double nearest to the decimal numeral [clean]; the embedding keeps the
    numeral's exact value [c / 10^k] as the pair [(c, k)]. *)

Module Extractor.
Import Py.

Definition amount : Set := (N * nat)%type.

Definition amount_value (a : amount) : Q := (Z.of_N (fst a) # Pos.of_nat (10 ^ snd a))%Q.

(** [s.rindex(c)]: the highest index of [c], ValueError when absent *)
Fixpoint rindex_from (c : ascii) (s : string) (i : nat) (found : option nat) : option nat :=
  match s with
  | EmptyString => found
  | String d r => rindex_from c r (S i) (if Ascii.eqb d c then Some i else found)
  end.

Definition rindex (c : ascii) (s : string) : outcome nat :=
  match rindex_from c s 0 None with
  | Some i => Ok i
  | None => Raise ValueError
  end.

(** [s.split(sep)] for a one-character separator: never an empty list *)
Fixpoint split (sep : ascii) (s : string) : list string :=
  match s with
  | EmptyString => [EmptyString]
  | String c r =>
      if Ascii.eqb c sep then EmptyString :: split sep r
      else
        match split sep r with
        | p :: ps => String c p :: ps
        | [] => [String c EmptyString]
        end
  end.

(** [parts[-1]] *)
Definition last_part (parts : list string) : outcome string :=
  match parts with
  | [] => Raise ValueError
  | _ => Ok (List.last parts EmptyString)
  end.

(** [float(s)] on a string of digits and dots: at most one dot and at
    least one digit, ValueError otherwise. *)
Fixpoint read_float (s : string) (seen_dot : bool) (c : N) (k n : nat) : option amount :=
  match s with
  | EmptyString => if (n =? 0)%nat then None else Some (c, k)
  | String ch r =>
      if is_digit ch then
        read_float r seen_dot (c * 10 + digit_val ch)%N (if seen_dot then S k else k) (S n)
      else if Ascii.eqb ch "." then
        if seen_dot then None else read_float r true c k n
      else None
  end.

Definition py_float (s : string) : outcome amount :=
  match read_float s false 0 0 0 with
  | Some a => Ok a
  | None => Raise ValueError
  end.

(** The string handed to [float]. *)
Definition clean_amount (amt : string) : outcome string :=
  if contains "," amt && contains "." amt then
    comma ← rindex "," amt;
    dot ← rindex "." amt;
    if (dot <? comma)%nat then
      Ok (replace "," "." (replace "." EmptyString amt))
    else
      Ok (replace "," EmptyString amt)
  else if contains "," amt then
    last ← last_part (split "," amt);
    if (String.length last =? 2)%nat then Ok (replace "," "." amt)
    else Ok (replace "," EmptyString amt)
  else Ok amt.

(** One turn of the loop [for amt in amounts]: the amount appended to
    [parsed_amounts], or [None] when the bare [except] skips it. *)
Definition normalize_amount (amt : string) : option amount :=
  match (clean ← clean_amount amt; py_float clean) with
  | Ok a => Some a
  | Raise _ => None
  end.

(** A match of the pattern [[\d.,]+\d{2}] *)
Definition amount_char (c : ascii) : bool :=
  is_digit c || Ascii.eqb c "." || Ascii.eqb c ",".

Fixpoint ends_in_two_digits (s : string) : bool :=
  match s with
  | String a (String b EmptyString) => is_digit a && is_digit b
  | String _ r => ends_in_two_digits r
  | EmptyString => false
  end.

Definition amount_string (s : string) : bool :=
  str_all amount_char s && (3 <=? String.length s)%nat && ends_in_two_digits s.

End Extractor.

(** ** The amount normalizer as section 4.1 of the specification words it *)

Module AmountSpec.
Import Py.
Import Extractor.

(** The separator ([.] or [,]) that occurs last in the string. *)
Fixpoint last_separator (s : string) : option ascii :=
  match s with
  | EmptyString => None
  | String c r =>
      match last_separator r with
      | Some x => Some x
      | None => if Ascii.eqb c "." || Ascii.eqb c "," then Some c else None
      end
  end.

(** What follows the last comma. *)
Fixpoint after_last_comma (s : string) : option string :=
  match s with
  | EmptyString => None
  | String c r =>
      match after_last_comma r with
      | Some t => Some t
      | None => if Ascii.eqb c "," then Some r else None
      end
  end.

Definition two_digits_follow_comma (s : string) : bool :=
  match after_last_comma s with
  | Some t => (String.length t =? 2)%nat && str_all is_digit t
  | None => false
  end.

(** Reading a numeral in which [point] is the decimal point and
    [thousands] is a separator to strip: no value when the decimal point
    occurs twice, when another character occurs, or without any digit. *)
Fixpoint read_as (point thousands : option ascii) (s : string)
    (in_fraction : bool) (c : N) (k n : nat) : option amount :=
  match s with
  | EmptyString => if (n =? 0)%nat then None else Some (c, k)
  | String ch r =>
      if is_digit ch then
        read_as point thousands r in_fraction (c * 10 + digit_val ch)%N
          (if in_fraction then S k else k) (S n)
      else if bool_decide (thousands = Some ch) then
        read_as point thousands r in_fraction c k n
      else if bool_decide (point = Some ch) then
        if in_fraction then None else read_as point thousands r true c k n
      else None
  end.

Definition value_as (point thousands : option ascii) (s : string) : option amount :=
  read_as point thousands s false 0 0 0.

Definition comma : ascii := ",".
Definition dot : ascii := ".".

Definition spec_amount (amt : string) : option amount :=
  if contains comma amt && contains dot amt then
    if bool_decide (last_separator amt = Some comma)
    then value_as (Some comma) (Some dot) amt
    else value_as (Some dot) (Some comma) amt
  else if contains comma amt then
    if two_digits_follow_comma amt
    then value_as (Some comma) None amt
    else value_as None (Some comma) amt
  else value_as (Some dot) None amt.

(** The position of the last occurrence of a character. *)
Fixpoint last_index (c : ascii) (s : string) : option nat :=
  match s with
  | EmptyString => None
  | String d r =>
      match last_index c r with
      | Some k => Some (S k)
      | None => if Ascii.eqb d c then Some O else None
      end
  end.

End AmountSpec.

(** ** A concrete runtime and environment for the examples *)

Module Examples.
Import Py.
Import Decimal.
Import Value.
Import Validator.

Definition is_leap (y : N) : bool :=
  ((y mod 4 =? 0) && negb (y mod 100 =? 0) || (y mod 400 =? 0))%N.

Definition days_in_month (y m : N) : N :=
  match m with
  | 2 => if is_leap y then 29 else 28
  | 4 | 6 | 9 | 11 => 30
  | _ => 31
  end%N.

Definition two_digits (a b : ascii) : option N :=
  if is_digit a && is_digit b then Some (digit_val a * 10 + digit_val b)%N else None.

(** The date-only form [YYYY-MM-DD], which every version of
    [datetime.fromisoformat] accepts, with a valid calendar date. *)
Definition iso_date (s : string) : option date :=
  match s with
  | String y1 (String y2 (String y3 (String y4 (String "-"
      (String m1 (String m2 (String "-" (String d1 (String d2 EmptyString))))))))) =>
      match two_digits y1 y2, two_digits y3 y4, two_digits m1 m2, two_digits d1 d2 with
      | Some yh, Some yl, Some m, Some d =>
          let y := (yh * 100 + yl)%N in
          if ((1 <=? y) && (1 <=? m) && (m <=? 12) && (1 <=? d) && (d <=? days_in_month y m))%N
          then Some (mk_date y m d) else None
      | _, _, _, _ => None
      end
  | _ => None
  end.

(** Dates are read in the date-only form; no example compares lists or
    holds text outside ASCII. *)
Definition rt_iso : runtime :=
  mk_runtime iso_date (fun _ _ => Raise TypeError)
    (fun s => s) (fun _ => false) ascii_repr (fun _ => EmptyString).

(** An environment whose clock shows the given day and whose database
    holds no invoice. *)
Definition env_on (d : date) : env := mk_env d (fun _ _ _ => Ok false).

Definition env0 : env := env_on (mk_date 2025 1 1).

(** [1000.0], [180.0], ... as floats *)
Definition float_of (repr : string) (q : Q) : pyval := VFloat (mk_float repr (FFin q)).

(** Scenario 1 of the tests: a valid invoice. *)
Definition sample_invoice : record :=
  [("invoice_number", VStr "INV-001"); ("invoice_date", VStr "2024-01-15");
   ("due_date", VStr "2024-02-15"); ("seller_name", VStr "ABC Corp");
   ("buyer_name", VStr "XYZ Ltd"); ("currency", VStr "USD");
   ("net_total", float_of "1000.0" (1000 # 1));
   ("tax_amount", float_of "180.0" (180 # 1));
   ("gross_total", float_of "1180.0" (1180 # 1));
   ("line_items", VList [])].

(** What [validate] returns for it. *)
Definition sample_result : ValidationResult :=
  mk_result "INV-001" true []
    ["Seller tax ID is missing"; "Buyer tax ID is missing";
     "No line items found in invoice"].

(** [invoice[key] = value] *)
Fixpoint set_field (key : string) (value : pyval) (inv : record) : record :=
  match inv with
  | [] => [(key, value)]
  | (k, v) :: r =>
      if String.eqb k key then (key, value) :: r else (k, v) :: set_field key value r
  end.

(** The valid invoice with a net total that is not a number. *)
Definition unparseable_amount_invoice : record :=
  set_field "net_total" (VStr "N/A") sample_invoice.

(** The valid invoice with the currency given as its ISO 4217 number. *)
Definition numeric_currency_invoice : record :=
  set_field "currency" (VInt 840) sample_invoice.

(** The valid invoice with the seller's tax identifier given as a number. *)
Definition numeric_tax_id_invoice : record :=
  set_field "seller_tax_id" (VInt 123456789) sample_invoice.

(** The valid invoice with a null list of line items. *)
Definition null_items_invoice : record :=
  set_field "line_items" VNone sample_invoice.

(** The valid invoice with one line item: one unit at price zero, billed
    at 5.0. *)
Definition free_item : pyval :=
  VDict [("description", VStr "Gift card"); ("quantity", VInt 1);
         ("unit_price", float_of "0.0" (0 # 1)); ("line_total", float_of "5.0" (5 # 1))].

Definition free_item_invoice : record :=
  set_field "line_items" (VList [free_item]) sample_invoice.

(** The valid invoice, due before it was issued. *)
Definition late_due_invoice : record :=
  set_field "due_date" (VStr "2023-12-31") sample_invoice.

Definition late_due_result : ValidationResult :=
  mk_result "INV-001" false ["Due date cannot be before invoice date"]
    ["Seller tax ID is missing"; "Buyer tax ID is missing";
     "No line items found in invoice"].

(** Net and gross total of 10^26, and a tax of 0.02. *)
Definition huge_invoice : record :=
  set_field "net_total" (VInt (10 ^ 26))
    (set_field "tax_amount" (float_of "0.02" (1 # 50))
       (set_field "gross_total" (VInt (10 ^ 26)) sample_invoice)).

(** A record of three entries: an empty list as invoice number, [False]
    as net total and a null currency. *)
Definition odd_invoice : record :=
  [("invoice_number", VList []); ("net_total", VBool false); ("currency", VNone)].

End Examples.

(** ** Vocabulary for the statements about the validator *)

Module Spec.
Import Py.
Import Decimal.
Import Value.
Import Validator.

(** *** What a check does to the result *)

(** [r'] is [r] with errors appended that all satisfy [P], and with the
    same identifier; the warnings are free. *)
Definition appends (P : string -> Prop) (r r' : ValidationResult) : Prop :=
  invoice_id r' = invoice_id r /\ exists es, errors r' = (errors r ++ es)%list /\ Forall P es.

Definition any_message : string -> Prop := fun _ => True.

(** No error is appended at all. *)
Definition quiet : string -> Prop := fun _ => False.

(** The messages of the totals rule, and the others. *)
Definition is_mismatch (msg : string) : bool :=
  match strip_prefix "Total calculation mismatch" msg with
  | Some _ => true
  | None => false
  end.

Definition calm (msg : string) : Prop := is_mismatch msg = false.

(** The identifier that [validate] starts from, when it can be written. *)
Definition the_invoice_id {rt : runtime} (inv : record) : string :=
  match make_invoice_id inv with
  | Ok invoice_id => invoice_id
  | Raise _ => EmptyString
  end.

(** *** The completeness check, field by field *)

(** Empty or whitespace-only. *)
Definition whitespace_only (s : string) : bool := spaces s.

(** A negative [int], [float] or [Decimal]; zero of either sign and NaN
    are not negative. *)
Definition negative_number (v : pyval) : bool :=
  match v with
  | VInt z => z <? 0
  | VFloat f =>
      match fl_val f with
      | FFin q => Qnum q <? 0
      | FInf s => s
      | FNan => false
      end
  | VDecimal (DFin s c _) => s && negb (c =? 0)%N
  | VDecimal (DInf s) => s
  | _ => false
  end.

(** The finding for one required field: missing, empty, negative, or
    none. *)
Definition required_finding (field : string) (v : pyval) : option string :=
  match v with
  | VNone => Some ("Missing required field: " +:+ field)
  | VStr s =>
      if whitespace_only s then Some ("Empty required field: " +:+ field) else None
  | _ =>
      if negative_number v then Some ("Negative value in required field: " +:+ field)
      else None
  end.

Definition is_decimal_nan (v : pyval) : bool :=
  match v with
  | VDecimal (DNaN _ _ _) => true
  | _ => false
  end.

Definition with_finding (o : option string) (r : ValidationResult) : ValidationResult :=
  match o with
  | Some m => add_error m r
  | None => r
  end.

(** The findings for a list of fields, in order. *)
Definition findings (inv : record) (fields : list string) : list string :=
  omap (fun f => required_finding f (get f inv)) fields.

(** *** A record whose required fields are present and valid *)

(** Present, not blank, not negative (and no NaN). *)
Definition present_and_valid (v : pyval) : bool :=
  match v with
  | VNone => false
  | VStr s => negb (whitespace_only s)
  | _ => negb (negative_number v) && negb (is_decimal_nan v)
  end.

(** The date a field holds: a string that parses, or a date. *)
Definition date_of (rt : runtime) (v : pyval) : option date :=
  match v with
  | VStr s => fromisoformat rt s
  | VDate d => Some d
  | _ => None
  end.

(** The invoice date is a date, and not after today. *)
Definition invoice_date_valid (rt : runtime) (e : env) (inv : record) : Prop :=
  exists d, date_of rt (get "invoice_date" inv) = Some d /\ date_lt (today e) d = false.

(** The currency is one of the allowed codes, in any case. *)
Definition currency_valid {rt : runtime} (inv : record) : Prop :=
  exists s, get "currency" inv = VStr s /\ in_list (str_upper s) allowed_currencies = true.

(** The amount converts to the finite, non-negative decimal [d]. *)
Definition amount_valid {rt : runtime} (v : pyval) (d : Dec) : Prop :=
  _to_decimal v = Ok (Some d) /\ is_finite d = true /\ (0 <= dvalue d)%Q.

(** Net plus tax is the gross total within 0.01, the sum and the
    difference fitting the context. *)
Definition totals_agree (n t g : Dec) : Prop :=
  dec_fits (exact_add n t) /\ dec_fits (exact_sub (exact_add n t) g) /\
  (Qabs (dvalue n + dvalue t - dvalue g) <= 1 # 100)%Q.

Record required_valid (rt : runtime) (e : env) (inv : record) (n t g : Dec) : Prop := {
  rv_present : Forall (fun f => present_and_valid (get f inv) = true) required_fields;
  rv_date : invoice_date_valid rt e inv;
  rv_currency : currency_valid inv;
  rv_net : amount_valid (get "net_total" inv) n;
  rv_tax : amount_valid (get "tax_amount" inv) t;
  rv_gross : amount_valid (get "gross_total" inv) g;
  rv_totals : totals_agree n t g
}.

(** The due date is absent or empty, or a date not before the invoice
    date. *)
Definition due_date_consistent (rt : runtime) (inv : record) : Prop :=
  truthy (get "due_date" inv) = false \/
  exists due d,
    date_of rt (get "due_date" inv) = Some due /\
    date_of rt (get "invoice_date" inv) = Some d /\
    date_lt due d = false.

(** The optional fields that cannot make a check raise: tax identifiers
    that are absent, empty or strings, and no line items. *)
Definition plain_tax_id (v : pyval) : Prop := truthy v = false \/ exists s, v = VStr s.

Definition optional_plain (inv : record) : Prop :=
  plain_tax_id (get "seller_tax_id" inv) /\ plain_tax_id (get "buyer_tax_id" inv) /\
  get_default "line_items" (VList []) inv = VList [].

(** *** The batch summary *)

(** How often a message occurs in a list of messages. *)
Fixpoint occurrences (msg : string) (l : list string) : nat :=
  match l with
  | [] => O
  | x :: r => ((if String.eqb x msg then 1 else 0) + occurrences msg r)%nat
  end.

(** The errors of all results, in order. *)
Definition all_errors (results : list ValidationResult) : list string :=
  flat_map errors results.

(** [counts[msg]], read from a [defaultdict(int)] *)
Definition count_of (counts : gmap string nat) (msg : string) : nat :=
  default O (counts !! msg).

End Spec.

(** ** Vocabulary for the checks taken one by one

    What a run of checks may do to a result: append errors that all
    satisfy [E] and warnings that all satisfy [W], and nothing else. *)

Module Effects.
Import Py Decimal Value Validator Examples Spec.

Definition grows (E W : string -> Prop) (r r' : ValidationResult) : Prop :=
  invoice_id r' = invoice_id r /\ is_valid r' = is_valid r /\
  exists es ws,
    errors r' = (errors r ++ es)%list /\ warnings r' = (warnings r ++ ws)%list /\
    Forall E es /\ Forall W ws.

(** The message [m] does not begin with [p]. *)
Definition without (p m : string) : Prop := strip_prefix p m = None.

(** [r] with one more warning, if there is one ([with_finding] does this
    for an error). *)
Definition with_warning (o : option string) (r : ValidationResult) : ValidationResult :=
  match o with
  | Some m => add_warning m r
  | None => r
  end.

(** A message that the completeness check does not write. *)
Definition not_a_required_finding (m : string) : Prop :=
  without "Missing required field: " m /\ without "Empty required field: " m /\
  without "Negative value in required field: " m.

End Effects.

(** ** What each check finds

    The message, if any, that a check of [_check_formats],
    [_check_business_rules], [_check_anomalies] or [_check_duplicates]
    appends, as a function of the record. *)

Module Findings.
Import Py Decimal Value Validator Examples Spec.

(** What the invoice date check finds. *)
Definition invoice_date_finding (rt : runtime) (e : env) (inv : record) : option string :=
  let v := get "invoice_date" inv in
  if truthy v then
    match date_of rt v with
    | Some d => if date_lt (today e) d then Some "Invoice date cannot be in the future" else None
    | None => Some ("Invalid invoice_date format: " +:+ py_str v)
    end
  else None.

Definition before_invoice : string := "Due date cannot be before invoice date".

(** A text of ASCII that is one of the allowed codes, in any letter
    case. *)
Definition currency_accepted (s : string) : Prop :=
  ascii_text s = true /\ exists c, In c allowed_currencies /\ lower s = lower c.

Definition invalid_currency (s : string) : string :=
  "Invalid currency: " +:+ s +:+ ". Must be one of ['EUR', 'USD', 'INR', 'GBP']".

Definition currency_finding {rt : runtime} (inv : record) : option string :=
  match get "currency" inv with
  | VStr s =>
      if negb (is_empty s) && negb (in_list (str_upper s) allowed_currencies)
      then Some (invalid_currency s) else None
  | _ => None
  end.

(** The tax identifier without its hyphens and spaces. *)
Definition bare_id (s : string) : string :=
  replace " " EmptyString (replace "-" EmptyString s).

(** Letters, digits, hyphens and spaces of ASCII, with at least one
    letter or digit. *)
Definition id_char (c : ascii) : bool :=
  is_alnum c || Ascii.eqb c "-" || Ascii.eqb c " ".

Definition plain_id (s : string) : bool :=
  str_all id_char s && negb (str_all (fun c => negb (is_alnum c)) s).

Definition tax_id_finding {rt : runtime} (field label : string) (inv : record)
  : option string :=
  match get field inv with
  | VStr s =>
      if negb (is_empty s) && negb (str_isalnum (bare_id s))
      then Some (label +:+ " tax ID format may be invalid: " +:+ s) else None
  | _ => None
  end.

Definition negative_amount_finding {rt : runtime} (inv : record) (field : string)
  : option string :=
  match _to_decimal (get field inv) with
  | Ok (Some d) =>
      if negative_number (VDecimal d)
      then Some ("Negative amount not allowed: " +:+ field +:+ " = " +:+ Decimal.to_str d)
      else None
  | _ => None
  end.

Definition missing_finding (field msg : string) (inv : record) : option string :=
  if truthy (get field inv) then None else Some msg.

Definition high_amount_finding (g : option Dec) : option string :=
  match g with
  | Some g =>
      if Decimal.truthy g && match cmp g high_amount_threshold with Gt => true | _ => false end
      then Some ("Unusually high gross total: " +:+ Decimal.to_str g
                   +:+ " (threshold: " +:+ Decimal.to_str high_amount_threshold +:+ ")")
      else None
  | None => None
  end.

(** The duplicate warning: the database answers true, and the message
    can be written (an integer too long for [str] raises, and the handler
    of the check drops the warning). *)
Definition duplicate_finding {rt : runtime} (e : env) (inv : record) : option string :=
  let number := get "invoice_number" inv in
  let seller := get "seller_name" inv in
  let day := get "invoice_date" inv in
  if truthy number && truthy seller && truthy day then
    match check_duplicate e number seller (py_str day) with
    | Ok true =>
        if str_ok number && str_ok seller then
          Some ("Duplicate invoice detected: " +:+ py_str number +:+ " from "
                  +:+ py_str seller +:+ " on " +:+ py_str day)
        else None
    | _ => None
    end
  else None.

End Findings.

(** ** Records on which every check returns *)

Module Sizes.
Import Py Decimal Value Validator Examples Spec.

(** A finite decimal of at most [K] digits whose exponent lies between
    [lo] and [hi]. *)
Definition within (K lo hi : Z) (d : Dec) : Prop :=
  match d with
  | DFin _ c e => Z.of_N c < 10 ^ K /\ lo <= e <= hi
  | _ => False
  end.

Definition moderate (d : Dec) : Prop := within 1000 (-1000) 1000 d.

(** An amount that is absent or converts to a decimal of moderate size;
    a due date that is absent, a string or a date. *)

Definition amount_ok {rt : runtime} (v : pyval) : Prop :=
  v = VNone \/ exists d, _to_decimal v = Ok (Some d) /\ moderate d.

Definition date_ok (v : pyval) : Prop :=
  v = VNone \/ (exists s, v = VStr s) \/ (exists d, v = VDate d).

(** No required field is a Decimal NaN, the invoice number, the source
    file and the invoice date have a string form, the currency and the
    tax IDs are falsy or strings, and there are no line items. *)
Record well_typed {rt : runtime} (inv : record) : Prop := {
  wt_required : forall f, In f required_fields -> is_decimal_nan (get f inv) = false;
  wt_invoice_number : str_ok (get "invoice_number" inv) = true;
  wt_source_file : str_ok (get "source_file" inv) = true;
  wt_invoice_date : str_ok (get "invoice_date" inv) = true;
  wt_currency : plain_tax_id (get "currency" inv);
  wt_seller_tax_id : plain_tax_id (get "seller_tax_id" inv);
  wt_buyer_tax_id : plain_tax_id (get "buyer_tax_id" inv);
  wt_due_date : date_ok (get "due_date" inv);
  wt_amounts : forall f, In f amount_fields -> amount_ok (get f inv);
  wt_line_items : get_default "line_items" (VList []) inv = VList []
}.

End Sizes.

(** ** Exact products, for the line item rule *)

Module Products.
Import Py Decimal Value Validator Examples Spec.

(** The unrounded product of two finite decimals. *)
Definition exact_mul (a b : Dec) : Dec :=
  match a, b with
  | DFin s1 c1 e1, DFin s2 c2 e2 => DFin (xorb s1 s2) (c1 * c2) (e1 + e2)
  | _, _ => a
  end.

(** An integer as a decimal. *)
Definition dec_of_int (z : Z) : Dec := DFin (z <? 0) (Z.abs_N z) 0.

End Products.

(** ** [datetime.strptime] for the directives [%d], [%m] and [%Y]

    [_strptime] turns the format into a regular expression, [%d] into
    [(3[0-1]|[1-2]\d|0[1-9]|[1-9]| [1-9])], [%m] into
    [(1[0-2]|0[1-9]|[1-9])], [%Y] into [(\d\d\d\d)] and any other
    character into itself, matches it at the start of the string (the
    alternatives are tried from left to right, backtracking when the
    rest of the format does not match), and raises ValueError when there
    is no match, when the match leaves characters over, or when the
    fields are no calendar date.  Strings are ASCII here as everywhere
    else, so [\d] is one of the digits 0 to 9. *)

Module Strptime.
Import Py Value Examples.

Inductive directive : Set :=
| Day
| Month
| Year
| Lit (c : ascii).

(** The fields read so far: year, month, day (1900-01-01 by default). *)
Definition fields : Set := (N * N * N)%type.

Definition with_field (d : directive) (v : N) (f : fields) : fields :=
  let '(y, m, dd) := f in
  match d with
  | Day => (y, m, v)
  | Month => (y, v, dd)
  | Year => (v, m, dd)
  | Lit _ => f
  end.

(** A character between two digits, as in [[1-9]]. *)
Definition digit_in (lo hi : N) (c : ascii) : bool :=
  is_digit c && (lo <=? digit_val c)%N && (digit_val c <=? hi)%N.

(** The ways one directive matches a prefix of [s], in the order the
    regular expression tries them: the value read and the rest. *)
Definition alternatives (d : directive) (s : string) : list (N * string) :=
  match d with
  | Day =>
      match s with
      | String a (String b r) =>
          (if Ascii.eqb a "3" && digit_in 0 1 b then [(30 + digit_val b, r)%N] else []) ++
          (if digit_in 1 2 a && is_digit b then [(digit_val a * 10 + digit_val b, r)%N] else []) ++
          (if Ascii.eqb a "0" && digit_in 1 9 b then [(digit_val b, r)] else []) ++
          (if digit_in 1 9 a then [(digit_val a, String b r)] else []) ++
          (if Ascii.eqb a " " && digit_in 1 9 b then [(digit_val b, r)] else [])
      | String a EmptyString => if digit_in 1 9 a then [(digit_val a, EmptyString)] else []
      | EmptyString => []
      end
  | Month =>
      match s with
      | String a (String b r) =>
          (if Ascii.eqb a "1" && digit_in 0 2 b then [(10 + digit_val b, r)%N] else []) ++
          (if Ascii.eqb a "0" && digit_in 1 9 b then [(digit_val b, r)] else []) ++
          (if digit_in 1 9 a then [(digit_val a, String b r)] else [])
      | String a EmptyString => if digit_in 1 9 a then [(digit_val a, EmptyString)] else []
      | EmptyString => []
      end
  | Year =>
      match s with
      | String a (String b (String c (String d r))) =>
          if is_digit a && is_digit b && is_digit c && is_digit d
          then [(((digit_val a * 10 + digit_val b) * 10 + digit_val c) * 10 + digit_val d, r)%N]
          else []
      | _ => []
      end
  | Lit c =>
      match s with
      | String a r => if Ascii.eqb a c then [(0%N, r)] else []
      | EmptyString => []
      end
  end.

(** The first alternative for which [k] succeeds. *)
Fixpoint first_match {A B} (k : A -> option B) (l : list A) : option B :=
  match l with
  | [] => None
  | x :: r =>
      match k x with
      | Some b => Some b
      | None => first_match k r
      end
  end.

(** [format_regex.match(s)]: the fields and what is left of [s]. *)
Fixpoint match_format (fmt : list directive) (s : string) (f : fields)
  : option (fields * string) :=
  match fmt with
  | [] => Some (f, s)
  | d :: rest =>
      first_match (fun alt => match_format rest (snd alt) (with_field d (fst alt) f))
        (alternatives d s)
  end.

(** [date(y, m, d)] exists. *)
Definition valid_date (y m d : N) : bool :=
  ((1 <=? y) && (y <=? 9999) && (1 <=? m) && (m <=? 12) && (1 <=? d)
   && (d <=? days_in_month y m))%N.

(** [datetime.strptime(s, fmt).date()], [None] for the ValueError. *)
Definition strptime (s : string) (fmt : list directive) : option date :=
  match match_format fmt s (1900, 1, 1)%N with
  | Some ((y, m, d), EmptyString) => if valid_date y m d then Some (mk_date y m d) else None
  | _ => None
  end.

(** The values that [%d] and [%m] can read. *)
Definition day_ok (v : N) : bool := ((1 <=? v) && (v <=? 31))%N.
Definition month_ok (v : N) : bool := ((1 <=? v) && (v <=? 12))%N.

End Strptime.

(** ** [invoice_qc/extractor.py]: dates, the currency, the empty record
       and the assignment of the amounts *)

Module ExtractorFields.
Import Py Value Examples Validator Extractor Strptime.

(** ['%d.%m.%Y'], ['%d/%m/%Y'], ['%m/%d/%Y'], ['%Y-%m-%d'] *)
Definition formats : list (list directive) :=
  [[Day; Lit "."; Month; Lit "."; Year];
   [Day; Lit "/"; Month; Lit "/"; Year];
   [Month; Lit "/"; Day; Lit "/"; Year];
   [Year; Lit "-"; Month; Lit "-"; Day]].

(** [InvoiceExtractor._parse_date] *)
Definition _parse_date (date_str : string) : option string :=
  let date_str := strip date_str in
  first_match (fun fmt => isoformat <$> strptime date_str fmt) formats.

(** [InvoiceExtractor._empty_invoice] *)
Definition _empty_invoice (filename : string) : record :=
  [("invoice_number", VNone); ("invoice_date", VNone); ("due_date", VNone);
   ("seller_name", VNone); ("seller_address", VNone); ("seller_tax_id", VNone);
   ("buyer_name", VNone); ("buyer_address", VNone); ("buyer_tax_id", VNone);
   ("currency", VStr "USD"); ("net_total", VNone); ("tax_rate", VNone);
   ("tax_amount", VNone); ("gross_total", VNone); ("line_items", VList []);
   ("source_file", VStr filename)].

(** The strings that the three date patterns of [_extract_with_regex]
    match: [\d{2}\.\d{2}\.\d{4}], [\d{2}/\d{2}/\d{4}] (with [sep] the dot
    or the slash) and [\d{4}-\d{2}-\d{2}]; the numbers their digits
    write. *)
Definition num2 (a b : ascii) : N := (digit_val a * 10 + digit_val b)%N.

Definition num4 (a b c d : ascii) : N :=
  (((digit_val a * 10 + digit_val b) * 10 + digit_val c) * 10 + digit_val d)%N.

Definition two_two_four (sep a1 a2 b1 b2 y1 y2 y3 y4 : ascii) : string :=
  String a1 (String a2 (String sep (String b1 (String b2 (String sep
    (String y1 (String y2 (String y3 (String y4 EmptyString))))))))).

Definition four_two_two (y1 y2 y3 y4 m1 m2 d1 d2 : ascii) : string :=
  String y1 (String y2 (String y3 (String y4 (String "-" (String m1 (String m2
    (String "-" (String d1 (String d2 EmptyString))))))))).

(** The ISO string of a calendar date, nothing otherwise. *)
Definition iso_if_valid (y m d : N) : option string :=
  if valid_date y m d then Some (isoformat (mk_date y m d)) else None.

(** [sub in text] *)
Fixpoint has_prefix (p s : string) : bool :=
  match p, s with
  | EmptyString, _ => true
  | String a p', String b s' => Ascii.eqb a b && has_prefix p' s'
  | _, _ => false
  end.

Fixpoint substring_of (sub text : string) : bool :=
  has_prefix sub text ||
  match text with
  | EmptyString => false
  | String _ r => substring_of sub r
  end.

(** The currency signs, as the bytes of their UTF-8 encoding (a sign
    occurs in a text exactly when its bytes occur in the text's bytes). *)
Definition bytes (l : list nat) : string :=
  fold_right (fun n s => String (ascii_of_nat n) s) EmptyString l.

Definition euro_sign : string := bytes [226; 130; 172]%nat.
Definition pound_sign : string := bytes [194; 163]%nat.
Definition rupee_sign : string := bytes [226; 130; 185]%nat.

(** The currency detection of [_extract_with_regex], on the record's
    default ['USD']. *)
Definition detect_currency (text : string) : string :=
  if substring_of euro_sign text || substring_of "EUR" text then "EUR"
  else if substring_of "$" text || substring_of "USD" text then "USD"
  else if substring_of pound_sign text || substring_of "GBP" text then "GBP"
  else if substring_of rupee_sign text || substring_of "INR" text || substring_of "Rs" text
       then "INR"
  else "USD".

(** [parsed_amounts] after the loop over the matches. *)
Definition parse_amounts (amounts : list string) : list amount :=
  omap normalize_amount amounts.

(** [a >= b] between two amounts *)
Definition amount_ge (a b : amount) : Prop := (amount_value b <= amount_value a)%Q.

#[export] Instance amount_ge_dec a b : Decision (amount_ge a b).
Proof.
  unfold amount_ge. destruct (Qlt_le_dec (amount_value a) (amount_value b)) as [H|H].
  - right. intros H'. exact (Qlt_not_le _ _ H H').
  - left. exact H.
Defined.

(** [parsed_amounts.sort(reverse=True)] and the three assignments: the
    gross total, the net total and the tax amount, where there are that
    many amounts.  The sort is any sort into descending order: amounts
    that compare equal are the same number, so their order does not
    show. *)
Definition assign_amounts (amounts : list string)
  : option amount * option amount * option amount :=
  let parsed_amounts := merge_sort amount_ge (parse_amounts amounts) in
  (parsed_amounts !! 0%nat, parsed_amounts !! 1%nat, parsed_amounts !! 2%nat).

End ExtractorFields.

(** ** [invoice_qc/database.py]: the table [invoices]

    [invoice_number], [invoice_date], [seller_name] and [buyer_name] are
    TEXT NOT NULL columns, and (invoice_number, seller_name,
    invoice_date) is UNIQUE; [id] is an AUTOINCREMENT key.  A row keeps
    the key and the three unique columns, which is all that
    [save_invoice] and [check_duplicate] read back.  The database file
    is taken to be reachable. *)

Module Database.
Import Py Value.

(** What [sqlite3] binds for a parameter: NULL for [None] (and for a
    NaN), an INTEGER for an [int] that fits 64 bits and for a [bool], a
    REAL for a [float], a TEXT for a [str] and, through the default
    adapter, for a [date]; every other value, and an [int] out of range,
    makes [execute] raise. *)
Inductive bound : Set :=
| BNull
| BInt (z : Z)
| BReal (f : pyfloat)
| BText (s : string).

Definition int64 (z : Z) : bool := (- 2 ^ 63 <=? z) && (z <? 2 ^ 63).

Definition bind (v : pyval) : option bound :=
  match v with
  | VNone => Some BNull
  | VBool b => Some (BInt (if b then 1 else 0))
  | VInt z => if int64 z then Some (BInt z) else None
  | VFloat f => Some (match fl_val f with FNan => BNull | _ => BReal f end)
  | VStr s => Some (BText s)
  | VDate d => Some (BText (isoformat d))
  | VDecimal _ | VList _ | VDict _ => None
  end.

(** The text that SQLite writes for a REAL is the engine's own. *)
Record engine : Type := mk_engine { real_text : pyfloat -> string }.

(** TEXT affinity, applied to a value stored in a TEXT column and to a
    parameter compared with one: numbers become their text; [None] is
    NULL. *)
Definition as_text (sq : engine) (b : bound) : option string :=
  match b with
  | BNull => None
  | BInt z => Some (pretty z)
  | BReal f => Some (real_text sq f)
  | BText s => Some s
  end.

(** [json.dumps(v)] returns: a [Decimal] or a [date] anywhere in [v]
    raises TypeError. *)
Fixpoint json_ok (v : pyval) : bool :=
  match v with
  | VDecimal _ | VDate _ => false
  | VList l => forallb json_ok l
  | VDict m => forallb (fun kv => json_ok (snd kv)) m
  | _ => true
  end.

Record row : Set := mk_row {
  row_id : Z;
  row_number : string;
  row_seller : string;
  row_date : string
}.

(** The rows of [invoices], oldest first, and the highest [id] given so
    far (AUTOINCREMENT gives none twice). *)
Record table : Set := mk_table { rows : list row; last_id : Z }.

Definition empty : table := mk_table [] 0.

Definition same_key (number seller date : string) (r : row) : bool :=
  String.eqb (row_number r) number && String.eqb (row_seller r) seller
  && String.eqb (row_date r) date.

(** [SELECT id ... WHERE invoice_number = ? AND seller_name = ? AND
    invoice_date = ?] and [fetchone()]; a NULL parameter compares equal
    to nothing. *)
Definition select_id (number seller date : option string) (t : table) : option Z :=
  match number, seller, date with
  | Some n, Some s, Some d => row_id <$> List.find (same_key n s d) (rows t)
  | _, _, _ => None
  end.

(** [Database.save_invoice]: the [id] returned and the table afterwards. *)
Definition save_invoice (sq : engine) (t : table) (invoice_data : record) : Z * table :=
  if negb (json_ok (VDict invoice_data)) then (-1, t)
  else
    match bind (get "invoice_number" invoice_data), bind (get "invoice_date" invoice_data),
          bind (get "seller_name" invoice_data), bind (get "buyer_name" invoice_data),
          bind (get "currency" invoice_data), bind (get "net_total" invoice_data),
          bind (get "tax_amount" invoice_data), bind (get "gross_total" invoice_data) with
    | Some number, Some date, Some seller, Some buyer, Some _, Some _, Some _, Some _ =>
        let number := as_text sq number in
        let date := as_text sq date in
        let seller := as_text sq seller in
        let existing := from_option id (-1) (select_id number seller date t) in
        match number, date, seller, as_text sq buyer with
        | Some n, Some d, Some s, Some _ =>
            if existsb (same_key n s d) (rows t) then (existing, t)
            else
              let invoice_id := last_id t + 1 in
              (invoice_id, mk_table (rows t ++ [mk_row invoice_id n s d]) invoice_id)
        | _, _, _, _ => (existing, t)
        end
    | _, _, _, _, _, _, _, _ => (-1, t)
    end.

(** [Database.check_duplicate] *)
Definition check_duplicate (sq : engine) (t : table) (invoice_number seller_name invoice_date : pyval)
  : bool :=
  match bind invoice_number, bind seller_name, bind invoice_date with
  | Some number, Some seller, Some date =>
      match as_text sq number, as_text sq seller, as_text sq date with
      | Some n, Some s, Some d => (0 <? length (filter (fun r => same_key n s d r = true) (rows t)))%nat
      | _, _, _ => false
      end
  | _, _, _ => false
  end.

(** [Database.clear_all_data] *)
Definition clear_all_data (t : table) : table := mk_table [] (last_id t).

(** The environment of a validator built on the database. *)
Definition env_of (sq : engine) (t : table) (day : date) : Validator.env :=
  Validator.mk_env day (fun number seller date => Ok (check_duplicate sq t number seller (VStr date))).

(** The record can be handed to SQLite: it has a JSON text and the
    eight column values can be bound. *)
Definition columns : list string :=
  ["invoice_number"; "invoice_date"; "seller_name"; "buyer_name"; "currency";
   "net_total"; "tax_amount"; "gross_total"].

Definition storable (invoice_data : record) : bool :=
  json_ok (VDict invoice_data)
  && forallb (fun f => bool_decide (is_Some (bind (get f invoice_data)))) columns.

(** The text of a column, NULL included. *)
Definition text_of (sq : engine) (invoice_data : record) (field : string) : option string :=
  bind (get field invoice_data) ≫= as_text sq.

(** What the constraints of the table keep true: positive ids, none
    above [last_id], no two rows with the same id or with the same
    number, seller and date. *)
Definition key (r : row) : string * string * string := (row_number r, row_seller r, row_date r).

Record consistent (t : table) : Prop := {
  last_id_nonneg : 0 <= last_id t;
  ids_in_range : Forall (fun r => 0 < row_id r <= last_id t) (rows t);
  ids_distinct : NoDup (map row_id (rows t));
  keys_distinct : NoDup (map key (rows t))
}.

End Database.

(** ** More examples *)

Module MoreExamples.
Import Py Decimal Value Validator Examples Spec.

(** An environment whose database holds every invoice, and one whose
    database cannot be reached. *)
Definition env_full : env := mk_env (mk_date 2025 1 1) (fun _ _ _ => Ok true).
Definition env_down : env := mk_env (mk_date 2025 1 1) (fun _ _ _ => Raise ValueError).

(** Another day, and a database that holds every invoice but those
    numbered INV-001. *)
Definition env_other : env :=
  mk_env (mk_date 2024 6 30)
    (fun number _ _ => match number with VStr "INV-001" => Ok false | _ => Ok true end).

(** A record of missing and mistyped-but-harmless values: no number, a
    blank seller, a negative total, an unknown currency. *)
Definition rough_invoice : record :=
  [("invoice_number", VNone); ("invoice_date", VStr "yesterday");
   ("due_date", VStr "2024-02-30"); ("seller_name", VStr "  ");
   ("currency", VStr "BTC"); ("net_total", VInt (-5)); ("tax_amount", VStr "0.5e3");
   ("seller_tax_id", VStr "??")].

(** A line item of one unit at 2.50, billed at 3.00. *)
Definition overbilled_item : list (string * pyval) :=
  [("description", VStr "Widget"); ("quantity", VInt 1);
   ("unit_price", VStr "2.50"); ("line_total", VStr "3.00")].

End MoreExamples.

(** * Properties *)

Import Py Decimal Value Validator Extractor AmountSpec Examples Spec.

(** ** The decimal context leaves results that fit untouched *)

Lemma ndigits_fuel_le fuel : forall (n : N) (k : nat),
  (1 <= k)%nat -> (n < 10 ^ N.of_nat k)%N -> (ndigits_fuel fuel n <= k)%nat.
Proof.
  induction fuel as [|f IH]; intros n k Hk Hn; simpl; [lia|].
  destruct (N.ltb_spec n 10) as [Hlt|Hge]; [lia|].
  destruct k as [|[|k]]; [lia| |].
  - change (10 ^ N.of_nat 1)%N with 10%N in Hn. lia.
  - apply le_n_S, IH; [lia|].
    replace (N.of_nat (S (S k))) with (N.succ (N.of_nat (S k))) in Hn by lia.
    rewrite N.pow_succ_r' in Hn.
    apply N.Div0.div_lt_upper_bound. lia.
Qed.

Lemma ndigits_le_prec (c : N) : (c < 10 ^ 28)%N -> Z.of_nat (ndigits c) <= prec.
Proof.
  intros H. unfold ndigits, prec.
  pose proof (ndigits_fuel_le (N.size_nat c) c 28 ltac:(lia) H). lia.
Qed.

Lemma fix_finite_fits neg c e : fits c e -> fix_finite neg c e = Ok (DFin neg c e).
Proof.
  intros [Hc [He1 He2]]. unfold fix_finite.
  destruct (N.eqb_spec c 0) as [->|Hnz].
  - f_equal. f_equal. unfold Etiny, Etop, Emax, Emin, prec in *. lia.
  - pose proof (ndigits_le_prec c Hc) as Hd.
    unfold Etiny, Etop, Emax, Emin, prec in *.
    destruct (Z.gtb_spec (Z.of_nat (ndigits c) + e - 28) (999999 - 28 + 1)); [lia|].
    destruct (Z.ltb_spec e (Z.max (Z.of_nat (ndigits c) + e - 28) (-999999 - 28 + 1))); [lia|].
    reflexivity.
Qed.

(** ** Exact values of finite decimals *)

Section DecimalValues.
Local Open Scope Q_scope.

Lemma ten_nonzero : ~ ten == 0.
Proof. unfold ten. intros H. discriminate H. Qed.

Lemma pow10_pos (e : Z) : 0 < ten ^ e.
Proof. apply Qpower_0_lt. reflexivity. Qed.

Lemma scaled_value neg c e m :
  (m <= e)%Z -> inject_Z (scaled neg c e m) * ten ^ m == value neg c e.
Proof.
  intros Hm. unfold scaled, value.
  change (inject_Z 10) with ten.
  rewrite inject_Z_mult, (Zpower_Qpower 10 (e - m)) by lia.
  rewrite <- Qmult_assoc, <- Qpower_plus by apply ten_nonzero.
  replace (e - m + m)%Z with e by lia. reflexivity.
Qed.

Lemma signed_abs (z : Z) (s : bool) :
  ((if (z =? 0)%Z then s else (z <? 0)%Z) = true -> z <= 0)%Z ->
  ((if (z =? 0)%Z then s else (z <? 0)%Z) = false -> 0 <= z)%Z ->
  ((if (if (z =? 0)%Z then s else (z <? 0)%Z) then -1 else 1) * Z.of_N (Z.abs_N z))%Z = z.
Proof.
  intros H1 H2. destruct (if (z =? 0)%Z then s else (z <? 0)%Z); lia.
Qed.

Lemma exact_sum_value s1 c1 e1 s2 c2 e2 :
  let '(neg, c, e) := exact_sum s1 c1 e1 s2 c2 e2 in
  value neg c e == value s1 c1 e1 + value s2 c2 e2.
Proof.
  unfold exact_sum.
  set (e := Z.min e1 e2).
  set (z := (scaled s1 c1 e1 e + scaled s2 c2 e2 e)%Z).
  unfold value at 1.
  rewrite signed_abs.
  - unfold z. rewrite inject_Z_plus, Qmult_plus_distr_l.
    rewrite !scaled_value by (unfold e; lia). reflexivity.
  - destruct (Z.eqb_spec z 0); [lia|]. destruct (Z.ltb_spec z 0); [lia|discriminate].
  - destruct (Z.eqb_spec z 0); [lia|]. destruct (Z.ltb_spec z 0); [discriminate|lia].
Qed.

Lemma exact_add_value a b :
  is_finite a = true -> is_finite b = true ->
  dvalue (exact_add a b) == dvalue a + dvalue b.
Proof.
  destruct a as [s1 c1 e1| |], b as [s2 c2 e2| |]; try discriminate. intros _ _.
  unfold exact_add. pose proof (exact_sum_value s1 c1 e1 s2 c2 e2) as H.
  destruct (exact_sum s1 c1 e1 s2 c2 e2) as [[neg c] e]. exact H.
Qed.

Lemma copy_negate_value b : dvalue (copy_negate b) == - dvalue b.
Proof.
  destruct b as [s c e| |]; simpl; try reflexivity.
  unfold value. destruct s; simpl negb; cbv iota;
    rewrite ?Z.mul_1_l, ?inject_Z_mult, ?inject_Z_opp; ring.
Qed.

Lemma exact_add_finite a b :
  is_finite a = true -> is_finite b = true -> is_finite (exact_add a b) = true.
Proof.
  destruct a as [s1 c1 e1| |], b as [s2 c2 e2| |]; try discriminate. intros _ _.
  unfold exact_add. destruct (exact_sum s1 c1 e1 s2 c2 e2) as [[neg c] e]. reflexivity.
Qed.

Lemma add_exact a b :
  is_finite a = true -> is_finite b = true -> dec_fits (exact_add a b) ->
  add a b = Ok (exact_add a b).
Proof.
  destruct a as [s1 c1 e1| |], b as [s2 c2 e2| |]; try discriminate. intros _ _.
  unfold add, exact_add, add_finite. simpl check_nans. cbv iota.
  destruct (exact_sum s1 c1 e1 s2 c2 e2) as [[neg c] e]. simpl.
  apply fix_finite_fits.
Qed.

Lemma sub_exact a b :
  is_finite a = true -> is_finite b = true -> dec_fits (exact_sub a b) ->
  sub a b = Ok (exact_sub a b).
Proof.
  intros Ha Hb Hf. unfold sub, exact_sub in *.
  destruct a as [s1 c1 e1| |], b as [s2 c2 e2| |]; try discriminate.
  simpl check_nans. cbv iota. apply add_exact; auto.
Qed.

Lemma exact_sub_value a b :
  is_finite a = true -> is_finite b = true ->
  dvalue (exact_sub a b) == dvalue a - dvalue b.
Proof.
  intros Ha Hb. unfold exact_sub. rewrite exact_add_value; auto.
  - rewrite copy_negate_value. reflexivity.
  - destruct b; auto.
Qed.

Lemma abs_exact d :
  dec_fits d ->
  exists c e, abs d = Ok (DFin false c e) /\ value false c e == Qabs (dvalue d).
Proof.
  destruct d as [s c e| |]; cbn [dec_fits dvalue abs]; try tauto. intros Hf.
  exists c, e. split; [apply fix_finite_fits; exact Hf|].
  unfold value. rewrite Qabs_Qmult.
  rewrite (Qabs_pos (ten ^ e)) by (apply Qlt_le_weak, pow10_pos).
  apply Qmult_comp; [|reflexivity].
  change (Qabs (inject_Z ((if s then -1 else 1) * Z.of_N c)))
    with (inject_Z (Z.abs ((if s then -1 else 1) * Z.of_N c))).
  replace (Z.abs ((if s then -1 else 1) * Z.of_N c)) with (1 * Z.of_N c)%Z
    by (destruct s; lia).
  reflexivity.
Qed.

Lemma gt_value s1 c1 e1 s2 c2 e2 b :
  gt (DFin s1 c1 e1) (DFin s2 c2 e2) = Ok b ->
  (b = true <-> value s2 c2 e2 < value s1 c1 e1).
Proof.
  unfold gt. simpl. intros [= <-].
  set (m := Z.min e1 e2).
  rewrite <- (scaled_value s1 c1 e1 m), <- (scaled_value s2 c2 e2 m) by (unfold m; lia).
  rewrite Qmult_lt_r by apply pow10_pos.
  rewrite <- Zlt_Qlt.
  destruct (Z.compare_spec (scaled s1 c1 e1 m) (scaled s2 c2 e2 m)); split; intros; try lia; try discriminate; reflexivity.
Qed.

Lemma lt_value s1 c1 e1 s2 c2 e2 b :
  lt (DFin s1 c1 e1) (DFin s2 c2 e2) = Ok b ->
  (b = true <-> value s1 c1 e1 < value s2 c2 e2).
Proof.
  unfold lt. simpl. intros [= <-].
  set (m := Z.min e1 e2).
  rewrite <- (scaled_value s1 c1 e1 m), <- (scaled_value s2 c2 e2 m) by (unfold m; lia).
  rewrite Qmult_lt_r by apply pow10_pos.
  rewrite <- Zlt_Qlt.
  destruct (Z.compare_spec (scaled s1 c1 e1 m) (scaled s2 c2 e2 m)); split; intros; try lia; try discriminate; reflexivity.
Qed.

End DecimalValues.

(** ** Running the checks *)

Lemma bind_Ok {A B} (m : outcome A) (k : A -> outcome B) (b : B) :
  (m ≫= k) = Ok b -> exists a, m = Ok a /\ k a = Ok b.
Proof. destruct m as [a|x]; simpl; [eauto|discriminate]. Qed.

Tactic Notation "bind_inv" hyp(H) "as" ident(a) ident(Ha) :=
  apply bind_Ok in H; destruct H as (a & Ha & H).

(** *** Steps that only append *)

Lemma appends_refl P r : appends P r r.
Proof. split; [reflexivity|]. exists []. rewrite app_nil_r. auto. Qed.

Lemma appends_trans P r1 r2 r3 : appends P r1 r2 -> appends P r2 r3 -> appends P r1 r3.
Proof.
  intros [Hi1 (es1 & He1 & Hf1)] [Hi2 (es2 & He2 & Hf2)]. split; [congruence|].
  exists (es1 ++ es2)%list. split.
  - rewrite He2, He1, app_assoc. reflexivity.
  - apply Forall_app; auto.
Qed.

Lemma appends_weaken (P Q : string -> Prop) r r' :
  (forall m, P m -> Q m) -> appends P r r' -> appends Q r r'.
Proof.
  intros HPQ [Hi (es & He & Hf)]. split; [exact Hi|]. exists es. split; [exact He|].
  eapply Forall_impl; eauto.
Qed.

Lemma appends_error (P : string -> Prop) msg r : P msg -> appends P r (add_error msg r).
Proof. intros H. split; [reflexivity|]. exists [msg]. split; [reflexivity|]. auto. Qed.

Lemma appends_warning P msg r : appends P r (add_warning msg r).
Proof. split; [reflexivity|]. exists []. simpl. rewrite app_nil_r. auto. Qed.

Lemma appends_none r r' : appends (fun _ => False) r r' -> errors r' = errors r.
Proof.
  intros [_ (es & He & Hf)]. destruct es as [|x es].
  - rewrite He, app_nil_r. reflexivity.
  - inversion Hf; contradiction.
Qed.

Lemma for_each_appends {A} (P : string -> Prop) (body : A -> ValidationResult -> outcome ValidationResult) :
  forall xs r r',
  (forall x s s', In x xs -> body x s = Ok s' -> appends P s s') ->
  for_each xs body r = Ok r' -> appends P r r'.
Proof.
  induction xs as [|x xs IH]; intros r r' Hb H; simpl in H.
  - injection H as <-. apply appends_refl.
  - bind_inv H as s1 Ha. eapply appends_trans.
    + eapply Hb; [left; reflexivity|exact Ha].
    + eapply IH; [|exact H]. intros; eapply Hb; [right|]; eauto.
Qed.

(** *** Blank strings *)

Lemma rstrip_empty s : is_empty (rstrip s) = spaces s.
Proof.
  destruct s as [|c r]; [reflexivity|].
  change (rstrip (String c r))
    with (if spaces (String c r) then EmptyString else String c (rstrip r)).
  destruct (spaces (String c r)); reflexivity.
Qed.

(** Induction on a string, one character of up to three bytes at a
    time. *)
Lemma string_ind3 (P : string -> Prop) :
  P EmptyString ->
  (forall a, P (String a EmptyString)) ->
  (forall a b, P (String a (String b EmptyString))) ->
  (forall a b c r,
     P (String b (String c r)) -> P (String c r) -> P r -> P (String a (String b (String c r)))) ->
  forall s, P s.
Proof.
  intros H0 H1 H2 H3.
  assert (H : forall s, P s /\ (forall a, P (String a s)) /\ (forall a b, P (String a (String b s)))).
  { induction s as [|c r (IH0 & IH1 & IH2)].
    - split; [exact H0|]. split; [exact H1|exact H2].
    - split; [apply IH1|]. split; [intros a; apply IH2|]. intros a b.
      apply H3; [apply IH2|apply IH1|exact IH0]. }
  intros s. apply H.
Qed.

Lemma lstrip_spaces s : spaces (lstrip s) = spaces s.
Proof.
  induction s as [| a | a b | a b c r IH2 IH1 IH0] using string_ind3.
  - reflexivity.
  - simpl. destruct (is_space a) eqn:Ha; [reflexivity|]. simpl. rewrite Ha. reflexivity.
  - cbn [lstrip spaces]. destruct (is_space a) eqn:Ha.
    + destruct (is_space b) eqn:Hb; [reflexivity|]. cbn [spaces]. rewrite Hb. reflexivity.
    + destruct (is_space2 a b) eqn:Hab; [reflexivity|]. cbn [spaces]. rewrite Ha, Hab.
      reflexivity.
  - change (lstrip (String a (String b (String c r))))
      with (if is_space a then lstrip (String b (String c r))
            else if is_space2 a b then lstrip (String c r)
            else if is_space3 a b c then lstrip r else String a (String b (String c r))).
    change (spaces (String a (String b (String c r))))
      with (if is_space a then spaces (String b (String c r))
            else if is_space2 a b then spaces (String c r)
            else is_space3 a b c && spaces r).
    destruct (is_space a) eqn:Ha; [exact IH2|].
    destruct (is_space2 a b) eqn:Hab; [exact IH1|].
    destruct (is_space3 a b c) eqn:Habc; [exact IH0|].
    change (spaces (String a (String b (String c r))))
      with (if is_space a then spaces (String b (String c r))
            else if is_space2 a b then spaces (String c r)
            else is_space3 a b c && spaces r).
    rewrite Ha, Hab, Habc. reflexivity.
Qed.

Lemma strip_empty s : is_empty (strip s) = spaces s.
Proof. unfold strip. rewrite rstrip_empty. apply lstrip_spaces. Qed.

(** *** No check but the totals rule emits a mismatch message *)

(** Case analysis on the innermost scrutinee of a hypothesis, and the
    three ways a step ends: unchanged, with an error, with a warning. *)
Ltac case_step H :=
  match type of H with
  | context [match ?x with _ => _ end] =>
      lazymatch x with
      | context [match _ with _ => _ end] => fail
      | _ => let E := fresh "E" in destruct x eqn:E; simpl in H
      end
  end.

Ltac case_steps H := repeat (case_step H).

Ltac finish_appends :=
  first [ discriminate
        | match goal with
          | H : Ok _ = Ok _ |- _ =>
              injection H as <-;
              first [ apply appends_refl
                    | apply appends_error; reflexivity
                    | apply appends_warning ]
          end ].

Lemma check_required_field_calm inv f r r' :
  check_required_field inv f r = Ok r' -> appends calm r r'.
Proof.
  unfold check_required_field. intros H.
  destruct (get f inv) eqn:Ev; simpl in H;
    try (unfold mbind, outcome_bind in H); case_steps H; finish_appends.
Qed.

Lemma check_invoice_date_calm rt e inv r r' :
  check_invoice_date rt e inv r = Ok r' -> appends calm r r'.
Proof.
  unfold check_invoice_date, except_value_type, mbind, outcome_bind. intros H.
  case_steps H; finish_appends.
Qed.

Lemma check_due_date_calm rt inv r r' :
  check_due_date rt inv r = Ok r' -> appends calm r r'.
Proof.
  unfold check_due_date, except_value_type, mbind, outcome_bind. intros H.
  case_steps H; finish_appends.
Qed.

Lemma check_currency_calm {rt : runtime} inv r r' :
  check_currency inv r = Ok r' -> appends calm r r'.
Proof.
  unfold check_currency, mbind, outcome_bind. intros H.
  case_steps H; finish_appends.
Qed.

Lemma check_tax_id_calm {rt : runtime} f l inv r r' :
  check_tax_id f l inv r = Ok r' -> appends calm r r'.
Proof.
  unfold check_tax_id, mbind, outcome_bind. intros H.
  case_steps H; finish_appends.
Qed.

Lemma _check_formats_calm rt e inv r r' :
  _check_formats rt e inv r = Ok r' -> appends calm r r'.
Proof.
  unfold _check_formats. intros H.
  bind_inv H as r1 H1. bind_inv H as r2 H2. bind_inv H as r3 H3. bind_inv H as r4 H4.
  eauto 10 using appends_trans, check_invoice_date_calm, check_due_date_calm,
    check_currency_calm, check_tax_id_calm.
Qed.

Lemma _check_required_fields_calm inv r r' :
  _check_required_fields inv r = Ok r' -> appends calm r r'.
Proof.
  unfold _check_required_fields. apply for_each_appends.
  intros x s s' _. apply check_required_field_calm.
Qed.

(** *** The business rules *)

Lemma quiet_calm r r' : appends quiet r r' -> appends calm r r'.
Proof. apply appends_weaken. intros m []. Qed.

Lemma tolerance_value : (value false 1 (-2) == 1 # 100)%Q.
Proof. reflexivity. Qed.

Lemma differs_exact a b :
  is_finite a = true -> is_finite b = true -> dec_fits (exact_sub a b) ->
  exists bad, differs a b = Ok bad /\
    (bad = true <-> (1 # 100 < Qabs (dvalue a - dvalue b))%Q).
Proof.
  intros Ha Hb Hf. unfold differs.
  rewrite (sub_exact a b Ha Hb Hf). simpl.
  destruct (abs_exact _ Hf) as (c & e & Habs & Hval). rewrite Habs. simpl.
  unfold tolerance.
  destruct (gt (DFin false c e) (DFin false 1 (-2))) as [bad|x] eqn:Hgt;
    [|unfold gt in Hgt; simpl in Hgt; discriminate].
  exists bad. split; [reflexivity|].
  rewrite (gt_value _ _ _ _ _ _ _ Hgt), tolerance_value, Hval.
  rewrite (exact_sub_value a b Ha Hb). reflexivity.
Qed.

Lemma check_totals_exact n t g r :
  is_finite n = true -> is_finite t = true -> is_finite g = true ->
  dec_fits (exact_add n t) -> dec_fits (exact_sub (exact_add n t) g) ->
  exists bad,
    check_totals (Some n) (Some t) (Some g) r
      = Ok (if bad : bool then add_error (mismatch_message n t g (exact_add n t)) r else r) /\
    (bad = true <-> (1 # 100 < Qabs (dvalue n + dvalue t - dvalue g))%Q).
Proof.
  intros Hn Ht Hg Hs Hd. unfold check_totals.
  rewrite (add_exact n t Hn Ht Hs). simpl.
  destruct (differs_exact (exact_add n t) g (exact_add_finite n t Hn Ht) Hg Hd)
    as (bad & Hdiff & Hbad).
  rewrite Hdiff. simpl. exists bad. split; [destruct bad; reflexivity|].
  rewrite Hbad, (exact_add_value n t Hn Ht). reflexivity.
Qed.

Lemma check_line_items_sum_quiet {rt : runtime} items n r r' :
  check_line_items_sum items n r = Ok r' -> appends quiet r r'.
Proof.
  unfold check_line_items_sum, mbind, outcome_bind. intros H.
  case_steps H; finish_appends.
Qed.

Lemma check_negative_amount_calm {rt : runtime} inv f r r' :
  check_negative_amount inv f r = Ok r' -> appends calm r r'.
Proof.
  unfold check_negative_amount. intros H. bind_inv H as value Hv.
  destruct value as [d|]; [|finish_appends].
  bind_inv H as negative Hneg. destruct negative; finish_appends.
Qed.

Lemma check_line_item_quiet {rt : runtime} entry r r' :
  check_line_item entry r = Ok r' -> appends quiet r r'.
Proof.
  unfold check_line_item. destruct entry as [idx item]. intros H.
  bind_inv H as quantity Hq. bind_inv H as up Hup. bind_inv H as unit_price Hp.
  bind_inv H as lt Hlt. bind_inv H as line_total Ht.
  destruct unit_price as [p|], line_total as [t|]; try finish_appends.
  destruct (truthy quantity && Decimal.truthy p && Decimal.truthy t); [|finish_appends].
  bind_inv H as q Hdq. bind_inv H as expected He. bind_inv H as bad Hbad.
  destruct bad; finish_appends.
Qed.

Lemma _check_anomalies_quiet {rt : runtime} inv r r' :
  _check_anomalies inv r = Ok r' -> appends quiet r r'.
Proof.
  unfold _check_anomalies. intros H.
  bind_inv H as gross Hg. bind_inv H as r1 Hr1. injection H as <-.
  assert (Ha1 : appends quiet r r1).
  { destruct gross as [g|]; [|finish_appends].
    destruct (Decimal.truthy g); [|finish_appends].
    bind_inv Hr1 as high Hh. destruct high; finish_appends. }
  eapply appends_trans; [exact Ha1|].
  unfold warn_if_missing.
  repeat match goal with
         | |- context [if ?b then _ else _] => destruct b
         end;
    repeat (eapply appends_trans; [|apply appends_warning]); apply appends_refl.
Qed.

Lemma _check_duplicates_quiet {rt : runtime} e inv r r' :
  _check_duplicates e inv r = Ok r' -> appends quiet r r'.
Proof.
  unfold _check_duplicates, except_exception, mbind, outcome_bind. intros H.
  case_steps H; finish_appends.
Qed.

(** The business rules, step by step. *)
Lemma _check_business_rules_steps {rt : runtime} inv r r' :
  _check_business_rules inv r = Ok r' ->
  exists n t g r1 r2 r3,
    _to_decimal (get "net_total" inv) = Ok n /\
    _to_decimal (get "tax_amount" inv) = Ok t /\
    _to_decimal (get "gross_total" inv) = Ok g /\
    check_totals n t g r = Ok r1 /\
    appends quiet r1 r2 /\
    for_each amount_fields (check_negative_amount inv) r2 = Ok r3 /\
    appends quiet r3 r'.
Proof.
  unfold _check_business_rules. intros H.
  bind_inv H as n Hn. bind_inv H as t Ht. bind_inv H as g Hg. bind_inv H as r1 Hr1.
  bind_inv H as r2 Hr2. bind_inv H as r3 Hr3. bind_inv H as items Hit.
  exists n, t, g, r1, r2, r3.
  split; [exact Hn|]. split; [exact Ht|]. split; [exact Hg|]. split; [exact Hr1|].
  split; [eapply check_line_items_sum_quiet; exact Hr2|]. split; [exact Hr3|].
  eapply for_each_appends; [|exact H].
  intros x s s' _. apply check_line_item_quiet.
Qed.

(** [validate], step by step. *)
Lemma validate_steps rt e inv r :
  validate rt e inv = Ok r ->
  exists r1 r2 r3 r4 r5,
    _check_required_fields inv (mk_result (the_invoice_id inv) true [] []) = Ok r1 /\
    _check_formats rt e inv r1 = Ok r2 /\
    _check_business_rules inv r2 = Ok r3 /\
    _check_anomalies inv r3 = Ok r4 /\
    _check_duplicates e inv r4 = Ok r5 /\
    r = set_validity r5.
Proof.
  unfold validate, the_invoice_id. intros H.
  bind_inv H as i Hi. rewrite Hi.
  bind_inv H as r1 H1. bind_inv H as r2 H2. bind_inv H as r3 H3.
  bind_inv H as r4 H4. bind_inv H as r5 H5. injection H as <-.
  exists r1, r2, r3, r4, r5. auto 10.
Qed.

Lemma validate_id_returns rt e inv r :
  validate rt e inv = Ok r -> make_invoice_id inv = Ok (the_invoice_id inv).
Proof.
  unfold validate, the_invoice_id. intros H. bind_inv H as i Hi. rewrite Hi. reflexivity.
Qed.

(** *** The totals rule within [validate] *)

Lemma appends_errors_from_empty P r r' :
  errors r = [] -> appends P r r' -> Forall P (errors r').
Proof. intros Hr [_ (es & He & Hf)]. rewrite He, Hr. exact Hf. Qed.

Lemma appends_In P r r' m : appends P r r' -> In m (errors r) -> In m (errors r').
Proof. intros [_ (es & He & _)] Hin. rewrite He. apply in_or_app. auto. Qed.

Lemma appends_Forall (P : string -> Prop) r r' :
  appends P r r' -> Forall P (errors r) -> Forall P (errors r').
Proof. intros [_ (es & He & Hf)] Hr. rewrite He. apply Forall_app; auto. Qed.

Lemma negative_amounts_calm {rt : runtime} inv r r' :
  for_each amount_fields (check_negative_amount inv) r = Ok r' -> appends calm r r'.
Proof.
  apply for_each_appends. intros x s s' _. apply check_negative_amount_calm.
Qed.

(** What [validate] returns when the three totals convert to finite
    decimals whose sum and difference the context does not round. *)
Lemma validate_totals rt e inv n t g r :
  _to_decimal (get "net_total" inv) = Ok (Some n) ->
  _to_decimal (get "tax_amount" inv) = Ok (Some t) ->
  _to_decimal (get "gross_total" inv) = Ok (Some g) ->
  is_finite n = true -> is_finite t = true -> is_finite g = true ->
  dec_fits (exact_add n t) -> dec_fits (exact_sub (exact_add n t) g) ->
  validate rt e inv = Ok r ->
  exists bad : bool,
    (bad = true <-> (1 # 100 < Qabs (dvalue n + dvalue t - dvalue g))%Q) /\
    (bad = true -> In (mismatch_message n t g (exact_add n t)) (errors r)) /\
    (bad = false -> Forall calm (errors r)).
Proof.
  intros Hn Ht Hg Fn Ft Fg Hs Hd Hv.
  destruct (validate_steps _ _ _ _ Hv) as (r1 & r2 & r3 & r4 & r5 & H1 & H2 & H3 & H4 & H5 & ->).
  destruct (_check_business_rules_steps _ _ _ H3)
    as (n' & t' & g' & q1 & q2 & q3 & Hn' & Ht' & Hg' & Htot & Hq2 & Hq3 & Hq4).
  rewrite Hn in Hn'. rewrite Ht in Ht'. rewrite Hg in Hg'.
  injection Hn' as <-. injection Ht' as <-. injection Hg' as <-.
  destruct (check_totals_exact n t g r2 Fn Ft Fg Hs Hd) as (bad & Hc & Hbad).
  rewrite Hc in Htot. injection Htot as <-.
  assert (Hbefore : Forall calm (errors r2)).
  { eapply appends_errors_from_empty; [|eapply appends_trans;
      [eapply _check_required_fields_calm; exact H1|eapply _check_formats_calm; exact H2]].
    reflexivity. }
  assert (Hafter : appends calm (if bad then add_error (mismatch_message n t g (exact_add n t)) r2 else r2) r5).
  { eapply appends_trans; [apply quiet_calm; exact Hq2|].
    eapply appends_trans; [eapply negative_amounts_calm; exact Hq3|].
    eapply appends_trans; [apply quiet_calm; exact Hq4|].
    eapply appends_trans; [apply quiet_calm; eapply _check_anomalies_quiet; exact H4|].
    apply quiet_calm; eapply _check_duplicates_quiet; exact H5. }
  exists bad. split; [exact Hbad|]. split; intros ->; simpl.
  - eapply appends_In; [exact Hafter|]. simpl. apply in_or_app. right. left. reflexivity.
  - eapply appends_Forall; [exact Hafter|exact Hbefore].
Qed.

(** *** The completeness check, field by field *)

Lemma scaled_zero m : scaled false 0 0 m = 0.
Proof. unfold scaled. simpl. reflexivity. Qed.

Lemma lt_zero_finite s c e :
  Decimal.lt (DFin s c e) dec_zero = Ok (s && negb (c =? 0)%N).
Proof.
  unfold Decimal.lt, dec_zero. simpl. f_equal.
  rewrite scaled_zero. unfold scaled.
  assert (Hp : 0 < 10 ^ (e - Z.min e 0)) by (apply Z.pow_pos_nonneg; lia).
  destruct (N.eqb_spec c 0) as [->|Hc].
  - simpl. rewrite Z.mul_0_r, Z.mul_0_l. simpl. destruct s; reflexivity.
  - destruct s; simpl negb; rewrite ?andb_true_r.
    + assert (-1 * Z.of_N c * 10 ^ (e - Z.min e 0) < 0) by nia.
      destruct (Z.compare_spec (-1 * Z.of_N c * 10 ^ (e - Z.min e 0)) 0); try lia; reflexivity.
    + assert (0 < 1 * Z.of_N c * 10 ^ (e - Z.min e 0)) by nia.
      destruct (Z.compare_spec (1 * Z.of_N c * 10 ^ (e - Z.min e 0)) 0); try lia; reflexivity.
Qed.

Lemma lt_zero_number v :
  is_number v = true -> is_decimal_nan v = false -> lt_zero v = Ok (negative_number v).
Proof.
  destruct v as [| b | z | f | s | d | d | l | m]; try discriminate; intros _ Hn; simpl.
  - reflexivity.
  - reflexivity.
  - reflexivity.
  - destruct d as [s c e | s | s g p]; [apply lt_zero_finite| |discriminate].
    destruct s; reflexivity.
Qed.

Lemma check_required_field_finding inv f r :
  is_decimal_nan (get f inv) = false ->
  check_required_field inv f r = Ok (with_finding (required_finding f (get f inv)) r).
Proof.
  unfold check_required_field, required_finding. intros Hn.
  destruct (get f inv) as [| b | z | x | s | d | d | l | m] eqn:Ev;
    try reflexivity.
  - simpl. destruct (z <? 0); reflexivity.
  - simpl is_blank_str. cbv iota. simpl is_number. cbv iota.
    rewrite lt_zero_number by auto. simpl. repeat case_match; reflexivity.
  - simpl is_blank_str. rewrite strip_empty. unfold whitespace_only.
    destruct (spaces s); reflexivity.
  - simpl is_blank_str. cbv iota. simpl is_number. cbv iota.
    rewrite lt_zero_number by auto. simpl. repeat case_match; reflexivity.
Qed.

Lemma check_required_field_nan inv f r :
  is_decimal_nan (get f inv) = true ->
  check_required_field inv f r = Raise InvalidOperation.
Proof.
  unfold check_required_field. destruct (get f inv) as [| | | | |d| | |]; try discriminate.
  destruct d; try discriminate. intros _. reflexivity.
Qed.

Lemma with_finding_errors o r :
  with_finding o r
  = mk_result (invoice_id r) (is_valid r) (errors r ++ match o with Some m => [m] | None => [] end)
      (warnings r).
Proof. destruct o, r; simpl; unfold add_error; simpl; rewrite ?app_nil_r; reflexivity. Qed.

Lemma required_loop_returns inv fields : forall r,
  (forall f, In f fields -> is_decimal_nan (get f inv) = false) ->
  for_each fields (check_required_field inv) r
  = Ok (mk_result (invoice_id r) (is_valid r) (errors r ++ findings inv fields) (warnings r)).
Proof.
  induction fields as [|f fields IH]; intros r Hn; simpl.
  - destruct r; simpl. unfold findings. simpl. rewrite app_nil_r. reflexivity.
  - rewrite check_required_field_finding by (apply Hn; left; reflexivity). simpl.
    rewrite IH by (intros; apply Hn; right; assumption).
    rewrite with_finding_errors. simpl. f_equal. f_equal.
    rewrite <- app_assoc. f_equal. unfold findings. simpl.
    destruct (required_finding f (get f inv)); reflexivity.
Qed.

Lemma required_loop_no_nan inv fields : forall r r',
  for_each fields (check_required_field inv) r = Ok r' ->
  forall f, In f fields -> is_decimal_nan (get f inv) = false.
Proof.
  induction fields as [|f fields IH]; intros r r' H g Hg; simpl in *; [contradiction|].
  bind_inv H as r1 H1. destruct Hg as [<-|Hg].
  - destruct (is_decimal_nan (get f inv)) eqn:E; [|reflexivity].
    rewrite check_required_field_nan in H1 by exact E. discriminate.
  - eapply IH; eauto.
Qed.

(** *** A record whose required fields are present and valid *)

Lemma present_and_valid_finding f v :
  present_and_valid v = true -> required_finding f v = None /\ is_decimal_nan v = false.
Proof.
  destruct v as [| b | z | x | s | d | d | l | m]; simpl; try discriminate; auto.
  - intros H. apply andb_true_iff in H as [H _]. apply negb_true_iff in H.
    unfold required_finding. simpl. rewrite H. auto.
  - intros H. apply andb_true_iff in H as [H _]. apply negb_true_iff in H.
    unfold required_finding. simpl negative_number. rewrite H. auto.
  - intros H. apply negb_true_iff in H. rewrite H. auto.
  - intros H. apply andb_true_iff in H as [H1 H2].
    apply negb_true_iff in H1. apply negb_true_iff in H2.
    unfold required_finding. rewrite H1. auto.
Qed.

Lemma findings_none inv fields :
  Forall (fun f => present_and_valid (get f inv) = true) fields -> findings inv fields = [].
Proof.
  induction 1 as [|f fields Hf _ IH]; [reflexivity|].
  unfold findings in *. simpl.
  destruct (present_and_valid_finding f _ Hf) as [-> _]. exact IH.
Qed.

Lemma _check_required_fields_valid inv r :
  Forall (fun f => present_and_valid (get f inv) = true) required_fields ->
  _check_required_fields inv r = Ok r.
Proof.
  intros H. unfold _check_required_fields.
  rewrite required_loop_returns.
  - rewrite findings_none by exact H. rewrite app_nil_r. destruct r; reflexivity.
  - intros f Hf. rewrite Forall_forall in H.
    apply (present_and_valid_finding f), H, list_elem_of_In, Hf.
Qed.

Lemma check_invoice_date_valid rt e inv r :
  invoice_date_valid rt e inv -> check_invoice_date rt e inv r = Ok r.
Proof.
  intros (d & Hd & Hlt). unfold check_invoice_date.
  destruct (get "invoice_date" inv) as [| | | | s | | d' | |]; simpl in Hd; try discriminate.
  - destruct (truthy (VStr s)); [|reflexivity].
    simpl. rewrite Hd. simpl. rewrite Hlt. reflexivity.
  - injection Hd as ->. simpl. rewrite Hlt. reflexivity.
Qed.

Lemma parse_date_of rt v d : date_of rt v = Some d -> parse_date rt v = Ok (VDate d).
Proof.
  destruct v; simpl; try discriminate.
  - intros ->. reflexivity.
  - intros [= ->]. reflexivity.
Qed.

Lemma check_due_date_consistent rt inv r :
  due_date_consistent rt inv -> check_due_date rt inv r = Ok r.
Proof.
  unfold check_due_date. intros [Hf | (due & d & Hdue & Hd & Hlt)].
  - rewrite Hf. reflexivity.
  - destruct (truthy (get "due_date" inv) && truthy (get "invoice_date" inv)); [|reflexivity].
    rewrite (parse_date_of _ _ _ Hdue). simpl.
    rewrite (parse_date_of _ _ _ Hd). simpl. rewrite Hlt. reflexivity.
Qed.

Lemma check_currency_valid {rt : runtime} inv r : currency_valid inv -> check_currency inv r = Ok r.
Proof.
  intros (s & Hs & Hin). unfold check_currency. rewrite Hs.
  destruct (truthy (VStr s)); [|reflexivity].
  cbn [call_upper mbind outcome_bind]. rewrite Hin. reflexivity.
Qed.

Lemma check_tax_id_quiet {rt : runtime} f l inv r r' :
  check_tax_id f l inv r = Ok r' -> appends quiet r r'.
Proof.
  unfold check_tax_id, mbind, outcome_bind. intros H.
  case_steps H; finish_appends.
Qed.

Lemma check_tax_id_plain {rt : runtime} f l inv r :
  plain_tax_id (get f inv) -> returns (check_tax_id f l inv r).
Proof.
  unfold check_tax_id, returns. intros [Hf | (s & Hs)].
  - rewrite Hf. eauto.
  - rewrite Hs. destruct (truthy (VStr s)); [|eauto]. simpl.
    destruct (negb _); eauto.
Qed.

Lemma dec_zero_value : (dvalue dec_zero == 0)%Q.
Proof. reflexivity. Qed.

Lemma lt_zero_nonneg d :
  is_finite d = true -> (0 <= dvalue d)%Q -> Decimal.lt d dec_zero = Ok false.
Proof.
  destruct d as [s c e| |]; try discriminate. intros _ Hd.
  destruct (Decimal.lt (DFin s c e) dec_zero) as [b|x] eqn:Hlt;
    [|unfold Decimal.lt in Hlt; simpl in Hlt; discriminate].
  destruct b; [|reflexivity].
  unfold dec_zero in Hlt. apply lt_value in Hlt. destruct Hlt as [Hlt _].
  specialize (Hlt eq_refl). simpl in Hd.
  exfalso. apply (Qlt_not_le _ _ Hlt). exact Hd.
Qed.

Lemma check_negative_amount_valid {rt : runtime} inv f d r :
  amount_valid (get f inv) d -> check_negative_amount inv f r = Ok r.
Proof.
  intros (Hd & Hf & Hv). unfold check_negative_amount. rewrite Hd. simpl.
  rewrite lt_zero_nonneg by assumption. reflexivity.
Qed.

Lemma appends_quiet_errors r r' : appends quiet r r' -> errors r' = errors r.
Proof. apply appends_none. Qed.

Lemma not_exceeding (x : Q) : (x <= 1 # 100)%Q -> ~ (1 # 100 < x)%Q.
Proof. intros H1 H2. exact (Qlt_not_le _ _ H2 H1). Qed.

Lemma negative_amounts_valid {rt : runtime} inv n t g r :
  amount_valid (get "net_total" inv) n ->
  amount_valid (get "tax_amount" inv) t ->
  amount_valid (get "gross_total" inv) g ->
  for_each amount_fields (check_negative_amount inv) r = Ok r.
Proof.
  intros Hn Ht Hg. unfold amount_fields. simpl.
  rewrite (check_negative_amount_valid _ _ _ _ Hn). simpl.
  rewrite (check_negative_amount_valid _ _ _ _ Ht). simpl.
  rewrite (check_negative_amount_valid _ _ _ _ Hg). reflexivity.
Qed.

Lemma check_totals_agree n t g r :
  is_finite n = true -> is_finite t = true -> is_finite g = true ->
  totals_agree n t g -> check_totals (Some n) (Some t) (Some g) r = Ok r.
Proof.
  intros Fn Ft Fg (Hs & Hd & Hle).
  destruct (check_totals_exact n t g r Fn Ft Fg Hs Hd) as (bad & Hc & Hbad).
  rewrite Hc. destruct bad; [|reflexivity].
  exfalso. apply (not_exceeding _ Hle). apply Hbad. reflexivity.
Qed.

Lemma _check_formats_valid rt e inv r r' :
  invoice_date_valid rt e inv -> currency_valid inv -> due_date_consistent rt inv ->
  _check_formats rt e inv r = Ok r' -> errors r' = errors r.
Proof.
  intros Hd Hc Hdue. unfold _check_formats.
  rewrite check_invoice_date_valid by exact Hd. simpl.
  rewrite check_due_date_consistent by exact Hdue. simpl.
  rewrite check_currency_valid by exact Hc. simpl.
  intros H. bind_inv H as r1 H1.
  apply check_tax_id_quiet, appends_quiet_errors in H1.
  apply check_tax_id_quiet, appends_quiet_errors in H. congruence.
Qed.

Lemma _check_business_rules_valid {rt : runtime} inv n t g r r' :
  amount_valid (get "net_total" inv) n ->
  amount_valid (get "tax_amount" inv) t ->
  amount_valid (get "gross_total" inv) g ->
  totals_agree n t g ->
  _check_business_rules inv r = Ok r' -> errors r' = errors r.
Proof.
  intros Hn Ht Hg Htot H.
  destruct (_check_business_rules_steps _ _ _ H)
    as (n' & t' & g' & q1 & q2 & q3 & Hn' & Ht' & Hg' & Hc & Hq2 & Hq3 & Hq4).
  pose proof Hn as (En & Fn & _). pose proof Ht as (Et & Ft & _).
  pose proof Hg as (Eg & Fg & _).
  rewrite En in Hn'. rewrite Et in Ht'. rewrite Eg in Hg'.
  injection Hn' as <-. injection Ht' as <-. injection Hg' as <-.
  rewrite (check_totals_agree n t g r Fn Ft Fg Htot) in Hc. injection Hc as <-.
  rewrite (negative_amounts_valid inv n t g q2 Hn Ht Hg) in Hq3. injection Hq3 as <-.
  apply appends_quiet_errors in Hq2, Hq4. congruence.
Qed.

(** A record with valid required fields, agreeing totals and a
    consistent due date has no error. *)
Lemma validate_valid_record rt e inv n t g r :
  required_valid rt e inv n t g -> due_date_consistent rt inv ->
  validate rt e inv = Ok r -> is_valid r = true /\ errors r = [].
Proof.
  intros [Hp Hd Hc Hn Ht Hg Htot] Hdue Hv.
  destruct (validate_steps _ _ _ _ Hv) as (r1 & r2 & r3 & r4 & r5 & H1 & H2 & H3 & H4 & H5 & ->).
  rewrite (_check_required_fields_valid inv _ Hp) in H1. injection H1 as <-.
  apply (_check_formats_valid rt e inv _ _ Hd Hc Hdue) in H2.
  apply (_check_business_rules_valid inv n t g _ _ Hn Ht Hg Htot) in H3.
  apply _check_anomalies_quiet, appends_quiet_errors in H4.
  apply _check_duplicates_quiet, appends_quiet_errors in H5.
  assert (He : errors r5 = []) by (simpl in H2; congruence).
  unfold set_validity. simpl. rewrite He. auto.
Qed.

Lemma _check_duplicates_returns {rt : runtime} e inv r :
  str_ok (get "invoice_date" inv) = true -> returns (_check_duplicates e inv r).
Proof.
  intros Hd. unfold _check_duplicates, except_exception, returns, call_str.
  destruct (negb _); [eauto|]. rewrite Hd. cbn [mbind outcome_bind].
  destruct (check_duplicate e _ _ _) as [[|]|x]; cbn [mbind outcome_bind]; eauto.
  destruct (str_ok (get "invoice_number" inv)); cbn [mbind outcome_bind]; eauto.
  destruct (str_ok (get "seller_name" inv)); cbn [mbind outcome_bind]; eauto.
Qed.

Lemma _check_anomalies_finite {rt : runtime} inv g r :
  _to_decimal (get "gross_total" inv) = Ok (Some g) -> is_finite g = true ->
  returns (_check_anomalies inv r).
Proof.
  intros Hg Fg. unfold _check_anomalies, returns. rewrite Hg. simpl.
  destruct g as [s c e| |]; try discriminate.
  destruct (Decimal.truthy (DFin s c e)); simpl; [|eauto].
  unfold Decimal.gt. cbn [is_nan orb mbind outcome_bind high_amount_threshold].
  repeat case_match; eauto.
Qed.

Lemma make_invoice_id_present {rt : runtime} inv :
  present_and_valid (get "invoice_number" inv) = true ->
  str_ok (get "invoice_number" inv) = true ->
  make_invoice_id inv = Ok (py_str (get "invoice_number" inv)).
Proof.
  unfold make_invoice_id, call_str. intros Hp Hs. rewrite Hs.
  destruct (get "invoice_number" inv) as [| b | z | x | s | d | d | l | m];
    try reflexivity; try discriminate.
  simpl in Hp. simpl is_blank_str. rewrite strip_empty. unfold whitespace_only in Hp.
  destruct (spaces s); [discriminate|reflexivity].
Qed.

Lemma date_of_str_ok rt v d : date_of rt v = Some d -> str_ok v = true.
Proof. destruct v; try discriminate; reflexivity. Qed.

Lemma validate_valid_record_returns rt e inv n t g :
  required_valid rt e inv n t g -> due_date_consistent rt inv -> optional_plain inv ->
  str_ok (get "invoice_number" inv) = true ->
  returns (validate rt e inv).
Proof.
  intros [Hp Hd Hc Hn Ht Hg Htot] Hdue (Hs & Hb & Hl) Hnum.
  pose proof Hn as (En & Fn & _). pose proof Ht as (Et & Ft & _).
  pose proof Hg as (Eg & Fg & _).
  unfold validate.
  rewrite make_invoice_id_present;
    [|exact (proj1 (Forall_forall _ _) Hp "invoice_number"
               ltac:(apply list_elem_of_In; simpl; tauto))|exact Hnum].
  cbn [mbind outcome_bind].
  rewrite (_check_required_fields_valid inv _ Hp). cbn [mbind outcome_bind].
  unfold _check_formats.
  rewrite check_invoice_date_valid by exact Hd. cbn [mbind outcome_bind].
  rewrite check_due_date_consistent by exact Hdue. cbn [mbind outcome_bind].
  rewrite check_currency_valid by exact Hc. cbn [mbind outcome_bind].
  destruct (check_tax_id_plain "seller_tax_id" "Seller" inv
              (mk_result (py_str (get "invoice_number" inv)) true [] []) Hs) as (q1 & ->).
  cbn [mbind outcome_bind].
  destruct (check_tax_id_plain "buyer_tax_id" "Buyer" inv q1 Hb) as (q2 & ->).
  cbn [mbind outcome_bind].
  unfold _check_business_rules. rewrite En, Et, Eg. cbn [mbind outcome_bind].
  rewrite (check_totals_agree n t g q2 Fn Ft Fg Htot). cbn [mbind outcome_bind].
  rewrite Hl. cbn [check_line_items_sum truthy mbind outcome_bind].
  rewrite (negative_amounts_valid inv n t g q2 Hn Ht Hg).
  cbn [mbind outcome_bind iterate enumerate_from for_each].
  destruct (_check_anomalies_finite inv g q2 Eg Fg) as (q3 & ->).
  cbn [mbind outcome_bind].
  destruct Hd as (d & Hd & _).
  destruct (_check_duplicates_returns e inv q3 (date_of_str_ok _ _ _ Hd)) as (q4 & ->).
  cbn [mbind outcome_bind]. unfold returns. eauto.
Qed.

(** ** The identifier and the verdict *)

Lemma appends_any P r r' : appends P r r' -> appends any_message r r'.
Proof. apply appends_weaken. intros; exact I. Qed.

Lemma check_totals_appends n t g r r' :
  check_totals n t g r = Ok r' -> appends any_message r r'.
Proof.
  unfold check_totals, mbind, outcome_bind. intros H.
  case_steps H; try discriminate; injection H as <-;
    first [apply appends_refl | apply appends_error; exact I].
Qed.

Lemma _check_business_rules_appends {rt : runtime} inv r r' :
  _check_business_rules inv r = Ok r' -> appends any_message r r'.
Proof.
  intros H.
  destruct (_check_business_rules_steps _ _ _ H)
    as (n & t & g & q1 & q2 & q3 & _ & _ & _ & Hc & Hq2 & Hq3 & Hq4).
  eapply appends_trans; [eapply check_totals_appends; exact Hc|].
  eapply appends_trans; [eapply appends_any; exact Hq2|].
  eapply appends_trans; [eapply appends_any, negative_amounts_calm; exact Hq3|].
  eapply appends_any; exact Hq4.
Qed.

Lemma validate_appends rt e inv r :
  validate rt e inv = Ok r ->
  exists r5, appends any_message (mk_result (the_invoice_id inv) true [] []) r5 /\
             r = set_validity r5.
Proof.
  intros Hv.
  destruct (validate_steps _ _ _ _ Hv) as (r1 & r2 & r3 & r4 & r5 & H1 & H2 & H3 & H4 & H5 & ->).
  exists r5. split; [|reflexivity].
  eapply appends_trans; [eapply appends_any, _check_required_fields_calm; exact H1|].
  eapply appends_trans; [eapply appends_any, _check_formats_calm; exact H2|].
  eapply appends_trans; [eapply _check_business_rules_appends; exact H3|].
  eapply appends_trans; [eapply appends_any, _check_anomalies_quiet; exact H4|].
  eapply appends_any, _check_duplicates_quiet; exact H5.
Qed.

Lemma validate_invoice_id rt e inv r :
  validate rt e inv = Ok r -> make_invoice_id inv = Ok (invoice_id r).
Proof.
  intros Hv. destruct (validate_appends _ _ _ _ Hv) as (r5 & [Hid _] & ->).
  rewrite (validate_id_returns _ _ _ _ Hv). simpl in *. rewrite Hid. reflexivity.
Qed.

Lemma get_default_has_key key d inv :
  get_default key d inv = if has_key key inv then get key inv else d.
Proof.
  unfold get. induction inv as [|[k v] inv IH]; simpl; [reflexivity|].
  destruct (String.eqb k key); simpl; [reflexivity|exact IH].
Qed.



(** ** What a validation depends on *)

(** The clock is read once, to compare it with the invoice date. *)
Lemma check_invoice_date_clock rt e1 e2 inv r :
  (forall d, date_of rt (get "invoice_date" inv) = Some d ->
             date_lt (today e1) d = date_lt (today e2) d) ->
  check_invoice_date rt e1 inv r = check_invoice_date rt e2 inv r.
Proof.
  intros H. unfold check_invoice_date.
  destruct (truthy (get "invoice_date" inv)); [|reflexivity].
  destruct (get "invoice_date" inv) as [| b | z | x | s | d | d | l | m]; try reflexivity.
  - simpl in *. destruct (fromisoformat rt s) as [d|]; [|reflexivity].
    simpl. rewrite (H d eq_refl). reflexivity.
  - simpl in *. rewrite (H d eq_refl). reflexivity.
Qed.

Lemma _check_formats_clock rt e1 e2 inv r :
  (forall d, date_of rt (get "invoice_date" inv) = Some d ->
             date_lt (today e1) d = date_lt (today e2) d) ->
  _check_formats rt e1 inv r = _check_formats rt e2 inv r.
Proof.
  intros H. unfold _check_formats. rewrite (check_invoice_date_clock rt e1 e2 inv r H).
  reflexivity.
Qed.

(** The database is asked once, for the record's own number, seller and
    date. *)
Lemma _check_duplicates_oracle {rt : runtime} e1 e2 inv r :
  check_duplicate e1 (get "invoice_number" inv) (get "seller_name" inv)
    (py_str (get "invoice_date" inv))
  = check_duplicate e2 (get "invoice_number" inv) (get "seller_name" inv)
      (py_str (get "invoice_date" inv)) ->
  _check_duplicates e1 inv r = _check_duplicates e2 inv r.
Proof.
  intros H. unfold _check_duplicates, call_str.
  destruct (negb _); [reflexivity|].
  destruct (str_ok (get "invoice_date" inv)); [|reflexivity].
  cbn [mbind outcome_bind]. rewrite H. reflexivity.
Qed.


(** ** The batch aggregator *)

Lemma count_error_lookup error counts msg :
  count_error error counts !! msg
  = if String.eqb error msg then Some (S (count_of counts error)) else counts !! msg.
Proof.
  unfold count_error, count_of.
  destruct (String.eqb_spec error msg) as [->|Hne].
  - apply lookup_insert_eq.
  - apply lookup_insert_ne. exact Hne.
Qed.

Lemma count_errors_lookup errs : forall counts msg,
  count_errors errs counts !! msg
  = match occurrences msg errs with
    | O => counts !! msg
    | S k => Some (count_of counts msg + S k)%nat
    end.
Proof.
  unfold count_errors.
  induction errs as [|x errs IH]; intros counts msg; simpl; [reflexivity|].
  rewrite IH. unfold count_of at 1. rewrite !count_error_lookup.
  destruct (String.eqb_spec x msg) as [->|Hne]; simpl.
  - destruct (occurrences msg errs); f_equal; unfold count_of; lia.
  - reflexivity.
Qed.

Lemma count_errors_app l1 l2 counts :
  count_errors (l1 ++ l2) counts = count_errors l2 (count_errors l1 counts).
Proof. unfold count_errors. apply foldl_app. Qed.

Lemma valid_count_filter results :
  valid_count results = Z.of_nat (length (filter (fun r => is_valid r = true) results)).
Proof.
  induction results as [|r rs IH]; simpl; [reflexivity|].
  rewrite IH. rewrite filter_cons. destruct (is_valid r) eqn:E.
  - rewrite decide_True by reflexivity. simpl length. lia.
  - rewrite decide_False by discriminate. lia.
Qed.

Lemma valid_count_bounds results : 0 <= valid_count results <= Z.of_nat (length results).
Proof.
  induction results as [|r rs IH]; simpl; [lia|]. destruct (is_valid r); lia.
Qed.

Lemma for_each_cons {A S} (x : A) xs (body : A -> S -> outcome S) s :
  for_each (x :: xs) body s = body x s ≫= for_each xs body.
Proof. reflexivity. Qed.

Lemma batch_step_Ok rt e inv r done counts :
  validate rt e inv = Ok r ->
  batch_step rt e inv (done, counts)
  = Ok ((done ++ [r])%list, count_errors (errors r) counts).
Proof. intros H. unfold batch_step. rewrite H. reflexivity. Qed.

Lemma batch_loop rt e invoices results :
  Forall2 (fun inv r => validate rt e inv = Ok r) invoices results ->
  forall done counts,
  for_each invoices (batch_step rt e) (done, counts)
  = Ok ((done ++ results)%list, count_errors (all_errors results) counts).
Proof.
  induction 1 as [|inv r invoices results Hv _ IH]; intros done counts.
  - simpl. rewrite app_nil_r. reflexivity.
  - rewrite for_each_cons, (batch_step_Ok _ _ _ _ _ _ Hv).
    cbn [mbind outcome_bind].
    rewrite IH. rewrite <- app_assoc.
    unfold all_errors. cbn [flat_map app]. rewrite count_errors_app. reflexivity.
Qed.

Lemma batch_loop_inv rt e invoices : forall done counts out,
  for_each invoices (batch_step rt e) (done, counts) = Ok out ->
  exists results,
    Forall2 (fun inv r => validate rt e inv = Ok r) invoices results /\
    fst out = (done ++ results)%list.
Proof.
  induction invoices as [|inv invoices IH]; intros done counts out H.
  - simpl in H. injection H as <-. exists []. simpl. rewrite app_nil_r. split; constructor.
  - rewrite for_each_cons in H. apply bind_Ok in H. destruct H as ([done' counts'] & Hs & H).
    unfold batch_step in Hs. apply bind_Ok in Hs. destruct Hs as (r & Hr & Hs).
    injection Hs as <- <-. simpl in H.
    destruct (IH _ _ _ H) as (results & HF & Hout).
    exists (r :: results). split; [constructor; assumption|].
    rewrite Hout, <- app_assoc. reflexivity.
Qed.


(** ** The amount normalizer *)

Lemma rindex_from_last_index c s : forall i found,
  rindex_from c s i found
  = match last_index c s with
    | Some k => Some (i + k)%nat
    | None => found
    end.
Proof.
  induction s as [|d r IH]; intros i found; simpl; [reflexivity|].
  rewrite IH. destruct (last_index c r) as [k|].
  - f_equal. lia.
  - destruct (Ascii.eqb d c); [f_equal; lia|reflexivity].
Qed.

Lemma rindex_last_index c s :
  rindex c s = match last_index c s with Some k => Ok k | None => Raise ValueError end.
Proof.
  unfold rindex. rewrite rindex_from_last_index.
  destruct (last_index c s); reflexivity.
Qed.

Lemma last_index_contains c s :
  contains c s = match last_index c s with Some _ => true | None => false end.
Proof.
  induction s as [|d r IH]; simpl; [reflexivity|].
  rewrite IH. destruct (last_index c r); [apply orb_true_r|].
  destruct (Ascii.eqb d c); reflexivity.
Qed.

Lemma last_separator_index s :
  match last_index "," s, last_index "." s with
  | Some i, Some j => last_separator s = Some (if (j <? i)%nat then "," else ".")%char /\ i <> j
  | Some _, None => last_separator s = Some ","%char
  | None, Some _ => last_separator s = Some "."%char
  | None, None => last_separator s = None
  end.
Proof.
  induction s as [|c r IH]; simpl; [reflexivity|].
  destruct (last_index "," r) as [i|], (last_index "." r) as [j|].
  - destruct IH as [-> Hne]. split; [|lia].
    change (S j <? S i)%nat with (j <? i)%nat. reflexivity.
  - rewrite IH. destruct (Ascii.eqb_spec c "."); [subst; split; [reflexivity|lia]|reflexivity].
  - rewrite IH. destruct (Ascii.eqb_spec c ","); [subst; split; [reflexivity|lia]|reflexivity].
  - rewrite IH.
    destruct (Ascii.eqb_spec c ","); [subst; reflexivity|].
    destruct (Ascii.eqb_spec c "."); [subst; reflexivity|].
    simpl. reflexivity.
Qed.

(** [parts[-1]] of [s.split(',')] is what follows the last comma; without
    a comma the only part is the string itself. *)
Lemma split_comma s :
  match after_last_comma s with
  | Some t => List.last (split "," s) EmptyString = t /\ (2 <= length (split "," s))%nat
  | None => split "," s = [s]
  end.
Proof.
  induction s as [|c r IH]; simpl; [reflexivity|].
  destruct (Ascii.eqb c ",") eqn:Ec.
  - destruct (after_last_comma r) as [t|].
    + destruct IH as [Hl Hn]. destruct (split "," r) as [|p ps]; [simpl in Hn; lia|].
      split; [exact Hl|simpl; lia].
    + rewrite IH. split; [reflexivity|simpl; lia].
  - destruct (after_last_comma r) as [t|].
    + destruct IH as [Hl Hn]. destruct (split "," r) as [|p [|p' ps]]; simpl in Hn; try lia.
      split; [exact Hl|simpl; lia].
    + rewrite IH. reflexivity.
Qed.

Lemma last_part_split s t :
  after_last_comma s = Some t -> last_part (split "," s) = Ok t.
Proof.
  intros H. pose proof (split_comma s) as Hs. rewrite H in Hs. destruct Hs as [Hl Hn].
  unfold last_part. destruct (split "," s); [simpl in Hn; lia|]. rewrite Hl. reflexivity.
Qed.

Lemma after_last_comma_contains s :
  contains "," s = match after_last_comma s with Some _ => true | None => false end.
Proof.
  induction s as [|c r IH]; simpl; [reflexivity|].
  rewrite IH. destruct (after_last_comma r); [apply orb_true_r|].
  destruct (Ascii.eqb c ","); reflexivity.
Qed.

(** In a string of digits and commas, only digits follow the last comma. *)
Lemma no_separator_digits s :
  str_all amount_char s = true -> contains "." s = false -> contains "," s = false ->
  str_all is_digit s = true.
Proof.
  induction s as [|d r IH]; cbn [str_all contains]; [reflexivity|].
  intros Ha Hd Hc.
  apply andb_true_iff in Ha as [Ha Hr]. apply orb_false_iff in Hd as [Hd1 Hr1].
  apply orb_false_iff in Hc as [Hd2 Hr2].
  unfold amount_char in Ha. rewrite Hd1, Hd2, !orb_false_r in Ha. rewrite Ha.
  apply IH; assumption.
Qed.

Lemma after_last_comma_digits s t :
  str_all amount_char s = true -> contains "." s = false ->
  after_last_comma s = Some t -> str_all is_digit t = true.
Proof.
  revert t. induction s as [|c r IH]; intros t Ha Hd Ht;
    cbn [after_last_comma str_all contains] in *; [discriminate|].
  apply andb_true_iff in Ha as [Hc Hr]. apply orb_false_iff in Hd as [Hcd Hrd].
  destruct (after_last_comma r) as [t'|] eqn:Et.
  - injection Ht as <-. apply IH; auto.
  - revert Ht. destruct (Ascii.eqb c ","); [|discriminate]. intros [= <-].
    apply no_separator_digits; auto.
    rewrite after_last_comma_contains, Et. reflexivity.
Qed.

(** *** Reading the cleaned string *)

Lemma read_float_read_as s : forall b c k n,
  read_float s b c k n = read_as (Some dot) None s b c k n.
Proof.
  induction s as [|ch r IH]; intros b c k n; cbn [read_float read_as]; [reflexivity|].
  destruct (is_digit ch); [apply IH|].
  rewrite (bool_decide_eq_false_2 (None = Some ch)) by discriminate.
  unfold dot. destruct (Ascii.eqb_spec ch ".") as [->|Hne].
  - rewrite bool_decide_eq_true_2 by reflexivity. destruct b; [reflexivity|apply IH].
  - rewrite bool_decide_eq_false_2 by congruence. reflexivity.
Qed.

Lemma read_as_strip point th s : forall b c k n,
  is_digit th = false -> point <> Some th ->
  read_as point None (replace th EmptyString s) b c k n
  = read_as point (Some th) s b c k n.
Proof.
  intros b c k n Hd Hp. revert b c k n.
  induction s as [|ch r IH]; intros b c k n; cbn [replace read_as]; [reflexivity|].
  destruct (Ascii.eqb_spec ch th) as [->|Hne].
  - cbn [String.append]. rewrite Hd. rewrite bool_decide_eq_true_2 by reflexivity. apply IH.
  - cbn [read_as]. destruct (is_digit ch); [apply IH|].
    rewrite (bool_decide_eq_false_2 (None = Some ch)) by discriminate.
    rewrite (bool_decide_eq_false_2 (Some th = Some ch)) by congruence.
    destruct (bool_decide (point = Some ch)); [|reflexivity].
    destruct b; [reflexivity|apply IH].
Qed.

Lemma read_as_point s : forall b c k n,
  contains "." s = false ->
  read_as (Some dot) None (replace "," "." s) b c k n
  = read_as (Some comma) None s b c k n.
Proof.
  induction s as [|ch r IH]; intros b c k n Hd;
    cbn [replace read_as contains] in *; [reflexivity|].
  apply orb_false_iff in Hd as [Hch Hr]. apply Ascii.eqb_neq in Hch.
  destruct (Ascii.eqb_spec ch ",") as [->|Hne].
  - cbn [String.append read_as].
    change (is_digit ".") with false. change (is_digit ",") with false. cbv iota.
    rewrite !(bool_decide_eq_false_2 (None = Some _)) by discriminate.
    unfold dot, comma. rewrite !bool_decide_eq_true_2 by reflexivity.
    destruct b; [reflexivity|apply IH; exact Hr].
  - cbn [read_as]. destruct (is_digit ch); [apply IH; exact Hr|].
    rewrite !(bool_decide_eq_false_2 (None = Some _)) by discriminate.
    unfold dot, comma.
    rewrite (bool_decide_eq_false_2 (Some "."%char = Some ch)) by congruence.
    rewrite (bool_decide_eq_false_2 (Some ","%char = Some ch)) by congruence.
    reflexivity.
Qed.

Lemma read_as_no_point p th s : forall b c k n,
  contains p s = false ->
  read_as (Some p) th s b c k n = read_as None th s b c k n.
Proof.
  induction s as [|ch r IH]; intros b c k n Hd;
    cbn [read_as contains] in *; [reflexivity|].
  apply orb_false_iff in Hd as [Hch Hr]. apply Ascii.eqb_neq in Hch.
  destruct (is_digit ch); [apply IH; exact Hr|].
  destruct (bool_decide (th = Some ch)); [apply IH; exact Hr|].
  rewrite (bool_decide_eq_false_2 (Some p = Some ch)) by congruence.
  rewrite (bool_decide_eq_false_2 (None = Some ch)) by discriminate. reflexivity.
Qed.

Lemma replace_removes c s : contains c (replace c EmptyString s) = false.
Proof.
  induction s as [|d r IH]; simpl; [reflexivity|].
  destruct (Ascii.eqb d c) eqn:E; simpl; [exact IH|]. rewrite E. exact IH.
Qed.

Lemma py_float_value s v :
  read_float s false 0 0 0 = v ->
  match py_float s with Ok a => Some a | Raise _ => None end = v.
Proof. intros <-. unfold py_float. destruct (read_float s false 0 0 0); reflexivity. Qed.

Example amount_value_example : (amount_value (123456%N, 2%nat) == 123456 # 100)%Q.
Proof. reflexivity. Qed.

(** The normalizer computes the amount that the specification words. *)
Lemma normalize_amount_spec amt :
  amount_string amt = true -> normalize_amount amt = spec_amount amt.
Proof.
  intros Hamt. unfold amount_string in Hamt.
  apply andb_true_iff in Hamt as [Hamt _]. apply andb_true_iff in Hamt as [Hchars _].
  unfold normalize_amount, spec_amount, clean_amount, comma, dot.
  destruct (contains "," amt) eqn:Hc; simpl andb.
  - destruct (contains "." amt) eqn:Hd; cbv iota.
    + rewrite !rindex_last_index.
      pose proof (last_separator_index amt) as Hsep.
      rewrite last_index_contains in Hc, Hd.
      destruct (last_index "," amt) as [i|]; [|discriminate].
      destruct (last_index "." amt) as [j|]; [|discriminate].
      destruct Hsep as [Hsep Hne]. cbn [mbind outcome_bind]. rewrite Hsep.
      destruct (j <? i)%nat.
      * rewrite bool_decide_eq_true_2 by reflexivity. cbn [mbind outcome_bind].
        apply py_float_value. unfold value_as.
        rewrite read_float_read_as.
        rewrite read_as_point by apply replace_removes.
        apply read_as_strip; [reflexivity|discriminate].
      * rewrite bool_decide_eq_false_2 by discriminate. cbn [mbind outcome_bind].
        apply py_float_value. unfold value_as.
        rewrite read_float_read_as. apply read_as_strip; [reflexivity|discriminate].
    + pose proof (after_last_comma_contains amt) as Ha. rewrite Hc in Ha.
      unfold two_digits_follow_comma.
      destruct (after_last_comma amt) as [t|] eqn:Et; [|discriminate].
      rewrite (last_part_split amt t Et). cbn [mbind outcome_bind].
      rewrite (after_last_comma_digits amt t Hchars Hd Et), andb_true_r.
      destruct (String.length t =? 2)%nat; cbn [mbind outcome_bind].
      * apply py_float_value. unfold value_as. rewrite read_float_read_as.
        apply read_as_point. exact Hd.
      * apply py_float_value. unfold value_as. rewrite read_float_read_as.
        rewrite read_as_strip by (reflexivity || discriminate).
        apply read_as_no_point. exact Hd.
  - cbn [mbind outcome_bind]. apply py_float_value. unfold value_as.
    apply read_float_read_as.
Qed.

(** ** Where the checks give up *)

(** The handler of [_to_decimal] fires for one error only, the
    ValueError of [str] on an integer of more than 4300 digits: the
    conversion returns "no value" for [None] and for a value that holds
    such an integer, and raises on every other value whose string form
    is not a decimal numeral. *)
Lemma _to_decimal_no_value {rt : runtime} v :
  _to_decimal v = Ok None <-> v = VNone \/ str_ok v = false.
Proof.
  assert (H : forall w,
            (except_value_type (d ← decimal_of_str w; Ok (Some d)) (Ok None) = Ok None
             <-> str_ok w = false)).
  { intros w. unfold decimal_of_str, call_str, decimal_of_string.
    destruct (str_ok w); cbn [mbind outcome_bind except_value_type].
    - destruct (Decimal.of_string _); cbn [mbind outcome_bind except_value_type];
        split; discriminate.
    - split; reflexivity. }
  destruct v; cbn [_to_decimal];
    try (rewrite H; split; [auto|intros [?|?]; [discriminate|assumption]]).
  - split; auto.
  - split; [discriminate|intros [?|?]; discriminate].
Qed.

Lemma _to_decimal_unparseable {rt : runtime} v :
  v <> VNone -> (forall d, v <> VDecimal d) -> str_ok v = true ->
  Decimal.of_string (numeral (py_str v)) = None ->
  _to_decimal v = Raise InvalidOperation.
Proof.
  intros Hnone Hdec Hstr Hparse.
  destruct v; try contradiction;
    unfold _to_decimal, decimal_of_str, call_str, decimal_of_string;
    try (rewrite Hstr; cbn [mbind outcome_bind]; rewrite Hparse; reflexivity).
  exfalso. eapply Hdec. reflexivity.
Qed.

(** The line item rule skips every item with a zero among its three
    values, whatever the other two are. *)
Lemma check_line_item_skips_zero {rt : runtime} idx item quantity up lt p t r :
  item_get item "quantity" = Ok quantity ->
  item_get item "unit_price" = Ok up -> _to_decimal up = Ok (Some p) ->
  item_get item "line_total" = Ok lt -> _to_decimal lt = Ok (Some t) ->
  truthy quantity && Decimal.truthy p && Decimal.truthy t = false ->
  check_line_item (idx, item) r = Ok r.
Proof.
  intros Hq Hup Hp Hlt Ht Hzero. unfold check_line_item.
  rewrite Hq. cbn [mbind outcome_bind]. rewrite Hup. cbn [mbind outcome_bind].
  rewrite Hp. cbn [mbind outcome_bind]. rewrite Hlt. cbn [mbind outcome_bind].
  rewrite Ht. cbn [mbind outcome_bind]. rewrite Hzero. reflexivity.
Qed.

(** ** The scenarios of section 8 of the specification *)

Example scenario_valid_invoice :
  validate rt_iso env0 sample_invoice = Ok sample_result.
Proof. vm_compute. reflexivity. Qed.

Example scenario_mismatch :
  errors <$> validate rt_iso env0
    (set_field "tax_amount" (float_of "200.0" (200 # 1))
       (set_field "gross_total" (float_of "1100.0" (1100 # 1)) sample_invoice))
  = Ok ["Total calculation mismatch: net (1000.0) + tax (200.0) != gross (1100.0). Expected: 1200.0"].
Proof. vm_compute. reflexivity. Qed.

Example scenario_missing_fields :
  errors <$> validate rt_iso env0
    (set_field "invoice_number" (VStr EmptyString)
       (set_field "buyer_name" (VStr EmptyString)
          (set_field "net_total" VNone sample_invoice)))
  = Ok ["Empty required field: invoice_number"; "Empty required field: buyer_name";
        "Missing required field: net_total"].
Proof. vm_compute. reflexivity. Qed.

Example scenario_future_date :
  errors <$> validate rt_iso env0
    (set_field "invoice_date" (VStr "2099-12-31")
       (set_field "due_date" VNone sample_invoice))
  = Ok ["Invoice date cannot be in the future"].
Proof. vm_compute. reflexivity. Qed.

Example scenario_invalid_currency :
  errors <$> validate rt_iso env0 (set_field "currency" (VStr "XYZ") sample_invoice)
  = Ok ["Invalid currency: XYZ. Must be one of ['EUR', 'USD', 'INR', 'GBP']"].
Proof. vm_compute. reflexivity. Qed.

(** The tolerance boundary: a gross total off by 0.01 passes, one off by
    0.02 does not. *)
Example tolerance_boundary :
  errors <$> validate rt_iso env0
    (set_field "gross_total" (float_of "1180.01" (118001 # 100)) sample_invoice)
  = Ok [] /\
  errors <$> validate rt_iso env0
    (set_field "gross_total" (float_of "1180.02" (118002 # 100)) sample_invoice)
  = Ok ["Total calculation mismatch: net (1000.0) + tax (180.0) != gross (1180.02). Expected: 1180.0"].
Proof. split; vm_compute; reflexivity. Qed.

(** * The claims *)

Ltac evaluate := vm_compute; repeat split; first [reflexivity | intro; discriminate].

Ltac all_fields :=
  unfold required_fields;
  repeat (constructor; [vm_compute; reflexivity|]); constructor.

(** The required fields, the date, the currency and the totals of the
    sample invoice and of its variants are valid. *)
Lemma sample_required_valid inv :
  Forall (fun f => get f inv = get f sample_invoice) required_fields ->
  required_valid rt_iso env0 inv (DFin false 10000 (-1)) (DFin false 1800 (-1))
    (DFin false 11800 (-1)).
Proof.
  intros H.
  assert (Hget : forall f, In f required_fields -> get f inv = get f sample_invoice).
  { intros f Hf. rewrite Forall_forall in H. apply H, list_elem_of_In, Hf. }
  constructor.
  - apply Forall_forall. intros f Hf. apply list_elem_of_In in Hf.
    rewrite (Hget f Hf). unfold required_fields in Hf. simpl in Hf.
    repeat (destruct Hf as [<-|Hf]; [vm_compute; reflexivity|]). contradiction.
  - exists (mk_date 2024 1 15). rewrite Hget by (unfold required_fields; simpl; tauto).
    split; reflexivity.
  - exists "USD". rewrite Hget by (unfold required_fields; simpl; tauto).
    split; reflexivity.
  - unfold amount_valid. rewrite Hget by (unfold required_fields; simpl; tauto). evaluate.
  - unfold amount_valid. rewrite Hget by (unfold required_fields; simpl; tauto). evaluate.
  - unfold amount_valid. rewrite Hget by (unfold required_fields; simpl; tauto). evaluate.
  - evaluate.
Defined.

(** C1 (the code breaks the claim): [validate] is claimed never to raise
    and [_to_decimal] to return "no value" on unparseable input.  The
    [Decimal] constructor signals [InvalidOperation], which the handler
    for [ValueError] and [TypeError] in [_to_decimal] does not catch: a
    net total of ["N/A"] makes [_to_decimal], and with it [validate],
    raise.  A currency or a tax identifier that is not a string makes
    the format checks raise [AttributeError], and a null list of line
    items makes the line item loop raise [TypeError]. *)
Theorem validate_raises_on_malformed_fields :
  _to_decimal (rt:=rt_iso) (VStr "N/A") = Raise InvalidOperation /\
  validate rt_iso env0 unparseable_amount_invoice = Raise InvalidOperation /\
  validate rt_iso env0 numeric_currency_invoice = Raise AttributeError /\
  validate rt_iso env0 numeric_tax_id_invoice = Raise AttributeError /\
  validate rt_iso env0 null_items_invoice = Raise TypeError.
Proof. repeat split; vm_compute; reflexivity. Qed.

(** C2 (as amended): whenever the three totals convert to finite
    decimals [n], [t], [g] whose unrounded sum [n + t] and difference
    [(n + t) - g] fit the context (at most 28 digits, written at the
    smallest exponent of their operands), the totals rule returns and
    appends the error "Total calculation mismatch: net (n) + tax (t) !=
    gross (g). Expected: n+t" exactly when [|n + t - g| > 0.01] in exact
    arithmetic; the result of [validate] holds that error exactly then,
    and otherwise no mismatch error at all.  A difference of exactly 0.01
    gives none, one of 0.02 gives the error. *)
Theorem totals_mismatch_exact rt e inv n t g r :
  _to_decimal (get "net_total" inv) = Ok (Some n) ->
  _to_decimal (get "tax_amount" inv) = Ok (Some t) ->
  _to_decimal (get "gross_total" inv) = Ok (Some g) ->
  is_finite n = true -> is_finite t = true -> is_finite g = true ->
  dec_fits (exact_add n t) -> dec_fits (exact_sub (exact_add n t) g) ->
  validate rt e inv = Ok r ->
  let excess := Qabs (dvalue n + dvalue t - dvalue g) in
  let message := mismatch_message n t g (exact_add n t) in
  ((1 # 100 < excess)%Q <-> In message (errors r)) /\
  (~ (1 # 100 < excess)%Q -> Forall calm (errors r)) /\
  ((excess == 1 # 100)%Q -> Forall calm (errors r)) /\
  ((excess == 2 # 100)%Q -> In message (errors r)) /\
  (forall result, exists bad : bool,
     check_totals (Some n) (Some t) (Some g) result
       = Ok (if bad then add_error message result else result) /\
     (bad = true <-> (1 # 100 < excess)%Q)).
Proof.
  intros Hn Ht Hg Fn Ft Fg Hs Hd Hv excess message.
  destruct (validate_totals rt e inv n t g r Hn Ht Hg Fn Ft Fg Hs Hd Hv)
    as (bad & Hbad & Hin & Hcalm).
  fold excess in Hbad. fold message in Hin.
  assert (Hno : ~ (1 # 100 < excess)%Q -> Forall calm (errors r)).
  { intros Hle. apply Hcalm. destruct bad; [|reflexivity]. exfalso. apply Hle, Hbad. reflexivity. }
  assert (Hyes : (1 # 100 < excess)%Q -> In message (errors r)).
  { intros Hlt. apply Hin, Hbad, Hlt. }
  split; [split|split; [|split; [|split]]].
  - exact Hyes.
  - intros Hmsg. apply Hbad. destruct bad; [reflexivity|].
    specialize (Hcalm eq_refl). rewrite Forall_forall in Hcalm.
    apply list_elem_of_In, Hcalm in Hmsg. discriminate Hmsg.
  - exact Hno.
  - intros Heq. apply Hno. rewrite Heq. apply Qlt_irrefl.
  - intros Heq. apply Hyes. rewrite Heq. reflexivity.
  - intros result. apply (check_totals_exact n t g result Fn Ft Fg Hs Hd).
Qed.

Lemma totals_mismatch_exact_witness :
  validate rt_iso env0 sample_invoice = Ok sample_result /\
  ((1 # 100 < Qabs (dvalue (DFin false 10000 (-1)) + dvalue (DFin false 1800 (-1))
                    - dvalue (DFin false 11800 (-1))))%Q
   <-> In (mismatch_message (DFin false 10000 (-1)) (DFin false 1800 (-1))
             (DFin false 11800 (-1))
             (exact_add (DFin false 10000 (-1)) (DFin false 1800 (-1))))
          (errors sample_result)).
Proof.
  split; [vm_compute; reflexivity|].
  refine (proj1 (totals_mismatch_exact rt_iso env0 sample_invoice
            (DFin false 10000 (-1)) (DFin false 1800 (-1)) (DFin false 11800 (-1))
            sample_result _ _ _ _ _ _ _ _ _));
    first [vm_compute; reflexivity | evaluate].
Defined.

(** C2 (as stated, refuted): a net and gross total of 10^26 with a tax of
    0.02 convert to decimals and differ by 0.02 in exact arithmetic, yet
    [validate] reports no mismatch: the 28-digit sum rounds the tax away. *)
Lemma totals_mismatch_rounded_away :
  _to_decimal (rt:=rt_iso) (get "net_total" huge_invoice)
  = Ok (Some (DFin false (10 ^ 26) 0)) /\
  _to_decimal (rt:=rt_iso) (get "tax_amount" huge_invoice) = Ok (Some (DFin false 2 (-2))) /\
  _to_decimal (rt:=rt_iso) (get "gross_total" huge_invoice)
  = Ok (Some (DFin false (10 ^ 26) 0)) /\
  (1 # 100 < Qabs (dvalue (DFin false (10 ^ 26) 0) + dvalue (DFin false 2 (-2))
                   - dvalue (DFin false (10 ^ 26) 0)))%Q /\
  exists r, validate rt_iso env0 huge_invoice = Ok r /\ errors r = [].
Proof.
  repeat split; try (vm_compute; reflexivity).
  eexists. split; vm_compute; reflexivity.
Qed.

(** C3: [validate_batch] returns exactly when [validate] returns on every
    record of the batch, and then it returns one result per record, in
    input order (the results are those of [validate]), with a summary in
    which [total_invoices] is the number of results, [valid_invoices] the
    number of results with [is_valid], [invalid_invoices] their
    difference (so that valid + invalid = total), and [error_counts] maps
    each error message to the number of its occurrences in all results
    and holds no other key. *)
Theorem validate_batch_summary rt e invoices :
  (forall results,
     Forall2 (fun inv r => validate rt e inv = Ok r) invoices results ->
     exists summary,
       validate_batch rt e invoices = Ok (summary, results) /\
       length results = length invoices /\
       total_invoices summary = Z.of_nat (length results) /\
       valid_invoices summary
         = Z.of_nat (length (filter (fun r => is_valid r = true) results)) /\
       invalid_invoices summary = total_invoices summary - valid_invoices summary /\
       valid_invoices summary + invalid_invoices summary = total_invoices summary /\
       0 <= invalid_invoices summary /\
       forall msg,
         error_counts summary !! msg
         = match occurrences msg (all_errors results) with
           | O => None
           | n => Some n
           end) /\
  (forall summary results,
     validate_batch rt e invoices = Ok (summary, results) ->
     Forall2 (fun inv r => validate rt e inv = Ok r) invoices results).
Proof.
  split.
  - intros results HF. unfold validate_batch.
    rewrite (batch_loop rt e invoices results HF [] ∅). simpl.
    eexists. split; [reflexivity|]. simpl.
    pose proof (valid_count_bounds results).
    repeat split; try lia.
    + symmetry. eapply Forall2_length; eauto.
    + apply valid_count_filter.
    + intros msg. rewrite count_errors_lookup.
      destruct (occurrences msg (all_errors results)); [apply lookup_empty|].
      unfold count_of. rewrite lookup_empty. reflexivity.
  - intros summary results H. unfold validate_batch in H.
    apply bind_Ok in H. destruct H as (out & Hloop & H). injection H as _ <-.
    destruct (batch_loop_inv _ _ _ _ _ _ Hloop) as (results & HF & Hout).
    rewrite Hout. exact HF.
Qed.

Lemma validate_batch_summary_witness :
  exists summary,
    validate_batch rt_iso env0 [sample_invoice; late_due_invoice; late_due_invoice]
      = Ok (summary, [sample_result; late_due_result; late_due_result]) /\
    total_invoices summary = 3 /\
    valid_invoices summary = 1 /\
    invalid_invoices summary = 2 /\
    error_counts summary !! "Due date cannot be before invoice date" = Some 2%nat /\
    error_counts summary !! "Invoice date cannot be in the future" = None.
Proof.
  destruct (validate_batch_summary rt_iso env0
              [sample_invoice; late_due_invoice; late_due_invoice]) as [H _].
  destruct (H [sample_result; late_due_result; late_due_result])
    as (summary & Hb & _ & Ht & Hv & Hi & _ & _ & Hc).
  { repeat (constructor; [vm_compute; reflexivity|]). constructor. }
  exists summary. split; [exact Hb|].
  split; [rewrite Ht; reflexivity|].
  split; [rewrite Hv; reflexivity|].
  split; [rewrite Hi, Ht, Hv; reflexivity|].
  split; rewrite Hc; reflexivity.
Defined.

(** C4: in the result that [validate] returns, [is_valid] is true exactly
    when the list of errors is empty; the verdict is a function of the
    errors alone, whatever the warnings are. *)
Theorem is_valid_iff_no_errors rt e inv r :
  validate rt e inv = Ok r ->
  (is_valid r = true <-> errors r = []) /\
  (forall rt' e' inv' r',
     validate rt' e' inv' = Ok r' -> errors r' = errors r -> is_valid r' = is_valid r).
Proof.
  intros Hv.
  assert (Hshape : forall rt e inv r, validate rt e inv = Ok r ->
                   is_valid r = Nat.eqb (length (errors r)) 0).
  { clear. intros rt e inv r Hv.
    destruct (validate_appends _ _ _ _ Hv) as (r5 & _ & ->). reflexivity. }
  split.
  - rewrite (Hshape _ _ _ _ Hv). destruct (errors r); simpl; split; congruence.
  - intros rt' e' inv' r' Hv' He.
    rewrite (Hshape _ _ _ _ Hv), (Hshape _ _ _ _ Hv'), He. reflexivity.
Qed.

Lemma is_valid_iff_no_errors_witness :
  validate rt_iso env0 sample_invoice = Ok sample_result /\
  (is_valid sample_result = true <-> errors sample_result = []).
Proof.
  assert (Hv : validate rt_iso env0 sample_invoice = Ok sample_result)
    by (vm_compute; reflexivity).
  split; [exact Hv|].
  exact (proj1 (is_valid_iff_no_errors rt_iso env0 sample_invoice sample_result Hv)).
Defined.

(** C5 (as amended): for every record whose eight required fields are
    present and valid (non-blank, non-negative, a parseable invoice date
    not in the future, an allowed currency, totals that convert to finite
    non-negative decimals), whose net total plus tax equals the gross
    total within 0.01, and whose due date is absent, empty, or a date not
    before the invoice date: every result of [validate] has [is_valid]
    true and no errors; and [validate] does return when moreover the
    invoice number has a string form (it holds no integer of more than
    4300 digits), the tax identifiers are absent, empty or strings and
    there are no line items. *)
Theorem valid_record_has_no_errors rt e inv n t g :
  required_valid rt e inv n t g -> due_date_consistent rt inv ->
  (forall r, validate rt e inv = Ok r -> is_valid r = true /\ errors r = []) /\
  (str_ok (get "invoice_number" inv) = true -> optional_plain inv ->
   exists r, validate rt e inv = Ok r /\ is_valid r = true /\ errors r = []).
Proof.
  intros Hreq Hdue. split.
  - intros r. apply (validate_valid_record rt e inv n t g r Hreq Hdue).
  - intros Hnum Hopt.
    destruct (validate_valid_record_returns rt e inv n t g Hreq Hdue Hopt Hnum) as (r & Hr).
    exists r. split; [exact Hr|].
    apply (validate_valid_record rt e inv n t g r Hreq Hdue Hr).
Qed.

Lemma valid_record_has_no_errors_witness :
  exists r, validate rt_iso env0 sample_invoice = Ok r /\ is_valid r = true /\ errors r = [].
Proof.
  apply (valid_record_has_no_errors rt_iso env0 sample_invoice
           (DFin false 10000 (-1)) (DFin false 1800 (-1)) (DFin false 11800 (-1))).
  - apply sample_required_valid. all_fields.
  - right. exists (mk_date 2024 2 15), (mk_date 2024 1 15). repeat split; reflexivity.
  - reflexivity.
  - repeat split; first [left; reflexivity | reflexivity].
Defined.

(** C5 (as stated, refuted): the sample invoice with a due date before
    its invoice date has all eight required fields present and valid and
    totals that agree exactly, and [validate] returns it invalid. *)
Lemma early_due_date_is_an_error :
  required_valid rt_iso env0 late_due_invoice
    (DFin false 10000 (-1)) (DFin false 1800 (-1)) (DFin false 11800 (-1)) /\
  validate rt_iso env0 late_due_invoice = Ok late_due_result /\
  is_valid late_due_result = false /\
  errors late_due_result = ["Due date cannot be before invoice date"].
Proof.
  split; [|split; [|split]].
  - apply sample_required_valid. all_fields.
  - vm_compute. reflexivity.
  - reflexivity.
  - reflexivity.
Qed.

(** C6: for a string of digits, dots and commas ending in two digits (a
    match of the amount pattern): when it holds both separators, the one
    occurring last is read as the decimal point and the other is
    stripped; when it holds commas only, the comma is read as the decimal
    point exactly when exactly two digits follow the last one, and is
    stripped otherwise.  The normalizer produces the value of the numeral
    under that reading, and produces nothing exactly when that reading is
    no numeral (two decimal points). *)
Theorem amount_separators amt :
  amount_string amt = true ->
  (contains comma amt = true -> contains dot amt = true ->
   normalize_amount amt
   = if bool_decide (last_separator amt = Some comma)
     then value_as (Some comma) (Some dot) amt
     else value_as (Some dot) (Some comma) amt) /\
  (contains comma amt = true -> contains dot amt = false ->
   normalize_amount amt
   = if two_digits_follow_comma amt
     then value_as (Some comma) None amt
     else value_as None (Some comma) amt).
Proof.
  intros Hamt. rewrite (normalize_amount_spec amt Hamt). unfold spec_amount.
  split; intros Hc Hd; rewrite Hc, Hd; reflexivity.
Qed.

Lemma amount_separators_witness :
  normalize_amount "1.234,56" = Some (123456%N, 2%nat) /\
  normalize_amount "1,234.56" = Some (123456%N, 2%nat) /\
  normalize_amount "1234,56" = Some (123456%N, 2%nat) /\
  normalize_amount "1,234" = Some (1234%N, 0%nat).
Proof.
  split; [|split; [|split]].
  - rewrite (proj1 (amount_separators "1.234,56" eq_refl) eq_refl eq_refl). reflexivity.
  - rewrite (proj1 (amount_separators "1,234.56" eq_refl) eq_refl eq_refl). reflexivity.
  - rewrite (proj2 (amount_separators "1234,56" eq_refl) eq_refl eq_refl). reflexivity.
  - rewrite (proj2 (amount_separators "1,234" eq_refl) eq_refl eq_refl). reflexivity.
Defined.

(** C7 (the code breaks the claim): a line item of one unit at price 0.0
    billed at 5.0 has a parseable quantity, unit price and line total,
    and [|1 * 0.0 - 5.0| > 0.01]; the claim requires the warning "Line
    item 1: quantity * unit_price != line_total".  The guard of the rule
    tests the three values for truth, not for presence, so a zero unit
    price (or line total, or quantity) skips the comparison: [validate]
    returns without that warning. *)
Theorem zero_priced_item_is_not_flagged :
  item_get free_item "quantity" = Ok (VInt 1) /\
  decimal_of_str (rt:=rt_iso) (VInt 1) = Ok (DFin false 1 0) /\
  (unit_price ← item_get free_item "unit_price"; _to_decimal (rt:=rt_iso) unit_price)
    = Ok (Some (DFin false 0 (-1))) /\
  (line_total ← item_get free_item "line_total"; _to_decimal (rt:=rt_iso) line_total)
    = Ok (Some (DFin false 50 (-1))) /\
  (1 # 100 < Qabs (dvalue (DFin false 1 0) * dvalue (DFin false 0 (-1))
                   - dvalue (DFin false 50 (-1))))%Q /\
  validate rt_iso env0 free_item_invoice
    = Ok (mk_result "INV-001" true []
            ["Line items sum (5.0) does not match net total (1000.0)";
             "Seller tax ID is missing"; "Buyer tax ID is missing"]) /\
  ~ In (line_item_message 0)
       ["Line items sum (5.0) does not match net total (1000.0)";
        "Seller tax ID is missing"; "Buyer tax ID is missing"].
Proof.
  repeat split; try (vm_compute; reflexivity).
  vm_compute. intros [H|[H|[H|[]]]]; discriminate H.
Qed.

Lemma unknown_id_Ok {rt : runtime} inv i :
  unknown_id inv = Ok i ->
  (has_key "source_file" inv = true -> i = "UNKNOWN_" +:+ py_str (get "source_file" inv)) /\
  (has_key "source_file" inv = false -> i = "UNKNOWN_NO_FILE").
Proof.
  unfold unknown_id, call_str. rewrite get_default_has_key.
  destruct (has_key "source_file" inv).
  - destruct (str_ok (get "source_file" inv)); cbn [mbind outcome_bind]; [|discriminate].
    intros [= <-]. split; [reflexivity|discriminate].
  - cbn [str_ok mbind outcome_bind]. intros [= <-]. split; [discriminate|reflexivity].
Qed.

(** C8 (as amended): in every result that [validate] returns,
    [invoice_id] is the string form of [invoice_number] when that is
    present and not a blank string (empty, or of whitespace characters
    only); when it is missing or blank, the identifier is ["UNKNOWN_"]
    followed by the string form of the record's [source_file] entry,
    whatever that entry holds, and ["UNKNOWN_NO_FILE"] when the record
    has no such entry. *)
Theorem invoice_id_of_validate rt e inv r :
  validate rt e inv = Ok r ->
  let number := get "invoice_number" inv in
  (number <> VNone -> (forall s, number = VStr s -> whitespace_only s = false) ->
   invoice_id r = py_str number) /\
  (number = VNone \/ (exists s, number = VStr s /\ whitespace_only s = true) ->
   (has_key "source_file" inv = true ->
    invoice_id r = "UNKNOWN_" +:+ py_str (get "source_file" inv)) /\
   (has_key "source_file" inv = false -> invoice_id r = "UNKNOWN_NO_FILE")).
Proof.
  intros Hv number. pose proof (validate_invoice_id _ _ _ _ Hv) as Hid.
  unfold make_invoice_id in Hid. fold number in Hid.
  split.
  - intros Hnone Hblank.
    destruct number as [| b | z | x | s | d | d | l | m] eqn:E; [contradiction|..];
      cbn [is_blank_str] in Hid;
      try (rewrite strip_empty in Hid; unfold whitespace_only in Hblank;
           rewrite (Hblank s eq_refl) in Hid);
      unfold call_str in Hid;
      match type of Hid with
      | (if str_ok ?v then _ else _) = _ =>
          destruct (str_ok v); [injection Hid as <-; reflexivity|discriminate]
      end.
  - intros [Hn | (s & Hn & Hs)]; rewrite Hn in Hid.
    + apply unknown_id_Ok, Hid.
    + cbn [is_blank_str] in Hid. rewrite strip_empty in Hid.
      unfold whitespace_only in Hs. rewrite Hs in Hid. apply unknown_id_Ok, Hid.
Qed.

Lemma invoice_id_of_validate_witness :
  exists r,
    validate rt_iso env0 [("invoice_number", VStr "  "); ("source_file", VStr "scan-7.pdf")]
      = Ok r /\
    invoice_id r = "UNKNOWN_scan-7.pdf".
Proof.
  eexists. split; [vm_compute; reflexivity|].
  refine (proj1 (proj2 (invoice_id_of_validate rt_iso env0
            [("invoice_number", VStr "  "); ("source_file", VStr "scan-7.pdf")] _ _) _) _).
  - vm_compute; reflexivity.
  - right. exists "  ". split; reflexivity.
  - reflexivity.
Defined.

(** C8 (as stated, refuted): a [source_file] entry that holds None or the
    empty string gives no file name, and the claim requires the
    identifier "UNKNOWN_NO_FILE" for a record without an invoice number;
    [dict.get] falls back on its default only when the key is absent, so
    the identifiers are "UNKNOWN_None" and "UNKNOWN_".  A no-break space
    (U+00A0) is a blank invoice number, as [str.strip] drops it. *)
Lemma source_file_entry_is_formatted_as_it_is :
  invoice_id <$> validate rt_iso env0 [("invoice_number", VNone); ("source_file", VNone)]
  = Ok "UNKNOWN_None" /\
  invoice_id <$> validate rt_iso env0 [("source_file", VStr EmptyString)]
  = Ok "UNKNOWN_" /\
  invoice_id <$> validate rt_iso env0 [("invoice_number", VNone)]
  = Ok "UNKNOWN_NO_FILE" /\
  invoice_id <$> validate rt_iso env0
                   [("invoice_number", VStr (String (ascii_of_nat 194)
                                               (String (ascii_of_nat 160) EmptyString)));
                    ("source_file", VStr "scan-7.pdf")]
  = Ok "UNKNOWN_scan-7.pdf".
Proof. repeat split; vm_compute; reflexivity. Qed.


(** C10: the completeness check appends, for the required fields in
    order, one finding per field whose value is None ("Missing required
    field"), a string that is empty or whitespace-only ("Empty required
    field"), or a negative int, float or Decimal ("Negative value in
    required field"), and nothing for any other value: a list, a
    mapping or a boolean passes.  It touches nothing else in the result,
    and it returns whenever no required field holds a Decimal NaN (on
    which the comparison with zero raises). *)
Theorem required_fields_findings inv r :
  (forall r',
     _check_required_fields inv r = Ok r' ->
     r' = mk_result (invoice_id r) (is_valid r)
            (errors r ++ findings inv required_fields) (warnings r)) /\
  ((forall f, In f required_fields -> is_decimal_nan (get f inv) = false) ->
   exists r', _check_required_fields inv r = Ok r') /\
  (forall f v m,
     required_finding f v = Some m ->
     (v = VNone /\ m = "Missing required field: " +:+ f) \/
     (exists s, v = VStr s /\ whitespace_only s = true /\
                m = "Empty required field: " +:+ f) \/
     (is_number v = true /\ negative_number v = true /\
      m = "Negative value in required field: " +:+ f)) /\
  (forall f l, required_finding f (VList l) = None) /\
  (forall f d, required_finding f (VDict d) = None) /\
  (forall f b, required_finding f (VBool b) = None).
Proof.
  split; [|split; [|split; [|repeat split]]].
  - intros r' H. unfold _check_required_fields in H.
    rewrite required_loop_returns in H; [congruence|].
    eapply required_loop_no_nan. exact H.
  - intros Hn. eexists. unfold _check_required_fields.
    apply required_loop_returns. exact Hn.
  - intros f v m. unfold required_finding.
    destruct v as [| b | z | x | s | d | d | l | d]; try discriminate.
    + intros [= <-]. left. auto.
    + destruct (negative_number (VInt z)) eqn:E; [|discriminate].
      intros [= <-]. right. right. auto.
    + destruct (negative_number (VFloat x)) eqn:E; [|discriminate].
      intros [= <-]. right. right. auto.
    + destruct (whitespace_only s) eqn:E; [|discriminate].
      intros [= <-]. right. left. eauto.
    + destruct (negative_number (VDecimal d)) eqn:E; [|discriminate].
      intros [= <-]. right. right. auto.
Qed.

Lemma required_fields_findings_witness :
  _check_required_fields odd_invoice (mk_result "UNKNOWN_NO_FILE" true [] [])
  = Ok (mk_result "UNKNOWN_NO_FILE" true
          ["Missing required field: invoice_date"; "Missing required field: seller_name";
           "Missing required field: buyer_name"; "Missing required field: currency";
           "Missing required field: tax_amount"; "Missing required field: gross_total"]
          []).
Proof.
  destruct (required_fields_findings odd_invoice (mk_result "UNKNOWN_NO_FILE" true [] []))
    as (Hshape & Hret & _).
  destruct Hret as (r' & Hr').
  - intros f Hf. unfold required_fields in Hf. simpl in Hf.
    repeat (destruct Hf as [<-|Hf]; [reflexivity|]). contradiction.
  - rewrite Hr'. f_equal. apply (Hshape r' Hr').
Defined.

(** * Further properties of the code *)

Import Effects Findings Sizes Products MoreExamples.

(** ** What a run of checks appends *)


Lemma grows_refl E W r : grows E W r r.
Proof.
  split; [reflexivity|]. split; [reflexivity|]. exists [], []. rewrite !app_nil_r. auto.
Qed.

Lemma grows_trans E W r1 r2 r3 : grows E W r1 r2 -> grows E W r2 r3 -> grows E W r1 r3.
Proof.
  intros (Hi1 & Hv1 & es1 & ws1 & He1 & Hw1 & HE1 & HW1)
         (Hi2 & Hv2 & es2 & ws2 & He2 & Hw2 & HE2 & HW2).
  split; [congruence|]. split; [congruence|].
  exists (es1 ++ es2)%list, (ws1 ++ ws2)%list.
  rewrite He2, He1, Hw2, Hw1, <- !app_assoc.
  split; [reflexivity|]. split; [reflexivity|]. split; apply Forall_app; auto.
Qed.

Lemma grows_error (E W : string -> Prop) msg r : E msg -> grows E W r (add_error msg r).
Proof.
  intros H. split; [reflexivity|]. split; [reflexivity|]. exists [msg], []. simpl.
  rewrite app_nil_r. auto.
Qed.

Lemma grows_warning (E W : string -> Prop) msg r : W msg -> grows E W r (add_warning msg r).
Proof.
  intros H. split; [reflexivity|]. split; [reflexivity|]. exists [], [msg]. simpl.
  rewrite app_nil_r. auto.
Qed.

Lemma for_each_grows {A} E W (body : A -> ValidationResult -> outcome ValidationResult) :
  forall xs r r',
  (forall x s s', In x xs -> body x s = Ok s' -> grows E W s s') ->
  for_each xs body r = Ok r' -> grows E W r r'.
Proof.
  induction xs as [|x xs IH]; intros r r' Hb H; simpl in H.
  - injection H as <-. apply grows_refl.
  - bind_inv H as s1 Ha. eapply grows_trans.
    + eapply Hb; [left; reflexivity|exact Ha].
    + eapply IH; [|exact H]. intros; eapply Hb; [right|]; eauto.
Qed.

Ltac finish_grows :=
  first [ discriminate
        | match goal with
          | H : Ok _ = Ok _ |- _ =>
              injection H as <-;
              first [ apply grows_refl
                    | apply grows_error; solve [auto]
                    | apply grows_warning; solve [auto] ]
          end ].

Section Families.
Variables E W : string -> Prop.

Hypothesis E_missing : forall f, E ("Missing required field: " +:+ f).
Hypothesis E_empty : forall f, E ("Empty required field: " +:+ f).
Hypothesis E_negative_value : forall f, E ("Negative value in required field: " +:+ f).
Hypothesis E_future : E "Invoice date cannot be in the future".
Hypothesis E_invoice_date : forall x, E ("Invalid invoice_date format: " +:+ x).
Hypothesis E_before : E "Due date cannot be before invoice date".
Hypothesis E_due_date : forall x, E ("Invalid due_date format: " +:+ x).
Hypothesis E_currency : forall x, E ("Invalid currency: " +:+ x).
Hypothesis E_mismatch : forall x, E ("Total calculation mismatch: net (" +:+ x).
Hypothesis W_sum : forall x, W ("Line items sum (" +:+ x).
Hypothesis W_item : forall x, W ("Line item " +:+ x).
Hypothesis W_high : forall x, W ("Unusually high gross total: " +:+ x).
Hypothesis W_due : W "Due date is missing".
Hypothesis W_seller : W "Seller tax ID is missing".
Hypothesis W_buyer : W "Buyer tax ID is missing".
Hypothesis W_items : W "No line items found in invoice".
Hypothesis W_duplicate : forall x, W ("Duplicate invoice detected: " +:+ x).

Lemma check_required_field_grows inv f r r' :
  check_required_field inv f r = Ok r' -> grows E W r r'.
Proof using E_missing E_empty E_negative_value.
  unfold check_required_field. intros H.
  destruct (get f inv) eqn:Ev; simpl in H;
    try (unfold mbind, outcome_bind in H); case_steps H; finish_grows.
Qed.

Lemma _check_required_fields_grows inv r r' :
  _check_required_fields inv r = Ok r' -> grows E W r r'.
Proof using E_missing E_empty E_negative_value.
  unfold _check_required_fields. apply for_each_grows.
  intros x s s' _. apply check_required_field_grows.
Qed.

Lemma check_invoice_date_grows rt e inv r r' :
  check_invoice_date rt e inv r = Ok r' -> grows E W r r'.
Proof using E_future E_invoice_date.
  unfold check_invoice_date, except_value_type, mbind, outcome_bind. intros H.
  case_steps H; finish_grows.
Qed.

Lemma check_due_date_grows rt inv r r' :
  check_due_date rt inv r = Ok r' -> grows E W r r'.
Proof using E_before E_due_date.
  unfold check_due_date, except_value_type, mbind, outcome_bind. intros H.
  case_steps H; finish_grows.
Qed.

Lemma check_currency_grows {rt : runtime} inv r r' :
  check_currency inv r = Ok r' -> grows E W r r'.
Proof using E_currency.
  unfold check_currency, mbind, outcome_bind. intros H.
  case_steps H; finish_grows.
Qed.

Lemma check_tax_id_grows {rt : runtime} f l inv r r' :
  (forall x, W (l +:+ " tax ID format may be invalid: " +:+ x)) ->
  check_tax_id f l inv r = Ok r' -> grows E W r r'.
Proof using Type.
  unfold check_tax_id, mbind, outcome_bind. intros W_tax_id H.
  case_steps H; finish_grows.
Qed.

Lemma check_totals_grows n t g r r' :
  check_totals n t g r = Ok r' -> grows E W r r'.
Proof using E_mismatch.
  unfold check_totals, mismatch_message, mbind, outcome_bind. intros H.
  case_steps H; finish_grows.
Qed.

Lemma check_line_items_sum_grows {rt : runtime} items n r r' :
  check_line_items_sum items n r = Ok r' -> grows E W r r'.
Proof using W_sum.
  unfold check_line_items_sum, mbind, outcome_bind. intros H.
  case_steps H; finish_grows.
Qed.

Lemma check_negative_amount_grows {rt : runtime} inv f r r' :
  (forall x, E ("Negative amount not allowed: " +:+ f +:+ " = " +:+ x)) ->
  check_negative_amount inv f r = Ok r' -> grows E W r r'.
Proof using Type.
  unfold check_negative_amount. intros E_negative_amount H. bind_inv H as value Hv.
  destruct value as [d|]; [|finish_grows].
  bind_inv H as negative Hneg. destruct negative; finish_grows.
Qed.

Lemma check_line_item_grows {rt : runtime} entry r r' :
  check_line_item entry r = Ok r' -> grows E W r r'.
Proof using W_item.
  unfold check_line_item, line_item_message. destruct entry as [idx item]. intros H.
  bind_inv H as quantity Hq. bind_inv H as up Hup. bind_inv H as unit_price Hp.
  bind_inv H as lt Hlt. bind_inv H as line_total Ht.
  destruct unit_price as [p|], line_total as [t|]; try finish_grows.
  destruct (truthy quantity && Decimal.truthy p && Decimal.truthy t); [|finish_grows].
  bind_inv H as q Hdq. bind_inv H as expected He. bind_inv H as bad Hbad.
  destruct bad; finish_grows.
Qed.

Lemma high_amount_grows g r r' :
  match g with
  | Some g =>
      if Decimal.truthy g then
        high ← Decimal.gt g high_amount_threshold;
        if high : bool then
          Ok (add_warning ("Unusually high gross total: " +:+ Decimal.to_str g
                             +:+ " (threshold: " +:+ Decimal.to_str high_amount_threshold
                             +:+ ")") r)
        else Ok r
      else Ok r
  | None => Ok r
  end = Ok r' -> grows E W r r'.
Proof using W_high.
  intros H. destruct g as [g|]; [|finish_grows].
  destruct (Decimal.truthy g); [|finish_grows].
  bind_inv H as high Hh. destruct high; finish_grows.
Qed.

Lemma warn_if_missing_grows f m inv r : W m -> grows E W r (warn_if_missing f m inv r).
Proof.
  intros H. unfold warn_if_missing. destruct (negb _); [apply grows_warning, H|apply grows_refl].
Qed.

Lemma _check_anomalies_grows {rt : runtime} inv r r' :
  _check_anomalies inv r = Ok r' -> grows E W r r'.
Proof using W_high W_due W_seller W_buyer W_items.
  unfold _check_anomalies. intros H.
  bind_inv H as gross Hg. bind_inv H as r1 Hr1. injection H as <-.
  eapply grows_trans; [eapply high_amount_grows; exact Hr1|].
  repeat (eapply grows_trans; [|apply warn_if_missing_grows; assumption]). apply grows_refl.
Qed.

Lemma _check_duplicates_grows {rt : runtime} e inv r r' :
  _check_duplicates e inv r = Ok r' -> grows E W r r'.
Proof using W_duplicate.
  unfold _check_duplicates, except_exception, mbind, outcome_bind. intros H.
  case_steps H; finish_grows.
Qed.

End Families.

(** ** The checks of [validate], message by message *)

Lemma strip_prefix_app p x : strip_prefix p (p +:+ x) = Some x.
Proof.
  induction p as [|a p IH]; simpl; [reflexivity|]. rewrite Ascii.eqb_refl. exact IH.
Qed.

Lemma prefix_inj p x y : p +:+ x = p +:+ y -> x = y.
Proof.
  intros H. apply (f_equal (strip_prefix p)) in H. rewrite !strip_prefix_app in H. congruence.
Qed.

Lemma grows_errors p W r r' x :
  grows (without p) W r r' -> (In (p +:+ x) (errors r') <-> In (p +:+ x) (errors r)).
Proof.
  intros (_ & _ & es & ws & He & _ & HE & _). rewrite He, in_app_iff.
  split; [|auto]. intros [H|H]; [exact H|].
  rewrite Forall_forall in HE. apply list_elem_of_In, HE in H.
  unfold without in H. rewrite strip_prefix_app in H. discriminate.
Qed.

Lemma grows_warnings p E r r' x :
  grows E (without p) r r' -> (In (p +:+ x) (warnings r') <-> In (p +:+ x) (warnings r)).
Proof.
  intros (_ & _ & es & ws & _ & Hw & _ & HW). rewrite Hw, in_app_iff.
  split; [|auto]. intros [H|H]; [exact H|].
  rewrite Forall_forall in HW. apply list_elem_of_In, HW in H.
  unfold without in H. rewrite strip_prefix_app in H. discriminate.
Qed.

Lemma app_empty_r s : s +:+ EmptyString = s.
Proof.
  induction s as [|c s IH]; [reflexivity|].
  change (String c (s +:+ EmptyString) = String c s). rewrite IH. reflexivity.
Qed.

(** The steps of [_check_formats] and of [_check_business_rules]. *)
Lemma _check_formats_steps rt e inv r r' :
  _check_formats rt e inv r = Ok r' ->
  exists a1 a2 a3 a4,
    check_invoice_date rt e inv r = Ok a1 /\
    check_due_date rt inv a1 = Ok a2 /\
    check_currency inv a2 = Ok a3 /\
    check_tax_id "seller_tax_id" "Seller" inv a3 = Ok a4 /\
    check_tax_id "buyer_tax_id" "Buyer" inv a4 = Ok r'.
Proof.
  unfold _check_formats. intros H.
  bind_inv H as a1 H1. bind_inv H as a2 H2. bind_inv H as a3 H3. bind_inv H as a4 H4.
  exists a1, a2, a3, a4. auto.
Qed.

Lemma _check_business_rules_stages {rt : runtime} inv r r' :
  _check_business_rules inv r = Ok r' ->
  exists n t g items b1 b2 b3,
    _to_decimal (get "net_total" inv) = Ok n /\
    _to_decimal (get "tax_amount" inv) = Ok t /\
    _to_decimal (get "gross_total" inv) = Ok g /\
    check_totals n t g r = Ok b1 /\
    check_line_items_sum (get_default "line_items" (VList []) inv) n b1 = Ok b2 /\
    for_each amount_fields (check_negative_amount inv) b2 = Ok b3 /\
    iterate (get_default "line_items" (VList []) inv) = Ok items /\
    for_each (enumerate_from 0 items) check_line_item b3 = Ok r'.
Proof.
  unfold _check_business_rules. intros H.
  bind_inv H as n Hn. bind_inv H as t Ht. bind_inv H as g Hg. bind_inv H as b1 Hb1.
  bind_inv H as b2 Hb2. bind_inv H as b3 Hb3. bind_inv H as items Hit.
  exists n, t, g, items, b1, b2, b3. auto 10.
Qed.

(** Discharging what a step emits: no message of its families begins with the prefix at hand. *)
Ltac family :=
  solve [ intros; first [ exact I | reflexivity | split; [reflexivity|split; reflexivity] ] ].

Ltac step_grows :=
  match goal with
  | H : _check_required_fields _ ?a = Ok _ |- grows _ _ ?a _ =>
      eapply _check_required_fields_grows; [idtac..|exact H]; family
  | H : check_invoice_date _ _ _ ?a = Ok _ |- grows _ _ ?a _ =>
      eapply check_invoice_date_grows; [idtac..|exact H]; family
  | H : check_due_date _ _ ?a = Ok _ |- grows _ _ ?a _ =>
      eapply check_due_date_grows; [idtac..|exact H]; family
  | H : check_currency _ ?a = Ok _ |- grows _ _ ?a _ =>
      eapply check_currency_grows; [idtac..|exact H]; family
  | H : check_tax_id _ _ _ ?a = Ok _ |- grows _ _ ?a _ =>
      eapply check_tax_id_grows; [idtac..|exact H]; family
  | H : _check_formats _ _ _ ?a = Ok _ |- grows _ _ ?a _ =>
      let a1 := fresh "a" in let a2 := fresh "a" in let a3 := fresh "a" in
      let a4 := fresh "a" in
      let H1 := fresh "H" in let H2 := fresh "H" in let H3 := fresh "H" in
      let H4 := fresh "H" in let H5 := fresh "H" in
      destruct (_check_formats_steps _ _ _ _ _ H) as (a1 & a2 & a3 & a4 & H1 & H2 & H3 & H4 & H5);
      eapply grows_trans; [eapply check_invoice_date_grows; [idtac..|exact H1]; family|];
      eapply grows_trans; [eapply check_due_date_grows; [idtac..|exact H2]; family|];
      eapply grows_trans; [eapply check_currency_grows; [idtac..|exact H3]; family|];
      eapply grows_trans; [eapply check_tax_id_grows; [idtac..|exact H4]; family|];
      eapply check_tax_id_grows; [idtac..|exact H5]; family
  | H : check_totals _ _ _ ?a = Ok _ |- grows _ _ ?a _ =>
      eapply check_totals_grows; [idtac..|exact H]; family
  | H : check_line_items_sum _ _ ?a = Ok _ |- grows _ _ ?a _ =>
      eapply check_line_items_sum_grows; [idtac..|exact H]; family
  | H : for_each amount_fields _ ?a = Ok _ |- grows _ _ ?a _ =>
      eapply for_each_grows; [|exact H];
      intros ? ? ? _; eapply check_negative_amount_grows; family
  | H : check_negative_amount _ _ ?a = Ok _ |- grows _ _ ?a _ =>
      eapply check_negative_amount_grows; [idtac..|exact H]; family
  | H : for_each (enumerate_from _ _) check_line_item ?a = Ok _ |- grows _ _ ?a _ =>
      eapply for_each_grows; [|exact H];
      intros ? ? ? _; eapply check_line_item_grows; family
  | H : _check_business_rules _ ?a = Ok _ |- grows _ _ ?a _ =>
      let n := fresh "n" in let t := fresh "t" in let g := fresh "g" in
      let items := fresh "items" in
      let b1 := fresh "b" in let b2 := fresh "b" in let b3 := fresh "b" in
      let Hn := fresh "H" in let Ht := fresh "H" in let Hg := fresh "H" in
      let H1 := fresh "H" in let H2 := fresh "H" in let H3 := fresh "H" in
      let Hi := fresh "H" in let H4 := fresh "H" in
      destruct (_check_business_rules_stages _ _ _ H)
        as (n & t & g & items & b1 & b2 & b3 & Hn & Ht & Hg & H1 & H2 & H3 & Hi & H4);
      eapply grows_trans; [eapply check_totals_grows; [idtac..|exact H1]; family|];
      eapply grows_trans; [eapply check_line_items_sum_grows; [idtac..|exact H2]; family|];
      eapply grows_trans;
        [eapply for_each_grows; [|exact H3];
         intros ? ? ? _; eapply check_negative_amount_grows; family|];
      eapply for_each_grows; [|exact H4];
      intros ? ? ? _; eapply check_line_item_grows; family
  | H : _check_anomalies _ ?a = Ok _ |- grows _ _ ?a _ =>
      eapply _check_anomalies_grows; [idtac..|exact H]; family
  | H : _check_duplicates _ _ ?a = Ok _ |- grows _ _ ?a _ =>
      eapply _check_duplicates_grows; [idtac..|exact H]; family
  end.

(** A run of steps, followed from its end. *)
Ltac grow :=
  match goal with
  | |- grows _ _ ?a ?a => apply grows_refl
  | H : ?f ?s = Ok ?b |- grows _ _ _ ?b =>
      apply grows_trans with s; [grow|solve [step_grows]]
  end.

(** A step that appends the error [o], if any, between steps that emit
    nothing beginning with [p]. *)
Lemma target_error p W r0 a r o x :
  errors r0 = [] ->
  grows (without p) W r0 a -> grows (without p) W (with_finding o a) r ->
  (In (p +:+ x) (errors r) <-> o = Some (p +:+ x)).
Proof.
  intros H0 G1 G2. rewrite (grows_errors _ _ _ _ _ G2).
  pose proof (grows_errors _ _ _ _ x G1) as G. rewrite H0 in G.
  destruct o as [m|]; simpl.
  - rewrite in_app_iff, G. simpl. split.
    + intros [[]|[->|[]]]. reflexivity.
    + intros [= ->]. auto.
  - rewrite G. split; [intros []|discriminate].
Qed.

Lemma target_warning p E r0 a r o x :
  warnings r0 = [] ->
  grows E (without p) r0 a -> grows E (without p) (with_warning o a) r ->
  (In (p +:+ x) (warnings r) <-> o = Some (p +:+ x)).
Proof.
  intros H0 G1 G2. rewrite (grows_warnings _ _ _ _ _ G2).
  pose proof (grows_warnings _ _ _ _ x G1) as G. rewrite H0 in G.
  destruct o as [m|]; simpl.
  - rewrite in_app_iff, G. simpl. split.
    + intros [[]|[->|[]]]. reflexivity.
    + intros [= ->]. auto.
  - rewrite G. split; [intros []|discriminate].
Qed.

(** The same for a message that is all of [p]. *)
Lemma target_error_whole p W r0 a r o :
  errors r0 = [] ->
  grows (without p) W r0 a -> grows (without p) W (with_finding o a) r ->
  (In p (errors r) <-> o = Some p).
Proof.
  intros H0 G1 G2. rewrite <- (app_empty_r p) at 1 2.
  apply (target_error p W r0 a r o EmptyString H0 G1 G2).
Qed.

Lemma target_warning_whole p E r0 a r o :
  warnings r0 = [] ->
  grows E (without p) r0 a -> grows E (without p) (with_warning o a) r ->
  (In p (warnings r) <-> o = Some p).
Proof.
  intros H0 G1 G2. rewrite <- (app_empty_r p) at 1 2.
  apply (target_warning p E r0 a r o EmptyString H0 G1 G2).
Qed.

(** *** The invoice date *)

(** A message is written with [str]: the step returns when [str] does. *)
Lemma call_str_Ok {rt : runtime} v s : call_str v = Ok s -> s = py_str v /\ str_ok v = true.
Proof. unfold call_str. destruct (str_ok v); [intros [= <-]; auto|discriminate]. Qed.

Lemma check_invoice_date_effect rt e inv r r' :
  check_invoice_date rt e inv r = Ok r' ->
  r' = with_finding (invoice_date_finding rt e inv) r.
Proof.
  unfold check_invoice_date, invoice_date_finding, call_str.
  destruct (truthy (get "invoice_date" inv)); [|intros [= <-]; reflexivity].
  destruct (get "invoice_date" inv) as [| b | z | f | s | d | d | l | m];
    cbn [parse_date gt_date mbind outcome_bind except_value_type date_of];
    try (destruct (str_ok _); cbn [mbind outcome_bind]; [intros [= <-]; reflexivity|discriminate]).
  - destruct (fromisoformat rt s);
      cbn [gt_date mbind outcome_bind except_value_type str_ok].
    + destruct (date_lt (today e) d); intros [= <-]; reflexivity.
    + intros [= <-]; reflexivity.
  - destruct (date_lt (today e) d); intros [= <-]; reflexivity.
Qed.

Ltac validate_stages Hv :=
  let r1 := fresh "r1" in let r2 := fresh "r2" in let r3 := fresh "r3" in
  let r4 := fresh "r4" in let r5 := fresh "r5" in
  let H1 := fresh "H1" in let H2 := fresh "H2" in let H3 := fresh "H3" in
  let H4 := fresh "H4" in let H5 := fresh "H5" in
  destruct (validate_steps _ _ _ _ Hv) as (r1 & r2 & r3 & r4 & r5 & H1 & H2 & H3 & H4 & H5 & ->);
  change (errors (set_validity r5)) with (errors r5);
  change (warnings (set_validity r5)) with (warnings r5).

Ltac formats_stages H2 :=
  let a1 := fresh "a1" in let a2 := fresh "a2" in let a3 := fresh "a3" in
  let a4 := fresh "a4" in
  let Ha1 := fresh "Ha1" in let Ha2 := fresh "Ha2" in let Ha3 := fresh "Ha3" in
  let Ha4 := fresh "Ha4" in let Ha5 := fresh "Ha5" in
  destruct (_check_formats_steps _ _ _ _ _ H2)
    as (a1 & a2 & a3 & a4 & Ha1 & Ha2 & Ha3 & Ha4 & Ha5).

(** X1: In every result that [validate] returns, the error "Invoice date
    cannot be in the future" is present exactly when the invoice date is
    truthy, is a date (or a string that [fromisoformat] reads) and lies
    after today; and an error "Invalid invoice_date format: m" is present
    exactly when the invoice date is truthy, is no date and no readable
    string, and [m] is its [str]. *)
Theorem invoice_date_rule rt e inv r :
  validate rt e inv = Ok r ->
  (In "Invoice date cannot be in the future" (errors r) <->
   truthy (get "invoice_date" inv) = true /\
   exists d, date_of rt (get "invoice_date" inv) = Some d /\ date_lt (today e) d = true) /\
  (forall m,
     In ("Invalid invoice_date format: " +:+ m) (errors r) <->
     truthy (get "invoice_date" inv) = true /\
     date_of rt (get "invoice_date" inv) = None /\
     m = py_str (get "invoice_date" inv)).
Proof.
  intros Hv. validate_stages Hv. formats_stages H2.
  apply check_invoice_date_effect in Ha1. subst a1.
  split; [|intros m].
  - rewrite (target_error_whole _ any_message (mk_result (the_invoice_id inv) true [] [])
               r1 r5 (invoice_date_finding rt e inv)); [|reflexivity|grow..].
    unfold invoice_date_finding.
    destruct (truthy (get "invoice_date" inv)); [|split; [discriminate|intros [? _]; discriminate]].
    destruct (date_of rt (get "invoice_date" inv)) as [d|].
    + destruct (date_lt (today e) d) eqn:Hlt.
      * split; [eauto|reflexivity].
      * split; [discriminate|]. intros (_ & d' & [= <-] & Hd). congruence.
    + split; [discriminate|]. intros (_ & d' & Hd & _). discriminate.
  - rewrite (target_error _ any_message (mk_result (the_invoice_id inv) true [] [])
               r1 r5 (invoice_date_finding rt e inv)); [|reflexivity|grow..].
    unfold invoice_date_finding.
    destruct (truthy (get "invoice_date" inv)); [|split; [discriminate|intros [? _]; discriminate]].
    destruct (date_of rt (get "invoice_date" inv)) as [d|].
    + destruct (date_lt (today e) d) eqn:Hlt.
      * split; [discriminate|]. intros (_ & Hd & _). discriminate.
      * split; [discriminate|]. intros (_ & Hd & _). discriminate.
    + split.
      * intros [= H]. apply prefix_inj in H. auto.
      * intros (_ & _ & ->). reflexivity.
Qed.

Lemma invoice_date_rule_witness :
  In "Invoice date cannot be in the future"
     (errors (mk_result "INV-001" false ["Invoice date cannot be in the future"]
                ["Seller tax ID is missing"; "Buyer tax ID is missing";
                 "No line items found in invoice"])) <->
  truthy (get "invoice_date" sample_invoice) = true /\
  exists d, date_of rt_iso (get "invoice_date" sample_invoice) = Some d /\
            date_lt (today (env_on (mk_date 2024 1 1))) d = true.
Proof.
  apply (invoice_date_rule rt_iso (env_on (mk_date 2024 1 1)) sample_invoice).
  vm_compute. reflexivity.
Defined.

(** *** The due date *)

Lemma check_due_date_skipped rt inv r :
  truthy (get "due_date" inv) && truthy (get "invoice_date" inv) = false ->
  check_due_date rt inv r = Ok (with_finding None r).
Proof. intros H. unfold check_due_date. rewrite H. reflexivity. Qed.

Lemma check_due_date_dates rt inv r due :
  truthy (get "due_date" inv) = true -> truthy (get "invoice_date" inv) = true ->
  date_of rt (get "due_date" inv) = Some due ->
  check_due_date rt inv r
  = Ok (with_finding
          match date_of rt (get "invoice_date" inv) with
          | Some d => if date_lt due d then Some before_invoice else None
          | None => Some ("Invalid due_date format: " +:+ py_str (get "due_date" inv))
          end r).
Proof.
  intros Ht1 Ht2 Hd. unfold check_due_date. rewrite Ht1, Ht2. simpl andb. cbv iota.
  assert (Hp : parse_date rt (get "due_date" inv) = Ok (VDate due)).
  { destruct (get "due_date" inv); simpl in Hd; try discriminate.
    - simpl. rewrite Hd. reflexivity.
    - injection Hd as ->. reflexivity. }
  assert (Hs : call_str (get "due_date" inv) = Ok (py_str (get "due_date" inv))).
  { unfold call_str. rewrite (date_of_str_ok _ _ _ Hd). reflexivity. }
  rewrite Hp, Hs. cbn [mbind outcome_bind].
  destruct (get "invoice_date" inv) as [| b | z | f | s | d | d | l | m]; try reflexivity.
  - simpl. destruct (fromisoformat rt s); simpl; [|reflexivity].
    destruct (date_lt due d); reflexivity.
  - simpl. destruct (date_lt due d); reflexivity.
Qed.

Lemma check_due_date_unparseable rt inv r s :
  truthy (get "invoice_date" inv) = true ->
  get "due_date" inv = VStr s -> s <> EmptyString -> fromisoformat rt s = None ->
  check_due_date rt inv r = Ok (with_finding (Some ("Invalid due_date format: " +:+ s)) r).
Proof.
  intros Ht Hs Hne Hf. unfold check_due_date. rewrite Hs, Ht.
  destruct s; [contradiction|]. simpl. rewrite Hf. reflexivity.
Qed.

(** X2: In every result that [validate] returns: when the due date or the
    invoice date is falsy, there is no due-date error; when both are
    truthy and the due date reads as a date, "Due date cannot be before
    invoice date" is present exactly when the invoice date reads as a
    date after it, and "Invalid due_date format: m" exactly when the
    invoice date does not read and [m] is the due date's [str] (the one
    handler covers both conversions); when the due date is a string that
    does not read, only "Invalid due_date format: " followed by that
    string is present. *)
Theorem due_date_rule rt e inv r :
  validate rt e inv = Ok r ->
  (truthy (get "due_date" inv) && truthy (get "invoice_date" inv) = false ->
   ~ In before_invoice (errors r) /\
   forall m, ~ In ("Invalid due_date format: " +:+ m) (errors r)) /\
  (truthy (get "due_date" inv) = true -> truthy (get "invoice_date" inv) = true ->
   forall due, date_of rt (get "due_date" inv) = Some due ->
   (In before_invoice (errors r) <->
    exists d, date_of rt (get "invoice_date" inv) = Some d /\ date_lt due d = true) /\
   (forall m, In ("Invalid due_date format: " +:+ m) (errors r) <->
              date_of rt (get "invoice_date" inv) = None /\ m = py_str (get "due_date" inv))) /\
  (truthy (get "invoice_date" inv) = true ->
   forall s, get "due_date" inv = VStr s -> s <> EmptyString -> fromisoformat rt s = None ->
   ~ In before_invoice (errors r) /\
   forall m, In ("Invalid due_date format: " +:+ m) (errors r) <-> m = s).
Proof.
  intros Hv. validate_stages Hv. formats_stages H2.
  assert (Hw : forall o, check_due_date rt inv a1 = Ok (with_finding o a1) ->
            (In before_invoice (errors r5) <-> o = Some before_invoice) /\
            (forall m, In ("Invalid due_date format: " +:+ m) (errors r5)
                       <-> o = Some ("Invalid due_date format: " +:+ m))).
  { intros o Ho. rewrite Ho in Ha2. injection Ha2 as <-. split; [|intros m].
    - apply (target_error_whole _ any_message (mk_result (the_invoice_id inv) true [] []) a1);
        [reflexivity|grow..].
    - apply (target_error _ any_message (mk_result (the_invoice_id inv) true [] []) a1);
        [reflexivity|grow..]. }
  split; [|split].
  - intros Hs. destruct (Hw _ (check_due_date_skipped rt inv a1 Hs)) as [Hb Hi].
    split; [rewrite Hb; discriminate|]. intros m. rewrite Hi. discriminate.
  - intros Ht1 Ht2 due Hd.
    destruct (Hw _ (check_due_date_dates rt inv a1 due Ht1 Ht2 Hd)) as [Hb Hi].
    split; [rewrite Hb|intros m; rewrite Hi];
      destruct (date_of rt (get "invoice_date" inv)) as [d|].
    + destruct (date_lt due d) eqn:Hlt.
      * split; [eauto|reflexivity].
      * split; [discriminate|]. intros (d' & [= <-] & Hd'). congruence.
    + split; [discriminate|]. intros (d' & Hd' & _). discriminate.
    + destruct (date_lt due d); (split; [discriminate|intros [? _]; discriminate]).
    + split.
      * intros [= H]. apply prefix_inj in H. auto.
      * intros [_ ->]. reflexivity.
  - intros Ht s Hs Hne Hf.
    destruct (Hw _ (check_due_date_unparseable rt inv a1 s Ht Hs Hne Hf)) as [Hb Hi].
    split; [rewrite Hb; discriminate|]. intros m. rewrite Hi. split.
    + intros [= H]. apply prefix_inj in H. auto.
    + intros ->. reflexivity.
Qed.

(** *** The currency *)

Lemma to_upper_lower c : to_upper (to_lower c) = to_upper c.
Proof. destruct c as [[] [] [] [] [] [] [] []]; reflexivity. Qed.

Lemma to_lower_upper c : to_lower (to_upper c) = to_lower c.
Proof. destruct c as [[] [] [] [] [] [] [] []]; reflexivity. Qed.

Lemma upper_lower s : upper (lower s) = upper s.
Proof.
  unfold upper, lower. induction s as [|c s IH]; simpl; [reflexivity|].
  rewrite to_upper_lower, IH. reflexivity.
Qed.

Lemma lower_upper s : lower (upper s) = lower s.
Proof.
  unfold upper, lower. induction s as [|c s IH]; simpl; [reflexivity|].
  rewrite to_lower_upper, IH. reflexivity.
Qed.

Lemma in_list_In s l : in_list s l = true <-> In s l.
Proof.
  unfold in_list. rewrite existsb_exists. split.
  - intros (x & Hx & He). apply String.eqb_eq in He. subst. exact Hx.
  - intros H. exists s. split; [exact H|apply String.eqb_refl].
Qed.

Lemma to_upper_ascii c : is_ascii (to_upper c) = is_ascii c.
Proof. destruct c as [[] [] [] [] [] [] [] []]; reflexivity. Qed.

Lemma to_lower_ascii c : is_ascii (to_lower c) = is_ascii c.
Proof. destruct c as [[] [] [] [] [] [] [] []]; reflexivity. Qed.

Lemma upper_ascii s : ascii_text (upper s) = ascii_text s.
Proof.
  unfold ascii_text, upper. induction s as [|c s IH]; simpl; [reflexivity|].
  rewrite to_upper_ascii, IH. reflexivity.
Qed.

Lemma lower_ascii s : ascii_text (lower s) = ascii_text s.
Proof.
  unfold ascii_text, lower. induction s as [|c s IH]; simpl; [reflexivity|].
  rewrite to_lower_ascii, IH. reflexivity.
Qed.

Lemma allowed_ascii c : In c allowed_currencies -> ascii_text c = true.
Proof.
  unfold allowed_currencies. simpl.
  intros H. repeat (destruct H as [<-|H]; [reflexivity|]). contradiction.
Qed.

(** For a text of ASCII, [upper()] gives an allowed code exactly when
    the text is one in some letter case. *)
Lemma currency_accepted_upper s :
  in_list (upper s) allowed_currencies = true <-> currency_accepted s.
Proof.
  rewrite in_list_In. unfold currency_accepted. split.
  - intros H. split.
    + rewrite <- upper_ascii. apply allowed_ascii, H.
    + exists (upper s). split; [exact H|]. rewrite lower_upper. reflexivity.
  - intros (_ & c & Hc & Hl). apply (f_equal upper) in Hl. rewrite !upper_lower in Hl.
    rewrite Hl. unfold allowed_currencies in *. simpl in Hc.
    repeat (destruct Hc as [<-|Hc]; [simpl; tauto|]). contradiction.
Qed.

Lemma str_upper_accepted {rt : runtime} s :
  ascii_text s = true -> (In (str_upper s) allowed_currencies <-> currency_accepted s).
Proof.
  intros Ha. unfold str_upper. rewrite Ha, <- in_list_In. apply currency_accepted_upper.
Qed.

Lemma check_currency_effect {rt : runtime} inv r r' :
  check_currency inv r = Ok r' ->
  r' = with_finding (currency_finding inv) r /\
  (truthy (get "currency" inv) = true -> exists s, get "currency" inv = VStr s).
Proof.
  unfold check_currency, currency_finding.
  destruct (get "currency" inv) as [| b | z | f | s | d | d | l | m] eqn:Ev;
    try (destruct (truthy _) eqn:Et;
         [discriminate|intros [= <-]; split; [reflexivity|discriminate]]).
  destruct s as [|c s]; [intros [= <-]; split; [reflexivity|eauto]|].
  cbn [truthy is_empty negb call_upper mbind outcome_bind andb].
  destruct (in_list _ _); cbn [negb]; intros [= <-]; split; eauto.
Qed.

Lemma currency_finding_iff {rt : runtime} inv m :
  currency_finding inv = Some ("Invalid currency: " +:+ m) <->
  exists s, get "currency" inv = VStr s /\ s <> EmptyString /\
            ~ In (str_upper s) allowed_currencies /\
            m = s +:+ ". Must be one of ['EUR', 'USD', 'INR', 'GBP']".
Proof.
  unfold currency_finding.
  destruct (get "currency" inv) as [| b | z | f | s | d | d | l | x];
    try (split; [discriminate|intros (s' & Hs' & _); discriminate]).
  destruct s as [|c s]; cbn [is_empty negb andb].
  - split; [discriminate|]. intros (s' & [= <-] & Hne & _). contradiction.
  - destruct (in_list (str_upper (String c s)) allowed_currencies) eqn:Hin;
      cbn [is_empty negb andb].
    + split; [discriminate|]. intros (s' & [= <-] & _ & Hno & _).
      exfalso. apply Hno, in_list_In, Hin.
    + split.
      * intros [= H]. apply prefix_inj in H. exists (String c s).
        split; [reflexivity|]. split; [discriminate|]. split; [|congruence].
        intros Hacc. apply in_list_In in Hacc. congruence.
      * intros (s' & [= <-] & _ & _ & ->). reflexivity.
Qed.

(** X3: In every result that [validate] returns, an error "Invalid
    currency: m" is present exactly when the currency is a non-empty
    string [s] whose [upper()] is none of EUR, USD, INR, GBP, and [m] is
    [s] followed by the list of the allowed codes.  For a text of ASCII
    that is: [s] is none of the four codes in any letter case; for any
    other text [upper()] is the interpreter's (so that a dotless i
    passes for an I).  A truthy currency of a returning validation is a
    string. *)
Theorem currency_rule rt e inv r :
  validate rt e inv = Ok r ->
  (forall m,
     In ("Invalid currency: " +:+ m) (errors r) <->
     exists s, get "currency" inv = VStr s /\ s <> EmptyString /\
               ~ In (str_upper s) allowed_currencies /\
               m = s +:+ ". Must be one of ['EUR', 'USD', 'INR', 'GBP']") /\
  (truthy (get "currency" inv) = true -> exists s, get "currency" inv = VStr s) /\
  (forall s, ascii_text s = true ->
     (In (str_upper s) allowed_currencies <-> currency_accepted s)) /\
  (forall s, ascii_text s = false -> str_upper s = unicode_upper rt s) /\
  (forall s, currency_accepted s <-> currency_accepted (upper s)) /\
  (forall s, currency_accepted s <-> currency_accepted (lower s)).
Proof.
  intros Hv. validate_stages Hv. formats_stages H2.
  destruct (check_currency_effect _ _ _ Ha3) as [-> Hstr].
  split; [|split; [exact Hstr|split; [|split; [|split]]]].
  - intros m. rewrite <- currency_finding_iff.
    apply (target_error _ any_message (mk_result (the_invoice_id inv) true [] [])
             a2 r5 (currency_finding inv)); [reflexivity|grow..].
  - intros s. apply str_upper_accepted.
  - intros s Hs. unfold str_upper. rewrite Hs. reflexivity.
  - intros s. unfold currency_accepted. rewrite lower_upper, upper_ascii. reflexivity.
  - intros s. unfold currency_accepted.
    assert (Hl : lower (lower s) = lower s).
    { rewrite <- (lower_upper (lower s)), upper_lower, lower_upper. reflexivity. }
    rewrite Hl, lower_ascii. reflexivity.
Qed.

(** *** The tax identifiers *)

Lemma tax_id_alnum_plain s : isalnum (bare_id s) = plain_id s.
Proof.
  unfold isalnum, plain_id, bare_id.
  assert (H : forall t,
    str_all is_alnum (replace " " EmptyString (replace "-" EmptyString t)) = str_all id_char t /\
    is_empty (replace " " EmptyString (replace "-" EmptyString t))
    = str_all (fun c => Ascii.eqb c "-" || Ascii.eqb c " ") t).
  { clear. induction t as [|c s [IH1 IH2]]; [split; reflexivity|].
    cbn [replace]. destruct (Ascii.eqb_spec c "-") as [->|Hh].
    - change (EmptyString +:+ ?x) with x. rewrite IH1, IH2. split; reflexivity.
    - cbn [replace]. destruct (Ascii.eqb_spec c " ") as [->|Hs].
      + change (EmptyString +:+ ?x) with x. rewrite IH1, IH2. split; reflexivity.
      + cbn [str_all is_empty]. rewrite IH1. unfold id_char.
        destruct (Ascii.eqb_spec c "-"); [contradiction|].
        destruct (Ascii.eqb_spec c " "); [contradiction|].
        rewrite !orb_false_r. split; reflexivity. }
  destruct (H s) as [-> ->].
  assert (G : forall t, str_all id_char t = true ->
    str_all (fun c => Ascii.eqb c "-" || Ascii.eqb c " ") t
    = str_all (fun c => negb (is_alnum c)) t).
  { clear. induction t as [|c s IH]; [reflexivity|]. cbn [str_all].
    intros Hc. apply andb_true_iff in Hc as [Hc Hs]. rewrite (IH Hs). f_equal.
    unfold id_char in Hc.
    destruct c as [[] [] [] [] [] [] [] []]; try reflexivity; discriminate Hc. }
  destruct (str_all id_char s) eqn:E.
  - rewrite (G s E). rewrite andb_comm. reflexivity.
  - rewrite andb_false_r. reflexivity.
Qed.

Lemma replace_ascii c s :
  is_ascii c = true -> ascii_text (replace c EmptyString s) = ascii_text s.
Proof.
  intros Hc. unfold ascii_text. induction s as [|a s IH]; cbn [replace str_all]; [reflexivity|].
  destruct (Ascii.eqb_spec a c) as [->|Hne].
  - change (EmptyString +:+ ?x) with x. rewrite IH, Hc. reflexivity.
  - cbn [str_all]. rewrite IH. reflexivity.
Qed.

Lemma bare_id_ascii s : ascii_text (bare_id s) = ascii_text s.
Proof. unfold bare_id. rewrite !replace_ascii; reflexivity. Qed.

(** For a text of ASCII, the check asks for letters, digits, hyphens and
    spaces, with at least one letter or digit. *)
Lemma str_isalnum_plain {rt : runtime} s :
  ascii_text s = true -> str_isalnum (bare_id s) = plain_id s.
Proof.
  intros Ha. unfold str_isalnum. rewrite bare_id_ascii, Ha. apply tax_id_alnum_plain.
Qed.

Lemma check_tax_id_effect {rt : runtime} field label inv r r' :
  check_tax_id field label inv r = Ok r' ->
  r' = with_warning (tax_id_finding field label inv) r /\
  (truthy (get field inv) = true -> exists s, get field inv = VStr s).
Proof.
  unfold check_tax_id, tax_id_finding.
  destruct (get field inv) as [| b | z | f | s | d | d | l | m] eqn:Ev;
    try (destruct (truthy _) eqn:Et;
         [discriminate|intros [= <-]; split; [reflexivity|discriminate]]).
  destruct s as [|c s]; [intros [= <-]; split; [reflexivity|eauto]|].
  cbn [truthy is_empty negb tax_id_alnum mbind outcome_bind andb].
  fold (bare_id (String c s)).
  destruct (str_isalnum (bare_id (String c s))); cbn [negb]; intros [= <-]; split; eauto.
Qed.

Lemma tax_id_finding_iff {rt : runtime} field label inv m :
  tax_id_finding field label inv = Some (label +:+ " tax ID format may be invalid: " +:+ m) <->
  exists s, get field inv = VStr s /\ s <> EmptyString /\
            str_isalnum (bare_id s) = false /\ m = s.
Proof.
  unfold tax_id_finding.
  destruct (get field inv) as [| b | z | f | s | d | d | l | x];
    try (split; [discriminate|intros (s' & Hs' & _); discriminate]).
  destruct s as [|c s]; cbn [is_empty negb andb].
  - split; [discriminate|]. intros (s' & [= <-] & Hne & _). contradiction.
  - destruct (str_isalnum (bare_id (String c s))) eqn:Hp; cbn [is_empty negb andb].
    + split; [discriminate|]. intros (s' & [= <-] & _ & Hno & _). congruence.
    + split.
      * intros [= H]. apply prefix_inj, prefix_inj in H. exists (String c s).
        split; [reflexivity|]. split; [discriminate|]. split; congruence.
      * intros (s' & [= <-] & _ & _ & ->). reflexivity.
Qed.

(** X4: In every result that [validate] returns, the warning "Seller tax ID
    format may be invalid: m" (and likewise "Buyer ...") is present
    exactly when the tax ID is a non-empty string [m] that, once hyphens
    and spaces are removed, fails [isalnum()].  For a text of ASCII that
    is: the rest is empty or holds a character that is no letter or
    digit; for any other text [isalnum()] is the interpreter's (an
    accented letter is a letter).  A truthy tax ID of a returning
    validation is a string. *)
Theorem tax_id_rule rt e inv r :
  validate rt e inv = Ok r ->
  (forall m,
     In ("Seller tax ID format may be invalid: " +:+ m) (warnings r) <->
     exists s, get "seller_tax_id" inv = VStr s /\ s <> EmptyString /\
               str_isalnum (bare_id s) = false /\ m = s) /\
  (forall m,
     In ("Buyer tax ID format may be invalid: " +:+ m) (warnings r) <->
     exists s, get "buyer_tax_id" inv = VStr s /\ s <> EmptyString /\
               str_isalnum (bare_id s) = false /\ m = s) /\
  (forall s, ascii_text s = true -> str_isalnum (bare_id s) = plain_id s) /\
  (forall s, ascii_text s = false -> str_isalnum (bare_id s) = unicode_isalnum rt (bare_id s)) /\
  (truthy (get "seller_tax_id" inv) = true -> exists s, get "seller_tax_id" inv = VStr s) /\
  (truthy (get "buyer_tax_id" inv) = true -> exists s, get "buyer_tax_id" inv = VStr s).
Proof.
  intros Hv. validate_stages Hv. formats_stages H2.
  destruct (check_tax_id_effect _ _ _ _ _ Ha4) as [-> Hs1].
  destruct (check_tax_id_effect _ _ _ _ _ Ha5) as [-> Hs2].
  split; [|split; [|split; [|split; [|split; [exact Hs1|exact Hs2]]]]]; try intros m.
  - rewrite <- (tax_id_finding_iff "seller_tax_id" "Seller" inv m).
    apply (target_warning "Seller tax ID format may be invalid: " any_message
             (mk_result (the_invoice_id inv) true [] []) a3); [reflexivity|grow..].
  - rewrite <- (tax_id_finding_iff "buyer_tax_id" "Buyer" inv m).
    apply (target_warning "Buyer tax ID format may be invalid: " any_message
             (mk_result (the_invoice_id inv) true [] [])
             (with_warning (tax_id_finding "seller_tax_id" "Seller" inv) a3));
      [reflexivity|grow..].
  - apply str_isalnum_plain.
  - intros Hs. unfold str_isalnum. rewrite bare_id_ascii, Hs. reflexivity.
Qed.

(** *** Negative amounts (rule 3) *)

Lemma check_negative_amount_effect {rt : runtime} inv f r r' :
  check_negative_amount inv f r = Ok r' ->
  r' = with_finding (negative_amount_finding inv f) r.
Proof.
  unfold check_negative_amount, negative_amount_finding. intros H.
  bind_inv H as value Hv. rewrite Hv.
  destruct value as [d|]; [|injection H as <-; reflexivity].
  bind_inv H as negative Hneg.
  destruct d as [s c x | s | s g p].
  - rewrite lt_zero_finite in Hneg. injection Hneg as <-. simpl negative_number.
    destruct (s && negb (c =? 0)%N); injection H as <-; reflexivity.
  - destruct s; injection Hneg as <-; injection H as <-; reflexivity.
  - discriminate.
Qed.

Lemma negative_number_value s c x :
  negative_number (VDecimal (DFin s c x)) = true <-> (dvalue (DFin s c x) < 0)%Q.
Proof.
  pose proof (lt_zero_finite s c x) as H. unfold dec_zero in H.
  apply lt_value in H. simpl negative_number. rewrite H. simpl dvalue.
  assert (Hz : (value false 0 0 == 0)%Q) by reflexivity. rewrite Hz. reflexivity.
Qed.

Lemma negative_amounts_steps {rt : runtime} inv r r' :
  for_each amount_fields (check_negative_amount inv) r = Ok r' ->
  exists c1 c2,
    check_negative_amount inv "net_total" r = Ok c1 /\
    check_negative_amount inv "tax_amount" c1 = Ok c2 /\
    check_negative_amount inv "gross_total" c2 = Ok r'.
Proof.
  unfold amount_fields. simpl. intros H. bind_inv H as c1 H1. bind_inv H as c2 H2.
  bind_inv H as c3 H3. injection H as <-. eauto.
Qed.

Lemma negative_amount_finding_iff {rt : runtime} inv f m :
  negative_amount_finding inv f = Some ("Negative amount not allowed: " +:+ f +:+ " = " +:+ m) <->
  exists d, _to_decimal (get f inv) = Ok (Some d) /\ negative_number (VDecimal d) = true /\
            m = Decimal.to_str d.
Proof.
  unfold negative_amount_finding.
  destruct (_to_decimal (get f inv)) as [[d|]|x];
    try (split; [discriminate|intros (d' & Hd & _); discriminate]).
  destruct (negative_number (VDecimal d)) eqn:Hn.
  - split.
    + intros [= H]. apply prefix_inj, prefix_inj, prefix_inj in H. eauto.
    + intros (d' & [= <-] & _ & ->). reflexivity.
  - split; [discriminate|]. intros (d' & [= <-] & Hd & _). congruence.
Qed.

(** X5: In every result that [validate] returns, for each of net_total,
    tax_amount and gross_total the error "Negative amount not allowed:
    field = m" is present exactly when the field converts to a decimal
    that is below zero, and [m] is that decimal's [str]; for a finite
    decimal, below zero means that its value is negative (a negative zero
    is not). *)
Theorem negative_amount_rule rt e inv r :
  validate rt e inv = Ok r ->
  (forall f m,
     In f amount_fields ->
     (In ("Negative amount not allowed: " +:+ f +:+ " = " +:+ m) (errors r) <->
      exists d, _to_decimal (get f inv) = Ok (Some d) /\
                negative_number (VDecimal d) = true /\ m = Decimal.to_str d)) /\
  (forall s c x,
     negative_number (VDecimal (DFin s c x)) = true <-> (dvalue (DFin s c x) < 0)%Q).
Proof.
  intros Hv. split; [|apply negative_number_value]. intros f m Hf.
  rewrite <- negative_amount_finding_iff.
  validate_stages Hv.
  destruct (_check_business_rules_stages _ _ _ H3)
    as (n & t & g & items & b1 & b2 & b3 & Hn & Ht & Hg & Hb1 & Hb2 & Hb3 & Hi & Hb4).
  destruct (negative_amounts_steps _ _ _ Hb3) as (c1 & c2 & Hc1 & Hc2 & Hc3).
  clear H3 Hb3.
  unfold amount_fields in Hf. simpl in Hf. destruct Hf as [<-|[<-|[<-|[]]]].
  - pose proof (check_negative_amount_effect _ _ _ _ Hc1) as ->.
    apply (target_error "Negative amount not allowed: net_total = " any_message
             (mk_result (the_invoice_id inv) true [] []) b2); [reflexivity|grow..].
  - pose proof (check_negative_amount_effect _ _ _ _ Hc2) as ->.
    apply (target_error "Negative amount not allowed: tax_amount = " any_message
             (mk_result (the_invoice_id inv) true [] []) c1); [reflexivity|grow..].
  - pose proof (check_negative_amount_effect _ _ _ _ Hc3) as ->.
    apply (target_error "Negative amount not allowed: gross_total = " any_message
             (mk_result (the_invoice_id inv) true [] []) c2); [reflexivity|grow..].
Qed.

(** *** Anomalies *)

Lemma warn_if_missing_finding field msg inv r :
  warn_if_missing field msg inv r = with_warning (missing_finding field msg inv) r.
Proof. unfold warn_if_missing, missing_finding. destruct (truthy _); reflexivity. Qed.

Lemma _check_anomalies_effect {rt : runtime} inv r r' :
  _check_anomalies inv r = Ok r' ->
  exists g,
    _to_decimal (get "gross_total" inv) = Ok g /\
    r' = with_warning (missing_finding "line_items" "No line items found in invoice" inv)
           (with_warning (missing_finding "buyer_tax_id" "Buyer tax ID is missing" inv)
              (with_warning (missing_finding "seller_tax_id" "Seller tax ID is missing" inv)
                 (with_warning (missing_finding "due_date" "Due date is missing" inv)
                    (with_warning (high_amount_finding g) r)))).
Proof.
  unfold _check_anomalies. intros H. bind_inv H as g Hg. bind_inv H as r1 Hr1.
  injection H as <-. exists g. split; [exact Hg|].
  rewrite !warn_if_missing_finding. do 4 f_equal.
  unfold high_amount_finding. destruct g as [g|]; [|injection Hr1 as <-; reflexivity].
  destruct (Decimal.truthy g); [|injection Hr1 as <-; reflexivity].
  bind_inv Hr1 as high Hh. unfold gt in Hh.
  destruct (is_nan g || is_nan high_amount_threshold); [discriminate|].
  injection Hh as <-. simpl andb.
  destruct (cmp g high_amount_threshold); injection Hr1 as <-; reflexivity.
Qed.

Lemma with_warning_grows (E W : string -> Prop) o r :
  (forall m, o = Some m -> W m) -> grows E W r (with_warning o r).
Proof.
  intros H. destruct o as [m|]; simpl; [apply grows_warning; auto|apply grows_refl].
Qed.

Lemma missing_grows (E W : string -> Prop) field msg inv r :
  W msg -> grows E W r (with_warning (missing_finding field msg inv) r).
Proof.
  intros H. apply with_warning_grows. unfold missing_finding.
  destruct (truthy _); [discriminate|]. intros m [= <-]. exact H.
Qed.

Lemma high_grows (E W : string -> Prop) g r :
  (forall x, W ("Unusually high gross total: " +:+ x)) ->
  grows E W r (with_warning (high_amount_finding g) r).
Proof.
  intros H. apply with_warning_grows. unfold high_amount_finding.
  destruct g as [g|]; [|discriminate]. destruct (_ && _); [|discriminate].
  intros m [= <-]. apply H.
Qed.

Ltac grow_warnings :=
  match goal with
  | |- grows _ _ ?a ?a => apply grows_refl
  | |- grows _ _ _ (with_warning (missing_finding _ _ _) ?s) =>
      apply grows_trans with s; [grow_warnings|apply missing_grows; reflexivity]
  | |- grows _ _ _ (with_warning (high_amount_finding _) ?s) =>
      apply grows_trans with s; [grow_warnings|apply high_grows; intros; reflexivity]
  | H : ?f ?s = Ok ?b |- grows _ _ _ ?b =>
      apply grows_trans with s; [grow_warnings|solve [step_grows]]
  end.

Lemma missing_finding_iff field msg inv :
  missing_finding field msg inv = Some msg <-> truthy (get field inv) = false.
Proof.
  unfold missing_finding. destruct (truthy _); split; congruence.
Qed.

(** X6: In every result that [validate] returns, each of the warnings "Due
    date is missing", "Seller tax ID is missing", "Buyer tax ID is
    missing" and "No line items found in invoice" is present exactly when
    the field is falsy (absent, None, empty, zero). *)
Theorem missing_optional_warnings rt e inv r :
  validate rt e inv = Ok r ->
  (In "Due date is missing" (warnings r) <-> truthy (get "due_date" inv) = false) /\
  (In "Seller tax ID is missing" (warnings r) <-> truthy (get "seller_tax_id" inv) = false) /\
  (In "Buyer tax ID is missing" (warnings r) <-> truthy (get "buyer_tax_id" inv) = false) /\
  (In "No line items found in invoice" (warnings r) <->
   truthy (get "line_items" inv) = false).
Proof.
  intros Hv. validate_stages Hv.
  destruct (_check_anomalies_effect _ _ _ H4) as (g & Hg & ->). clear H4.
  split; [|split; [|split]].
  - rewrite <- (missing_finding_iff "due_date" "Due date is missing").
    apply (target_warning_whole _ any_message (mk_result (the_invoice_id inv) true [] [])
             (with_warning (high_amount_finding g) r3)); [reflexivity|grow_warnings..].
  - rewrite <- (missing_finding_iff "seller_tax_id" "Seller tax ID is missing").
    apply (target_warning_whole _ any_message (mk_result (the_invoice_id inv) true [] [])
             (with_warning (missing_finding "due_date" "Due date is missing" inv)
                (with_warning (high_amount_finding g) r3))); [reflexivity|grow_warnings..].
  - rewrite <- (missing_finding_iff "buyer_tax_id" "Buyer tax ID is missing").
    apply (target_warning_whole _ any_message (mk_result (the_invoice_id inv) true [] [])
             (with_warning (missing_finding "seller_tax_id" "Seller tax ID is missing" inv)
             (with_warning (missing_finding "due_date" "Due date is missing" inv)
                (with_warning (high_amount_finding g) r3)))); [reflexivity|grow_warnings..].
  - rewrite <- (missing_finding_iff "line_items" "No line items found in invoice").
    apply (target_warning_whole _ any_message (mk_result (the_invoice_id inv) true [] [])
             (with_warning (missing_finding "buyer_tax_id" "Buyer tax ID is missing" inv)
             (with_warning (missing_finding "seller_tax_id" "Seller tax ID is missing" inv)
             (with_warning (missing_finding "due_date" "Due date is missing" inv)
                (with_warning (high_amount_finding g) r3))))); [reflexivity|grow_warnings..].
Qed.

Lemma threshold_value : (dvalue high_amount_threshold == 1000000 # 1)%Q.
Proof. reflexivity. Qed.

Lemma threshold_str g :
  Decimal.to_str g +:+ " (threshold: " +:+ Decimal.to_str high_amount_threshold +:+ ")"
  = Decimal.to_str g +:+ " (threshold: 1000000.00)".
Proof.
  assert (H : Decimal.to_str high_amount_threshold = "1000000.00")
    by (vm_compute; reflexivity).
  rewrite H. reflexivity.
Qed.

(** X7: In every result that [validate] returns for a record whose gross
    total converts to a finite decimal [g], a warning "Unusually high
    gross total: m" is present exactly when the value of [g] is strictly
    above 1000000, and then [m] is [str(g)] followed by
    " (threshold: 1000000.00)". *)
Theorem high_amount_warning rt e inv r g :
  validate rt e inv = Ok r ->
  _to_decimal (get "gross_total" inv) = Ok (Some g) -> is_finite g = true ->
  forall m,
    In ("Unusually high gross total: " +:+ m) (warnings r) <->
    (1000000 # 1 < dvalue g)%Q /\ m = Decimal.to_str g +:+ " (threshold: 1000000.00)".
Proof.
  intros Hv Hg Hfin m. validate_stages Hv.
  destruct (_check_anomalies_effect _ _ _ H4) as (g' & Hg' & ->). clear H4.
  rewrite Hg in Hg'. injection Hg' as <-.
  rewrite (target_warning "Unusually high gross total: " any_message
             (mk_result (the_invoice_id inv) true [] []) r3 r5
             (high_amount_finding (Some g))); [|reflexivity|grow_warnings..].
  destruct g as [s c x| |]; try discriminate.
  unfold high_amount_finding. rewrite threshold_str.
  pose proof (gt_value s c x false 100000000 (-2)) as Hgt.
  unfold gt in Hgt. simpl is_nan in Hgt. simpl orb in Hgt. cbv iota in Hgt.
  specialize (Hgt _ eq_refl). fold high_amount_threshold in Hgt.
  change (value false 100000000 (-2)) with (dvalue high_amount_threshold) in Hgt.
  rewrite threshold_value in Hgt. change (value s c x) with (dvalue (DFin s c x)) in Hgt.
  destruct (match cmp (DFin s c x) high_amount_threshold with Gt => true | _ => false end)
    eqn:Hc.
  - assert (Hhigh : (1000000 # 1 < dvalue (DFin s c x))%Q) by (apply Hgt; reflexivity).
    assert (Ht : Decimal.truthy (DFin s c x) = true).
    { simpl. destruct (N.eqb_spec c 0) as [->|]; [|reflexivity].
      exfalso. revert Hhigh. unfold dvalue, value. rewrite Z.mul_0_r.
      intros Hh. change (inject_Z 0 * Qpower ten x)%Q with (0 * Qpower ten x)%Q in Hh.
      rewrite Qmult_0_l in Hh. discriminate Hh. }
    rewrite Ht. simpl andb. cbv iota. split.
    + intros [= H]. apply prefix_inj in H. auto.
    + intros [_ ->]. reflexivity.
  - rewrite andb_false_r. split; [discriminate|]. intros [Hh _].
    apply Hgt in Hh. discriminate.
Qed.

(** *** Duplicates *)

Lemma _check_duplicates_effect {rt : runtime} e inv r r' :
  _check_duplicates e inv r = Ok r' -> r' = with_warning (duplicate_finding e inv) r.
Proof.
  unfold _check_duplicates, duplicate_finding, call_str, except_exception.
  destruct (truthy _ && truthy _ && truthy _); simpl negb; cbv iota;
    [|intros [= <-]; reflexivity].
  destruct (str_ok (get "invoice_date" inv)); cbn [mbind outcome_bind]; [|discriminate].
  destruct (check_duplicate e _ _ _) as [[]|x]; cbn [mbind outcome_bind];
    try (intros [= <-]; reflexivity).
  destruct (str_ok (get "invoice_number" inv)); cbn [mbind outcome_bind andb];
    [|intros [= <-]; reflexivity].
  destruct (str_ok (get "seller_name" inv)); cbn [mbind outcome_bind];
    intros [= <-]; reflexivity.
Qed.

(** Whether the check returns does not depend on the database. *)
Lemma _check_duplicates_any_db {rt : runtime} e1 e2 inv r r1 :
  _check_duplicates e1 inv r = Ok r1 ->
  _check_duplicates e2 inv r = Ok (with_warning (duplicate_finding e2 inv) r).
Proof.
  intros H1.
  assert (R : returns (_check_duplicates e2 inv r)).
  { revert H1. unfold _check_duplicates, call_str, returns.
    destruct (negb _); [eauto|].
    destruct (str_ok (get "invoice_date" inv)) eqn:Hd; cbn [mbind outcome_bind]; [|discriminate].
    intros _. unfold except_exception.
    destruct (check_duplicate e2 _ _ _) as [[|]|x]; cbn [mbind outcome_bind]; eauto.
    destruct (str_ok (get "invoice_number" inv)); cbn [mbind outcome_bind]; eauto.
    destruct (str_ok (get "seller_name" inv)); cbn [mbind outcome_bind]; eauto. }
  destruct R as [r2 H2]. rewrite H2. f_equal. apply _check_duplicates_effect, H2.
Qed.

Lemma make_invoice_id_str_ok {rt : runtime} inv i :
  make_invoice_id inv = Ok i -> str_ok (get "invoice_number" inv) = true.
Proof.
  unfold make_invoice_id, call_str.
  destruct (get "invoice_number" inv) as [| b | z | f | s | d | d | l | m];
    try reflexivity; cbn [is_blank_str];
    match goal with |- context [str_ok ?v] => destruct (str_ok v); [reflexivity|discriminate] end.
Qed.

Lemma validate_duplicate_finding rt e inv r m :
  validate rt e inv = Ok r ->
  (In ("Duplicate invoice detected: " +:+ m) (warnings r) <->
   duplicate_finding e inv = Some ("Duplicate invoice detected: " +:+ m)).
Proof.
  intros Hv. validate_stages Hv.
  apply _check_duplicates_effect in H5. subst r5.
  apply (target_warning "Duplicate invoice detected: " any_message
           (mk_result (the_invoice_id inv) true [] []) r4 _
           (duplicate_finding e inv)); [reflexivity|grow|apply grows_refl].
Qed.

(** X8: In every result that [validate] returns, a warning "Duplicate
    invoice detected: m" is present exactly when the invoice number, the
    seller name and the invoice date are all truthy, the database answers
    true for them (the date as its [str]), the seller name can be written
    (it is no integer of more than 4300 digits, for which the message
    raises and the handler of the check drops the warning), and [m] is
    "number from seller on date". *)
Theorem duplicate_warning rt e inv r :
  validate rt e inv = Ok r ->
  forall m,
    In ("Duplicate invoice detected: " +:+ m) (warnings r) <->
    truthy (get "invoice_number" inv) && truthy (get "seller_name" inv)
      && truthy (get "invoice_date" inv) = true /\
    check_duplicate e (get "invoice_number" inv) (get "seller_name" inv)
      (py_str (get "invoice_date" inv)) = Ok true /\
    str_ok (get "seller_name" inv) = true /\
    m = py_str (get "invoice_number" inv) +:+ " from " +:+ py_str (get "seller_name" inv)
          +:+ " on " +:+ py_str (get "invoice_date" inv).
Proof.
  intros Hv m. rewrite (validate_duplicate_finding rt e inv r m Hv).
  pose proof (make_invoice_id_str_ok inv _ (validate_id_returns _ _ _ _ Hv)) as Hn.
  unfold duplicate_finding. rewrite Hn. cbn [andb].
  destruct (truthy _ && truthy _ && truthy _);
    [|split; [discriminate|intros (? & _); discriminate]].
  destruct (check_duplicate e _ _ _) as [[]|x];
    try (split; [discriminate|intros (_ & ? & _); discriminate]).
  destruct (str_ok (get "seller_name" inv));
    [|split; [discriminate|intros (_ & _ & ? & _); discriminate]].
  split.
  - intros [= H]. apply prefix_inj in H. auto.
  - intros (_ & _ & _ & ->). reflexivity.
Qed.

(** X9: The duplicate check touches nothing but the last warning: when
    [validate] returns under one database, it returns under any other on
    the same day, one that raises included, with the same identifier,
    verdict and errors, and with the same warnings up to the duplicate
    warning at their end. *)
Theorem verdict_ignores_duplicates rt e1 e2 inv r1 :
  today e1 = today e2 ->
  validate rt e1 inv = Ok r1 ->
  exists r2,
    validate rt e2 inv = Ok r2 /\
    invoice_id r2 = invoice_id r1 /\ is_valid r2 = is_valid r1 /\ errors r2 = errors r1 /\
    exists ws, warnings r1 = (ws ++ from_option (fun m => [m]) [] (duplicate_finding e1 inv))%list /\
               warnings r2 = (ws ++ from_option (fun m => [m]) [] (duplicate_finding e2 inv))%list.
Proof.
  intros Hclock Hv.
  pose proof (validate_id_returns _ _ _ _ Hv) as Hid.
  destruct (validate_steps _ _ _ _ Hv) as (r1' & r2' & r3 & r4 & r5 & H1 & H2 & H3 & H4 & H5 & ->).
  pose proof (_check_duplicates_any_db e1 e2 inv r4 r5 H5) as H5'.
  apply _check_duplicates_effect in H5. subst r5.
  exists (set_validity (with_warning (duplicate_finding e2 inv) r4)).
  split.
  - unfold validate. rewrite Hid. cbn [mbind outcome_bind]. rewrite H1. cbn [mbind outcome_bind].
    rewrite <- (_check_formats_clock rt e1 e2 inv r1'), H2
      by (intros d _; rewrite Hclock; reflexivity).
    cbn [mbind outcome_bind].
    rewrite H3. cbn [mbind outcome_bind]. rewrite H4. cbn [mbind outcome_bind].
    rewrite H5'. reflexivity.
  - assert (Hs : forall o, errors (with_warning o r4) = errors r4 /\
                           invoice_id (with_warning o r4) = invoice_id r4 /\
                           warnings (with_warning o r4)
                           = (warnings r4 ++ from_option (fun m => [m]) [] o)%list).
    { intros [m|]; simpl; rewrite ?app_nil_r; auto. }
    destruct (Hs (duplicate_finding e1 inv)) as (He1 & Hi1 & Hw1).
    destruct (Hs (duplicate_finding e2 inv)) as (He2 & Hi2 & Hw2).
    unfold set_validity. simpl. rewrite He1, He2, Hi1, Hi2.
    split; [reflexivity|]. split; [reflexivity|]. split; [reflexivity|].
    exists (warnings r4). auto.
Qed.

(** *** What [validate] reads of its environment *)

Lemma validate_future_finding rt e inv r :
  validate rt e inv = Ok r ->
  (In "Invoice date cannot be in the future" (errors r) <->
   invoice_date_finding rt e inv = Some "Invoice date cannot be in the future").
Proof.
  intros Hv. validate_stages Hv. formats_stages H2.
  apply check_invoice_date_effect in Ha1. subst a1.
  apply (target_error_whole _ any_message (mk_result (the_invoice_id inv) true [] [])
           r1 r5 (invoice_date_finding rt e inv)); [reflexivity|grow..].
Qed.

(** C9 (as amended): [validate] reads two things of its environment, the
    answer of the duplicate oracle for the record's own invoice number,
    seller name and invoice date, and whether the invoice date lies
    after the current date.  Two environments that agree on both give
    identical outcomes (the same identifier, verdict, errors and
    warnings, or the same exception), whatever else their oracles
    answer and whatever their dates; so do, in particular, two runs on
    the same day with identical oracle answers.  The current date is
    read: when the invoice date lies after the one date and not after
    the other, the results differ in the error "Invoice date cannot be in
    the future". *)
Theorem validate_deterministic rt e1 e2 inv :
  let number := get "invoice_number" inv in
  let seller := get "seller_name" inv in
  let day := get "invoice_date" inv in
  (check_duplicate e1 number seller (py_str day) = check_duplicate e2 number seller (py_str day) ->
   (forall d, date_of rt day = Some d -> date_lt (today e1) d = date_lt (today e2) d) ->
   validate rt e1 inv = validate rt e2 inv) /\
  (forall d r1 r2,
     truthy day = true -> date_of rt day = Some d ->
     date_lt (today e1) d = true -> date_lt (today e2) d = false ->
     validate rt e1 inv = Ok r1 -> validate rt e2 inv = Ok r2 ->
     In "Invoice date cannot be in the future" (errors r1) /\
     ~ In "Invoice date cannot be in the future" (errors r2)).
Proof.
  intros number seller day. split.
  - intros Horacle Hclock. unfold validate.
    destruct (make_invoice_id inv) as [i|x]; [|reflexivity]. cbn [mbind outcome_bind].
    destruct (_check_required_fields inv _) as [r1|x]; [|reflexivity].
    cbn [mbind outcome_bind].
    rewrite (_check_formats_clock rt e1 e2 inv r1 Hclock).
    destruct (_check_formats rt e2 inv r1) as [r2|x]; [|reflexivity].
    cbn [mbind outcome_bind].
    destruct (_check_business_rules inv r2) as [r3|x]; [|reflexivity].
    cbn [mbind outcome_bind].
    destruct (_check_anomalies inv r3) as [r4|x]; [|reflexivity].
    cbn [mbind outcome_bind].
    rewrite (_check_duplicates_oracle e1 e2 inv r4 Horacle). reflexivity.
  - intros d r1 r2 Ht Hd H1 H2 Hv1 Hv2.
    rewrite (validate_future_finding rt e1 inv r1 Hv1),
      (validate_future_finding rt e2 inv r2 Hv2).
    unfold invoice_date_finding. fold day. rewrite Ht, Hd, H1, H2.
    split; [reflexivity|discriminate].
Qed.

Lemma validate_deterministic_witness :
  today env0 <> today env_other /\
  check_duplicate env0 (VStr "INV-002") (VStr "ABC Corp") "2024-01-15"
  <> check_duplicate env_other (VStr "INV-002") (VStr "ABC Corp") "2024-01-15" /\
  validate rt_iso env0 sample_invoice = validate rt_iso env_other sample_invoice.
Proof.
  split; [discriminate|]. split; [discriminate|].
  apply (proj1 (validate_deterministic rt_iso env0 env_other sample_invoice)).
  - reflexivity.
  - intros d Hd. vm_compute in Hd. injection Hd as <-. reflexivity.
Defined.

(** C9 (as stated, refuted): the duplicate oracle is not the only state
    that [validate] reads.  With one and the same oracle, the sample
    invoice dated 2024-01-15 is rejected as lying in the future when the
    clock shows 2024-01-01, and accepted when it shows 2025-01-01. *)
Lemma validate_depends_on_the_clock :
  (forall number seller day,
     check_duplicate (env_on (mk_date 2024 1 1)) number seller day
     = check_duplicate (env_on (mk_date 2025 1 1)) number seller day) /\
  validate rt_iso (env_on (mk_date 2024 1 1)) sample_invoice
  <> validate rt_iso (env_on (mk_date 2025 1 1)) sample_invoice.
Proof.
  split; [reflexivity|]. vm_compute. discriminate.
Qed.

(** *** The order of the errors *)

(** X10: The errors of every result that [validate] returns begin with the
    findings of the completeness check, in field order; no later error
    begins with "Missing required field: ", "Empty required field: " or
    "Negative value in required field: "; and when the completeness check
    finds anything the invoice is invalid. *)
Theorem required_findings_come_first rt e inv r :
  validate rt e inv = Ok r ->
  exists rest,
    errors r = (findings inv required_fields ++ rest)%list /\
    Forall not_a_required_finding rest /\
    (findings inv required_fields <> [] -> is_valid r = false).
Proof.
  intros Hv.
  destruct (validate_steps _ _ _ _ Hv) as (r1 & r2 & r3 & r4 & r5 & H1 & H2 & H3 & H4 & H5 & ->).
  assert (He : errors r1 = findings inv required_fields).
  { unfold _check_required_fields in H1.
    rewrite required_loop_returns in H1 by (eapply required_loop_no_nan; exact H1).
    injection H1 as <-. reflexivity. }
  assert (G : grows not_a_required_finding any_message r1 r5).
  { unfold not_a_required_finding.
    grow. }
  destruct G as (_ & _ & es & ws & Hes & _ & HE & _).
  exists es. rewrite <- He. split; [exact Hes|]. split; [exact HE|].
  intros Hne. unfold set_validity. simpl. rewrite Hes.
  destruct (errors r1); [contradiction|]. reflexivity.
Qed.

(** ** Integers convert exactly *)

Lemma pretty_N_char_digit d :
  (d < 10)%N -> is_digit (pretty_N_char d) = true /\ digit_val (pretty_N_char d) = d.
Proof.
  intros H.
  assert (Hd : (d = 0 \/ d = 1 \/ d = 2 \/ d = 3 \/ d = 4 \/ d = 5 \/ d = 6 \/ d = 7
           \/ d = 8 \/ d = 9)%N) by lia.
  repeat (destruct Hd as [->|Hd]; [split; reflexivity|]). subst. split; reflexivity.
Qed.

Lemma read_digits_pretty_go x : forall s acc n,
  exists k,
    read_digits (pretty_N_go x s) acc n
    = read_digits s (acc * 10 ^ N.of_nat k + x)%N (n + k)%nat /\
    ((0 < x)%N -> (0 < k)%nat).
Proof.
  induction (N.lt_wf_0 x) as [x _ IH]. intros s acc n.
  destruct (N.eq_dec x 0%N) as [->|Hx].
  - exists O. rewrite pretty_N_go_0. simpl N.of_nat.
    rewrite N.pow_0_r, N.mul_1_r, N.add_0_r, Nat.add_0_r. split; [reflexivity|lia].
  - rewrite pretty_N_go_step by lia.
    destruct (IH (x / 10)%N (N.div_lt x 10%N ltac:(lia) ltac:(lia))
                (String (pretty_N_char (x mod 10)) s) acc n) as (k & Hk & _).
    exists (S k). split; [|lia]. rewrite Hk. cbn [read_digits].
    destruct (pretty_N_char_digit (x mod 10)%N) as [Hd Hv]; [apply N.mod_lt; lia|].
    rewrite Hd, Hv. f_equal; [|lia].
    rewrite Nat2N.inj_succ, N.pow_succ_r'.
    pose proof (N.div_mod x 10%N ltac:(lia)). lia.
Qed.

Lemma read_digits_pretty (x : N) :
  exists k, (0 < k)%nat /\ read_digits (pretty x) 0 0 = (x, k, EmptyString).
Proof.
  unfold pretty, pretty_N. destruct (decide (x = 0%N)) as [->|Hx].
  - exists 1%nat. split; [lia|reflexivity].
  - destruct (read_digits_pretty_go x EmptyString 0%N O) as (k & Hk & Hpos).
    exists k. split; [apply Hpos; lia|]. rewrite Hk. reflexivity.
Qed.

(** A string that starts with a digit and holds digits only is a
    numeral as it stands. *)
Lemma read_digits_all s : forall acc n v k,
  read_digits s acc n = (v, k, EmptyString) -> str_all is_digit s = true.
Proof.
  induction s as [|c s IH]; intros acc n v k H; [reflexivity|].
  simpl in *. destruct (is_digit c); [|discriminate]. simpl. eapply IH. exact H.
Qed.

Lemma ascii_no_space2 a b : is_ascii a = true -> is_space2 a b = false.
Proof.
  intros Ha. destruct a as [[] [] [] [] [] [] [] []]; try discriminate Ha; reflexivity.
Qed.

Lemma ascii_no_space3 a b c : is_ascii a = true -> is_space3 a b c = false.
Proof.
  intros Ha. destruct a as [[] [] [] [] [] [] [] []]; try discriminate Ha; reflexivity.
Qed.

(** A text that starts with an ASCII character other than whitespace is
    not blank, and [lstrip] leaves it as it is. *)
Lemma spaces_ascii c s :
  is_ascii c = true -> is_space c = false -> spaces (String c s) = false.
Proof.
  intros Ha Hs. cbn [spaces]. rewrite Hs.
  destruct s as [|b [|d r]]; [reflexivity|rewrite ascii_no_space2 by exact Ha; reflexivity|].
  rewrite ascii_no_space2, ascii_no_space3 by exact Ha. reflexivity.
Qed.

Lemma lstrip_ascii c s :
  is_ascii c = true -> is_space c = false -> lstrip (String c s) = String c s.
Proof.
  intros Ha Hs. cbn [lstrip]. rewrite Hs.
  destruct s as [|b [|d r]]; [reflexivity|rewrite ascii_no_space2 by exact Ha; reflexivity|].
  rewrite ascii_no_space2, ascii_no_space3 by exact Ha. reflexivity.
Qed.

Lemma rstrip_ascii c s :
  is_ascii c = true -> is_space c = false -> rstrip (String c s) = String c (rstrip s).
Proof. intros Ha Hs. cbn [rstrip]. rewrite spaces_ascii by assumption. reflexivity. Qed.

Lemma digit_ascii c : is_digit c = true -> is_ascii c = true /\ is_space c = false.
Proof.
  intros Hc. destruct c as [[] [] [] [] [] [] [] []]; try discriminate Hc; split; reflexivity.
Qed.

Lemma digits_rstrip s : str_all is_digit s = true -> rstrip s = s.
Proof.
  induction s as [|c s IH]; [reflexivity|]. cbn [str_all]. intros H.
  apply andb_true_iff in H as [Hc Hs]. destruct (digit_ascii c Hc) as [Ha Hsp].
  rewrite rstrip_ascii, (IH Hs) by assumption. reflexivity.
Qed.

Lemma digits_lstrip s : str_all is_digit s = true -> lstrip s = s.
Proof.
  destruct s as [|c s]; [reflexivity|]. cbn [str_all]. intros H.
  apply andb_true_iff in H as [Hc Hs]. destruct (digit_ascii c Hc) as [Ha Hsp].
  apply lstrip_ascii; assumption.
Qed.

Lemma digits_replace s : str_all is_digit s = true -> replace "_" EmptyString s = s.
Proof.
  induction s as [|c s IH]; [reflexivity|]. simpl. intros H.
  apply andb_true_iff in H as [Hc Hs]. rewrite (IH Hs).
  destruct (Ascii.eqb_spec c "_") as [->|]; [discriminate Hc|reflexivity].
Qed.

Lemma digits_lower s : str_all is_digit s = true -> lower s = s.
Proof.
  unfold lower. induction s as [|c s IH]; [reflexivity|]. simpl. intros H.
  apply andb_true_iff in H as [Hc Hs]. rewrite (IH Hs). f_equal.
  destruct c as [[] [] [] [] [] [] [] []]; try reflexivity; discriminate Hc.
Qed.

(** What the constructor makes of a numeral of digits behind a sign. *)
Lemma of_digits neg s v k :
  (0 < k)%nat -> read_digits s 0 0 = (v, k, EmptyString) ->
  match
    (let '(i, ni, r1) := read_digits s 0 0 in
     let '(c, nf, r2) :=
       match r1 with
       | String "." r => read_digits r i 0
       | _ => (i, O, r1)
       end in
     if (ni + nf =? 0)%nat then None
     else
       match read_exponent r2 with
       | Some x => Some (DFin neg c (x - Z.of_nat nf))
       | None => None
       end)
  with
  | Some d => d = DFin neg v 0
  | None => False
  end.
Proof.
  intros Hk H. rewrite H. cbn [read_exponent].
  destruct (Nat.eqb_spec (k + 0) 0); [lia|]. reflexivity.
Qed.

Lemma of_string_digits s v k :
  (0 < k)%nat -> read_digits s 0 0 = (v, k, EmptyString) ->
  Decimal.of_string s = Some (DFin false v 0) /\
  Decimal.of_string ("-" +:+ s) = Some (DFin true v 0).
Proof.
  intros Hk H. pose proof (read_digits_all _ _ _ _ _ H) as Hall.
  destruct s as [|c s]; [simpl in H; injection H as _ <-; lia|].
  assert (Hc : is_digit c = true) by (simpl in Hall; apply andb_true_iff in Hall; tauto).
  pose proof (of_digits false _ _ _ Hk H) as Hp.
  pose proof (of_digits true _ _ _ Hk H) as Hn.
  split.
  - unfold Decimal.of_string, strip.
    rewrite (digits_lstrip _ Hall), (digits_rstrip _ Hall), (digits_replace _ Hall),
      (digits_lower _ Hall).
    assert (Hs : read_sign (String c s) = (false, String c s)).
    { destruct c as [[] [] [] [] [] [] [] []]; try reflexivity; discriminate Hc. }
    rewrite Hs.
    assert (He : String.eqb (String c s) "inf" || String.eqb (String c s) "infinity" = false).
    { destruct c as [[] [] [] [] [] [] [] []]; try reflexivity; discriminate Hc. }
    rewrite He.
    assert (Hn1 : strip_prefix "nan" (String c s) = None).
    { destruct c as [[] [] [] [] [] [] [] []]; try reflexivity; discriminate Hc. }
    assert (Hn2 : strip_prefix "snan" (String c s) = None).
    { destruct c as [[] [] [] [] [] [] [] []]; try reflexivity; discriminate Hc. }
    rewrite Hn1, Hn2. clear Hn.
    destruct (let '(i, ni, r1) := read_digits (String c s) 0 0 in _) as [d|];
      [rewrite Hp; reflexivity|contradiction].
  - unfold Decimal.of_string, strip.
    change ("-" +:+ String c s) with (String "-" (String c s)).
    assert (Hl : lstrip (String "-" (String c s)) = String "-" (String c s))
      by (apply lstrip_ascii; reflexivity).
    rewrite Hl.
    assert (Hr : rstrip (String "-" (String c s)) = String "-" (String c s)).
    { rewrite rstrip_ascii by reflexivity.
      rewrite (digits_rstrip _ Hall). reflexivity. }
    rewrite Hr.
    assert (Hrep : replace "_" EmptyString (String "-" (String c s)) = String "-" (String c s)).
    { change (replace "_" EmptyString (String "-" (String c s)))
        with (String "-" (replace "_" EmptyString (String c s))).
      rewrite (digits_replace _ Hall). reflexivity. }
    rewrite Hrep.
    assert (Hlow : lower (String "-" (String c s)) = String "-" (String c s)).
    { change (lower (String "-" (String c s))) with (String "-" (lower (String c s))).
      rewrite (digits_lower _ Hall). reflexivity. }
    rewrite Hlow.
    change (read_sign (String "-" (String c s))) with (true, String c s).
    cbv iota beta.
    assert (He : String.eqb (String c s) "inf" || String.eqb (String c s) "infinity" = false).
    { destruct c as [[] [] [] [] [] [] [] []]; try reflexivity; discriminate Hc. }
    rewrite He.
    assert (Hn1 : strip_prefix "nan" (String c s) = None).
    { destruct c as [[] [] [] [] [] [] [] []]; try reflexivity; discriminate Hc. }
    assert (Hn2 : strip_prefix "snan" (String c s) = None).
    { destruct c as [[] [] [] [] [] [] [] []]; try reflexivity; discriminate Hc. }
    rewrite Hn1, Hn2. clear Hp.
    destruct (let '(i, ni, r1) := read_digits (String c s) 0 0 in _) as [d|];
      [rewrite Hn; reflexivity|contradiction].
Qed.

Lemma of_string_int z :
  Decimal.of_string (pretty z) = Some (DFin (z <? 0) (Z.abs_N z) 0).
Proof.
  destruct z as [|p|p].
  - reflexivity.
  - destruct (read_digits_pretty (Npos p)) as (k & Hk & H).
    apply (of_string_digits _ _ _ Hk H).
  - destruct (read_digits_pretty (Npos p)) as (k & Hk & H).
    apply (of_string_digits _ _ _ Hk H).
Qed.

Lemma int_value z : (dvalue (DFin (z <? 0) (Z.abs_N z) 0) == inject_Z z)%Q.
Proof.
  unfold dvalue, value. simpl Qpower. rewrite Qmult_1_r.
  destruct z as [|p|p]; reflexivity.
Qed.

Lemma pretty_N_go_ascii x : forall s,
  ascii_text s = true -> ascii_text (pretty_N_go x s) = true.
Proof.
  induction (N.lt_wf_0 x) as [x _ IH]. intros s Hs.
  destruct (N.eq_dec x 0%N) as [->|Hx].
  - rewrite pretty_N_go_0. exact Hs.
  - rewrite pretty_N_go_step by lia.
    apply (IH (x / 10)%N (N.div_lt x 10%N ltac:(lia) ltac:(lia))).
    unfold ascii_text. cbn [str_all]. apply andb_true_iff. split; [|exact Hs].
    destruct (pretty_N_char_digit (x mod 10)%N) as [Hd _]; [apply N.mod_lt; lia|].
    apply digit_ascii, Hd.
Qed.

Lemma pretty_int_ascii (z : Z) : ascii_text (pretty z) = true.
Proof.
  assert (H : forall x : N, ascii_text (pretty x) = true).
  { intros x. unfold pretty, pretty_N. destruct (decide (x = 0%N)); [reflexivity|].
    apply pretty_N_go_ascii. reflexivity. }
  destruct z as [|p|p]; [reflexivity|apply (H (Npos p))|].
  change (pretty (Z.neg p)) with ("-" +:+ pretty (Npos p)).
  unfold ascii_text. cbn [append str_all is_ascii]. apply (H (Npos p)).
Qed.

(** X11: [_to_decimal] converts an [int] of at most 4300 digits exactly:
    the result is the decimal of the same sign, the absolute value as
    coefficient and exponent 0, whose value is the integer; for a longer
    [int], [str] raises ValueError and the result is None; a [Decimal]
    is returned as it is, and a [bool] raises InvalidOperation. *)
Theorem to_decimal_of_int {rt : runtime} z :
  _to_decimal (VInt z)
  = Ok (if (int_digits z <=? int_max_str_digits)%nat
        then Some (DFin (z <? 0) (Z.abs_N z) 0) else None) /\
  (dvalue (DFin (z <? 0) (Z.abs_N z) 0) == inject_Z z)%Q /\
  (forall d, _to_decimal (VDecimal d) = Ok (Some d)) /\
  (forall b, _to_decimal (VBool b) = Raise InvalidOperation).
Proof.
  split; [|split; [apply int_value|split]].
  - unfold _to_decimal, decimal_of_str, call_str. cbn [str_ok].
    destruct (int_digits z <=? int_max_str_digits)%nat; [|reflexivity].
    cbn [mbind outcome_bind]. unfold decimal_of_string, numeral.
    change (py_str (VInt z)) with (pretty z).
    rewrite pretty_int_ascii, of_string_int. reflexivity.
  - reflexivity.
  - intros []; vm_compute; reflexivity.
Qed.

(** ** Batches compose *)

Lemma count_of_count_errors errs counts msg :
  count_of (count_errors errs counts) msg = (count_of counts msg + occurrences msg errs)%nat.
Proof.
  unfold count_of at 1. rewrite count_errors_lookup.
  destruct (occurrences msg errs); simpl; [unfold count_of; lia|reflexivity].
Qed.

Lemma valid_count_app l1 l2 : valid_count (l1 ++ l2) = valid_count l1 + valid_count l2.
Proof. induction l1 as [|r l1 IH]; simpl; [reflexivity|]. rewrite IH. lia. Qed.

Lemma occurrences_app msg l1 l2 :
  occurrences msg (l1 ++ l2) = (occurrences msg l1 + occurrences msg l2)%nat.
Proof. induction l1 as [|x l1 IH]; simpl; [reflexivity|]. rewrite IH. lia. Qed.

Lemma validate_batch_inv rt e invoices summary results :
  validate_batch rt e invoices = Ok (summary, results) ->
  Forall2 (fun inv r => validate rt e inv = Ok r) invoices results /\
  summary = mk_summary (Z.of_nat (length results)) (valid_count results)
              (Z.of_nat (length results) - valid_count results)
              (count_errors (all_errors results) ∅).
Proof.
  intros H. unfold validate_batch in H.
  apply bind_Ok in H. destruct H as (out & Hloop & H).
  destruct (batch_loop_inv _ _ _ _ _ _ Hloop) as (results' & HF & Hout).
  rewrite (batch_loop rt e invoices results' HF [] ∅) in Hloop. injection Hloop as <-.
  simpl in H. injection H as <- <-. auto.
Qed.

(** X12: Batches compose: when [validate_batch] returns on two lists of
    records, it returns on their concatenation, with the results
    concatenated, the three counts added, and every error counted as
    often as in both batches together. *)
Theorem validate_batch_app rt e xs ys sx rx sy ry :
  validate_batch rt e xs = Ok (sx, rx) ->
  validate_batch rt e ys = Ok (sy, ry) ->
  exists s,
    validate_batch rt e (xs ++ ys) = Ok (s, (rx ++ ry)%list) /\
    total_invoices s = total_invoices sx + total_invoices sy /\
    valid_invoices s = valid_invoices sx + valid_invoices sy /\
    invalid_invoices s = invalid_invoices sx + invalid_invoices sy /\
    forall msg,
      count_of (error_counts s) msg
      = (count_of (error_counts sx) msg + count_of (error_counts sy) msg)%nat.
Proof.
  intros Hx Hy.
  destruct (validate_batch_inv _ _ _ _ _ Hx) as [Fx ->].
  destruct (validate_batch_inv _ _ _ _ _ Hy) as [Fy ->].
  assert (F : Forall2 (fun inv r => validate rt e inv = Ok r) (xs ++ ys) (rx ++ ry))
    by (apply Forall2_app; assumption).
  eexists. split.
  - unfold validate_batch. rewrite (batch_loop rt e _ _ F [] ∅). reflexivity.
  - simpl. rewrite length_app, valid_count_app, Nat2Z.inj_add.
    split; [reflexivity|]. split; [reflexivity|]. split; [lia|].
    intros msg. rewrite !count_of_count_errors. unfold all_errors.
    rewrite flat_map_app, occurrences_app. unfold count_of. rewrite lookup_empty. simpl. lia.
Qed.

(** ** Examples of the rules *)

Lemma due_date_rule_witness :
  exists r,
    validate rt_iso env0 late_due_invoice = Ok r /\
    (In before_invoice (errors r) <->
     exists d, date_of rt_iso (get "invoice_date" late_due_invoice) = Some d /\
               date_lt (mk_date 2023 12 31) d = true).
Proof.
  eexists. split; [vm_compute; reflexivity|].
  refine (proj1 (proj1 (proj2 (due_date_rule rt_iso env0 late_due_invoice _ _))
                   _ _ (mk_date 2023 12 31) _));
    vm_compute; reflexivity.
Defined.

Lemma currency_rule_witness :
  exists r,
    validate rt_iso env0 (set_field "currency" (VStr "XYZ") sample_invoice) = Ok r /\
    (In ("Invalid currency: " +:+ "XYZ. Must be one of ['EUR', 'USD', 'INR', 'GBP']")
        (errors r) <->
     exists s, get "currency" (set_field "currency" (VStr "XYZ") sample_invoice) = VStr s /\
               s <> EmptyString /\ ~ In (str_upper (rt:=rt_iso) s) allowed_currencies /\
               "XYZ. Must be one of ['EUR', 'USD', 'INR', 'GBP']"
               = s +:+ ". Must be one of ['EUR', 'USD', 'INR', 'GBP']").
Proof.
  eexists. split; [vm_compute; reflexivity|].
  refine (proj1 (currency_rule rt_iso env0
                   (set_field "currency" (VStr "XYZ") sample_invoice) _ _) _).
  vm_compute; reflexivity.
Defined.

Lemma tax_id_rule_witness :
  exists r,
    validate rt_iso env0 (set_field "seller_tax_id" (VStr "DE 123/456") sample_invoice)
      = Ok r /\
    (In ("Seller tax ID format may be invalid: " +:+ "DE 123/456") (warnings r) <->
     exists s,
       get "seller_tax_id" (set_field "seller_tax_id" (VStr "DE 123/456") sample_invoice)
         = VStr s /\
       s <> EmptyString /\ str_isalnum (rt:=rt_iso) (bare_id s) = false /\ "DE 123/456" = s).
Proof.
  eexists. split; [vm_compute; reflexivity|].
  refine (proj1 (tax_id_rule rt_iso env0
                   (set_field "seller_tax_id" (VStr "DE 123/456") sample_invoice) _ _) _).
  vm_compute; reflexivity.
Defined.

Lemma negative_amount_rule_witness :
  exists r,
    validate rt_iso env0 (set_field "tax_amount" (VStr "-180.0") sample_invoice) = Ok r /\
    (In ("Negative amount not allowed: " +:+ "tax_amount" +:+ " = " +:+ "-180.0") (errors r) <->
     exists d,
       _to_decimal (rt:=rt_iso)
         (get "tax_amount" (set_field "tax_amount" (VStr "-180.0") sample_invoice))
         = Ok (Some d) /\
       negative_number (VDecimal d) = true /\ "-180.0" = Decimal.to_str d).
Proof.
  eexists. split; [vm_compute; reflexivity|].
  refine (proj1 (negative_amount_rule rt_iso env0
                   (set_field "tax_amount" (VStr "-180.0") sample_invoice) _ _)
            "tax_amount" "-180.0" _).
  - vm_compute; reflexivity.
  - simpl. tauto.
Defined.

Lemma missing_optional_warnings_witness :
  (In "Due date is missing" (warnings sample_result) <->
   truthy (get "due_date" sample_invoice) = false) /\
  (In "Seller tax ID is missing" (warnings sample_result) <->
   truthy (get "seller_tax_id" sample_invoice) = false).
Proof.
  assert (Hv : validate rt_iso env0 sample_invoice = Ok sample_result)
    by (vm_compute; reflexivity).
  split.
  - exact (proj1 (missing_optional_warnings rt_iso env0 sample_invoice sample_result Hv)).
  - exact (proj1 (proj2 (missing_optional_warnings rt_iso env0 sample_invoice sample_result Hv))).
Defined.

Lemma high_amount_warning_witness :
  exists r,
    validate rt_iso env0
      (set_field "gross_total" (VStr "1000000.01") sample_invoice) = Ok r /\
    (In ("Unusually high gross total: " +:+ "1000000.01 (threshold: 1000000.00)")
        (warnings r) <->
     (1000000 # 1 < dvalue (DFin false 100000001 (-2)))%Q /\
     "1000000.01 (threshold: 1000000.00)"
     = Decimal.to_str (DFin false 100000001 (-2)) +:+ " (threshold: 1000000.00)").
Proof.
  eexists. split; [vm_compute; reflexivity|].
  refine (high_amount_warning rt_iso env0
            (set_field "gross_total" (VStr "1000000.01") sample_invoice) _
            (DFin false 100000001 (-2)) _ _ _ _);
    vm_compute; reflexivity.
Defined.

Lemma duplicate_warning_witness :
  exists r,
    validate rt_iso env_full sample_invoice = Ok r /\
    (In ("Duplicate invoice detected: " +:+ "INV-001 from ABC Corp on 2024-01-15")
        (warnings r) <->
     truthy (get "invoice_number" sample_invoice) && truthy (get "seller_name" sample_invoice)
       && truthy (get "invoice_date" sample_invoice) = true /\
     check_duplicate env_full (get "invoice_number" sample_invoice)
       (get "seller_name" sample_invoice) (py_str (rt:=rt_iso) (get "invoice_date" sample_invoice))
     = Ok true /\
     str_ok (get "seller_name" sample_invoice) = true /\
     "INV-001 from ABC Corp on 2024-01-15"
     = py_str (rt:=rt_iso) (get "invoice_number" sample_invoice) +:+ " from "
         +:+ py_str (rt:=rt_iso) (get "seller_name" sample_invoice)
         +:+ " on " +:+ py_str (rt:=rt_iso) (get "invoice_date" sample_invoice)).
Proof.
  eexists. split; [vm_compute; reflexivity|].
  refine (duplicate_warning rt_iso env_full sample_invoice _ _ _).
  vm_compute; reflexivity.
Defined.

Lemma verdict_ignores_duplicates_witness :
  exists r2,
    validate rt_iso env_down sample_invoice = Ok r2 /\
    invoice_id r2 = invoice_id sample_result /\ is_valid r2 = is_valid sample_result /\
    errors r2 = errors sample_result /\
    exists ws,
      warnings sample_result
      = (ws ++ from_option (fun m => [m]) [] (duplicate_finding (rt:=rt_iso) env0 sample_invoice))%list /\
      warnings r2
      = (ws ++ from_option (fun m => [m]) [] (duplicate_finding (rt:=rt_iso) env_down sample_invoice))%list.
Proof.
  apply (verdict_ignores_duplicates rt_iso env0 env_down sample_invoice sample_result).
  - reflexivity.
  - vm_compute; reflexivity.
Defined.

Lemma required_findings_come_first_witness :
  exists rest,
    errors late_due_result = (findings late_due_invoice required_fields ++ rest)%list /\
    Forall not_a_required_finding rest /\
    (findings late_due_invoice required_fields <> [] -> is_valid late_due_result = false).
Proof.
  apply (required_findings_come_first rt_iso env0 late_due_invoice late_due_result).
  vm_compute; reflexivity.
Defined.

Lemma validate_batch_app_witness :
  exists s,
    validate_batch rt_iso env0 ([sample_invoice] ++ [late_due_invoice; late_due_invoice])
    = Ok (s, ([sample_result] ++ [late_due_result; late_due_result])%list) /\
    total_invoices s = 1 + 2 /\
    valid_invoices s = 1 + 0 /\
    invalid_invoices s = 0 + 2.
Proof.
  destruct (validate_batch_app rt_iso env0 [sample_invoice] [late_due_invoice; late_due_invoice]
              (mk_summary 1 1 0 ∅) [sample_result]
              (mk_summary 2 0 2 (count_errors (all_errors [late_due_result; late_due_result]) ∅))
              [late_due_result; late_due_result])
    as (s & Hs & Ht & Hv & Hi & _).
  - vm_compute; reflexivity.
  - vm_compute; reflexivity.
  - exists s. split; [exact Hs|]. split; [exact Ht|]. split; [exact Hv|exact Hi].
Defined.

(** ** [validate] returns *)


Lemma within_weaken K lo hi K' lo' hi' d :
  0 <= K <= K' -> lo' <= lo -> hi <= hi' -> within K lo hi d -> within K' lo' hi' d.
Proof.
  intros HK Hlo Hhi. destruct d as [s c e| |]; simpl; try tauto. intros [Hc He].
  split; [|lia]. eapply Z.lt_le_trans; [exact Hc|].
  apply Z.pow_le_mono_r; lia.
Qed.

Lemma round_half_even_bounds c shift :
  0 <= c -> 0 < shift -> 0 <= round_half_even c shift <= c.
Proof.
  intros Hc Hs. unfold round_half_even.
  assert (Hp : 10 <= 10 ^ shift).
  { change 10 with (10 ^ 1) at 1. apply Z.pow_le_mono_r; lia. }
  pose proof (Z.div_mod c (10 ^ shift) ltac:(lia)) as Hdm.
  pose proof (Z.mod_pos_bound c (10 ^ shift) ltac:(lia)) as Hm.
  assert (Hq : 0 <= c / 10 ^ shift) by (apply Z.div_pos; lia).
  destruct ((2 * (c mod 10 ^ shift) >? 10 ^ shift)
            || (2 * (c mod 10 ^ shift) =? 10 ^ shift) && Z.odd (c / 10 ^ shift)) eqn:E.
  - assert (Hr : 10 ^ shift <= 2 * (c mod 10 ^ shift)).
    { apply orb_true_iff in E as [E|E].
      - apply Z.gtb_lt in E. lia.
      - apply andb_true_iff in E as [E _]. apply Z.eqb_eq in E. lia. }
    split; [lia|]. nia.
  - split; [lia|]. nia.
Qed.

Lemma ndigits_fuel_pos fuel n : (1 <= ndigits_fuel fuel n)%nat.
Proof. destruct fuel; simpl; [lia|]. destruct (n <? 10)%N; lia. Qed.

Lemma ndigits_within c K :
  1 <= K -> Z.of_N c < 10 ^ K -> 1 <= Z.of_nat (ndigits c) <= K.
Proof.
  intros HK Hc. unfold ndigits. pose proof (ndigits_fuel_pos (N.size_nat c) c).
  split; [lia|].
  pose proof (ndigits_fuel_le (N.size_nat c) c (Z.to_nat K) ltac:(lia)) as H1.
  assert (H2 : (c < 10 ^ N.of_nat (Z.to_nat K))%N).
  { apply N2Z.inj_lt. rewrite N2Z.inj_pow, nat_N_Z, Z2Nat.id by lia. exact Hc. }
  specialize (H1 H2). lia.
Qed.

(** Rounding to the context neither fails nor lengthens a coefficient
    whose exponent is far from the context's limits. *)
Lemma fix_finite_within neg c e K :
  1 <= K -> Z.of_N c < 10 ^ K -> Etiny <= e -> e + K <= Etop ->
  exists d, fix_finite neg c e = Ok d /\ within K e (e + K) d.
Proof.
  intros HK Hc Hlo Hhi. unfold fix_finite.
  destruct (N.eqb_spec c 0) as [->|Hnz].
  - eexists. split; [reflexivity|]. simpl. unfold Etiny, Etop, Emax, Emin, prec in *.
    split; [apply Z.pow_pos_nonneg; lia|lia].
  - pose proof (ndigits_within c K HK Hc) as Hd.
    unfold Etiny, Etop, Emax, Emin, prec in *.
    destruct (Z.gtb_spec (Z.of_nat (ndigits c) + e - 28) (999999 - 28 + 1)); [lia|].
    destruct (Z.ltb_spec e (Z.max (Z.of_nat (ndigits c) + e - 28) (-999999 - 28 + 1)))
      as [Hlt|Hge].
    + assert (Hmax : Z.max (Z.of_nat (ndigits c) + e - 28) (-999999 - 28 + 1)
                     = Z.of_nat (ndigits c) + e - 28) by lia.
      rewrite Hmax in *.
      pose proof (round_half_even_bounds (Z.of_N c) (Z.of_nat (ndigits c) + e - 28 - e)
                    ltac:(lia) ltac:(lia)) as Hq.
      set (q := round_half_even (Z.of_N c) (Z.of_nat (ndigits c) + e - 28 - e)) in *.
      destruct (q >=? 10 ^ 28) eqn:Eq.
      * destruct (Z.gtb_spec (Z.of_nat (ndigits c) + e - 28 + 1) (999999 - 28 + 1)); [lia|].
        eexists. split; [reflexivity|]. simpl. split; [|lia].
        rewrite Z2N.id by (apply Z.div_pos; lia).
        assert (q / 10 <= q) by (apply Z.div_le_upper_bound; lia). lia.
      * destruct (Z.gtb_spec (Z.of_nat (ndigits c) + e - 28) (999999 - 28 + 1)); [lia|].
        eexists. split; [reflexivity|]. simpl. split; [|lia].
        rewrite Z2N.id by lia. lia.
    + eexists. split; [reflexivity|]. simpl. split; [exact Hc|lia].
Qed.

Lemma scaled_bound neg c e m K D :
  0 <= K -> Z.of_N c < 10 ^ K -> m <= e -> e - m <= D ->
  Z.abs (scaled neg c e m) < 10 ^ (K + D).
Proof.
  intros HK0 Hc Hm Hd. unfold scaled.
  assert (Hp : 0 < 10 ^ (e - m)) by (apply Z.pow_pos_nonneg; lia).
  assert (Hpd : 10 ^ (e - m) <= 10 ^ D) by (apply Z.pow_le_mono_r; lia).
  assert (HK : 0 < 10 ^ K) by (apply Z.pow_pos_nonneg; lia).
  rewrite Z.pow_add_r by lia.
  rewrite !Z.abs_mul. rewrite (Z.abs_eq (10 ^ (e - m))) by lia.
  rewrite (Z.abs_eq (Z.of_N c)) by lia.
  replace (Z.abs (if neg then -1 else 1)) with 1 by (destruct neg; reflexivity).
  rewrite Z.mul_1_l.
  apply Z.lt_le_trans with (10 ^ K * 10 ^ (e - m)).
  - apply Z.mul_lt_mono_pos_r; lia.
  - apply Z.mul_le_mono_nonneg_l; lia.
Qed.

Lemma add_within K D lo hi a b :
  1 <= K -> 0 <= D -> hi - lo <= D -> Etiny <= lo -> hi + (K + D + 1) <= Etop ->
  within K lo hi a -> within K lo hi b ->
  exists d, add a b = Ok d /\ within (K + D + 1) lo (hi + (K + D + 1)) d.
Proof.
  intros HK HD0 HD Hlo Hhi Ha Hb.
  destruct a as [s1 c1 e1| |], b as [s2 c2 e2| |]; simpl in Ha, Hb; try tauto.
  destruct Ha as [Hc1 He1], Hb as [Hc2 He2].
  unfold add. simpl check_nans. cbv iota. unfold add_finite, exact_sum.
  set (m := Z.min e1 e2).
  set (z := scaled s1 c1 e1 m + scaled s2 c2 e2 m).
  pose proof (scaled_bound s1 c1 e1 m K D ltac:(lia) Hc1
                ltac:(unfold m; lia) ltac:(unfold m; lia)) as H1.
  pose proof (scaled_bound s2 c2 e2 m K D ltac:(lia) Hc2
                ltac:(unfold m; lia) ltac:(unfold m; lia)) as H2.
  assert (Hz : Z.of_N (Z.abs_N z) < 10 ^ (K + D + 1)).
  { rewrite N2Z.inj_abs_N. unfold z.
    rewrite (Z.pow_add_r 10 (K + D) 1) by lia. change (10 ^ 1) with 10.
    pose proof (Z.abs_triangle (scaled s1 c1 e1 m) (scaled s2 c2 e2 m)). lia. }
  destruct (fix_finite_within (if z =? 0 then s1 && s2 else z <? 0) (Z.abs_N z) m
              (K + D + 1) ltac:(lia) Hz ltac:(unfold m; lia) ltac:(unfold m; lia))
    as (d & Hd & Hw).
  exists d. split; [exact Hd|].
  eapply within_weaken; [| | |exact Hw]; unfold m; lia.
Qed.

Lemma copy_negate_within K lo hi b : within K lo hi b -> within K lo hi (copy_negate b).
Proof. destruct b; simpl; tauto. Qed.

Lemma sub_within K D lo hi a b :
  1 <= K -> 0 <= D -> hi - lo <= D -> Etiny <= lo -> hi + (K + D + 1) <= Etop ->
  within K lo hi a -> within K lo hi b ->
  exists d, sub a b = Ok d /\ within (K + D + 1) lo (hi + (K + D + 1)) d.
Proof.
  intros HK HD0 HD Hlo Hhi Ha Hb. unfold sub.
  assert (Hn : check_nans a b = None).
  { destruct a, b; simpl in Ha, Hb; try contradiction. reflexivity. }
  rewrite Hn. apply add_within; auto using copy_negate_within.
Qed.

Lemma abs_within K lo hi a :
  1 <= K -> Etiny <= lo -> hi + K <= Etop ->
  within K lo hi a ->
  exists d, Decimal.abs a = Ok d /\ within K lo (hi + K) d.
Proof.
  intros HK Hlo Hhi Ha. destruct a as [s c e| |]; simpl in Ha; try tauto.
  destruct Ha as [Hc He]. unfold Decimal.abs.
  destruct (fix_finite_within false c e K HK Hc ltac:(lia) ltac:(lia)) as (d & Hd & Hw).
  exists d. split; [exact Hd|]. eapply within_weaken; [| | |exact Hw]; lia.
Qed.

Lemma gt_within K lo hi a b : within K lo hi a -> is_finite b = true -> returns (gt a b).
Proof.
  destruct a, b; simpl; try tauto; try discriminate. intros _ _. unfold gt, returns. simpl. eauto.
Qed.

Lemma lt_within K lo hi a b : within K lo hi a -> is_finite b = true -> returns (lt a b).
Proof.
  destruct a, b; simpl; try tauto; try discriminate. intros _ _. unfold lt, returns. simpl. eauto.
Qed.

(** The totals rule returns on amounts of moderate size. *)
Lemma check_totals_moderate n t g r :
  moderate n -> moderate t -> moderate g -> returns (check_totals (Some n) (Some t) (Some g) r).
Proof.
  unfold moderate. intros Hn Ht Hg. unfold check_totals, differs, returns.
  destruct (add_within 1000 2000 (-1000) 1000 n t ltac:(lia) ltac:(lia) ltac:(lia)
              ltac:(unfold Etiny, Emin, prec; lia) ltac:(unfold Etop, Emax, prec; lia) Hn Ht)
    as (s & -> & Hs).
  cbn [mbind outcome_bind].
  destruct (sub_within 3001 5001 (-1000) 4001 s g ltac:(lia) ltac:(lia) ltac:(lia)
              ltac:(unfold Etiny, Emin, prec; lia) ltac:(unfold Etop, Emax, prec; lia))
    as (d & -> & Hd).
  { eapply within_weaken; [| | |exact Hs]; lia. }
  { eapply within_weaken; [| | |exact Hg]; lia. }
  cbn [mbind outcome_bind].
  destruct (abs_within (3001 + 5001 + 1) (-1000) (4001 + (3001 + 5001 + 1)) d ltac:(lia)
              ltac:(unfold Etiny, Emin, prec; lia) ltac:(unfold Etop, Emax, prec; lia) Hd)
    as (m & -> & Hm).
  cbn [mbind outcome_bind].
  destruct (gt_within _ _ _ m tolerance Hm eq_refl) as (bad & ->).
  cbn [mbind outcome_bind]. destruct bad; eauto.
Qed.

Lemma amount_ok_to_decimal {rt : runtime} v :
  amount_ok v -> exists o, _to_decimal v = Ok o /\ from_option moderate True o.
Proof.
  intros [->|(d & Hd & Hm)]; [exists None|exists (Some d)]; simpl; auto.
Qed.

Lemma moderate_finite d : moderate d -> is_finite d = true /\ is_nan d = false.
Proof. destruct d; simpl; tauto. Qed.

Lemma check_totals_returns n t g r :
  from_option moderate True n -> from_option moderate True t -> from_option moderate True g ->
  returns (check_totals n t g r).
Proof.
  destruct n as [n|], t as [t|], g as [g|]; simpl; intros Hn Ht Hg;
    try (unfold check_totals, returns; eauto; fail).
  apply check_totals_moderate; assumption.
Qed.

Lemma check_negative_amount_returns {rt : runtime} inv f r :
  amount_ok (get f inv) -> returns (check_negative_amount inv f r).
Proof.
  intros H. destruct (amount_ok_to_decimal _ H) as (o & Ho & Hm).
  unfold check_negative_amount, returns. rewrite Ho. cbn [mbind outcome_bind].
  destruct o as [d|]; [|eauto]. simpl in Hm.
  destruct (lt_within _ _ _ d dec_zero Hm eq_refl) as (b & ->).
  cbn [mbind outcome_bind]. destruct b; eauto.
Qed.

Lemma _check_anomalies_returns {rt : runtime} inv r :
  amount_ok (get "gross_total" inv) -> returns (_check_anomalies inv r).
Proof.
  intros H. destruct (amount_ok_to_decimal _ H) as (o & Ho & Hm).
  unfold _check_anomalies, returns. rewrite Ho. cbn [mbind outcome_bind].
  destruct o as [g|]; [|cbn [mbind outcome_bind]; eauto]. simpl in Hm.
  destruct (Decimal.truthy g); [|cbn [mbind outcome_bind]; eauto].
  destruct (gt_within _ _ _ g high_amount_threshold Hm eq_refl) as (b & ->).
  cbn [mbind outcome_bind]. destruct b; cbn [mbind outcome_bind]; eauto.
Qed.

Lemma check_currency_plain {rt : runtime} inv r :
  plain_tax_id (get "currency" inv) -> returns (check_currency inv r).
Proof.
  unfold check_currency, returns. intros [Hf | (s & Hs)].
  - rewrite Hf. eauto.
  - rewrite Hs. destruct (truthy (VStr s)); [|eauto]. simpl.
    destruct (negb _); eauto.
Qed.

Lemma check_due_date_returns rt inv r :
  date_ok (get "due_date" inv) -> returns (check_due_date rt inv r).
Proof.
  intros Hd.
  assert (Hs : str_ok (get "due_date" inv) = true)
    by (destruct Hd as [->|[(s & ->)|(d & ->)]]; reflexivity).
  unfold check_due_date, returns, call_str. rewrite Hs.
  destruct (truthy (get "due_date" inv) && truthy (get "invoice_date" inv)); [|eauto].
  assert (Hp : parse_date rt (get "due_date" inv) = Raise ValueError \/
               exists d, parse_date rt (get "due_date" inv) = Ok (VDate d) \/
                         parse_date rt (get "due_date" inv) = Ok VNone).
  { destruct Hd as [->|[(s & ->)|(d & ->)]]; simpl.
    - right. exists (mk_date 0 0 0). auto.
    - destruct (fromisoformat rt s) as [d|]; [right; exists d|]; auto.
    - right. exists d. auto. }
  destruct Hp as [->|(d & [->| ->])]; [simpl; eauto| |];
    cbn [mbind outcome_bind];
    (destruct (get "invoice_date" inv) as [| b | z | f | s | x | x | l | m];
     simpl; try (destruct (fromisoformat rt s) as [x|]); simpl; eauto;
     try (destruct (date_lt d x)); eauto).
Qed.

Lemma check_invoice_date_returns rt e inv r :
  str_ok (get "invoice_date" inv) = true ->
  check_invoice_date rt e inv r = Ok (with_finding (invoice_date_finding rt e inv) r).
Proof.
  intros Hs.
  assert (R : returns (check_invoice_date rt e inv r)).
  { unfold check_invoice_date, returns, call_str. rewrite Hs.
    destruct (truthy (get "invoice_date" inv)); [|eauto].
    destruct (get "invoice_date" inv) as [| b | z | f | s | d | d | l | m];
      cbn [parse_date gt_date mbind outcome_bind except_value_type]; eauto.
    - destruct (fromisoformat rt s);
        cbn [gt_date mbind outcome_bind except_value_type]; eauto.
      destruct (date_lt (today e) d); eauto.
    - destruct (date_lt (today e) d); eauto. }
  destruct R as [r' H]. rewrite H. f_equal. apply check_invoice_date_effect, H.
Qed.

Lemma str_ok_get_default k d inv :
  str_ok d = true -> str_ok (get k inv) = true -> str_ok (get_default k d inv) = true.
Proof.
  intros Hd. unfold get. induction inv as [|[k' v] inv IH]; cbn [get_default]; [auto|].
  destruct (String.eqb k' k); auto.
Qed.

Lemma make_invoice_id_returns {rt : runtime} inv :
  str_ok (get "invoice_number" inv) = true -> str_ok (get "source_file" inv) = true ->
  make_invoice_id inv = Ok (the_invoice_id inv).
Proof.
  intros Hn Hf.
  assert (R : returns (make_invoice_id inv)).
  { unfold make_invoice_id, unknown_id, call_str, returns.
    rewrite Hn, (str_ok_get_default "source_file" (VStr "NO_FILE") inv eq_refl Hf).
    cbn [mbind outcome_bind].
    destruct (get "invoice_number" inv); try destruct (is_blank_str _); eauto. }
  destruct R as [i H]. unfold the_invoice_id. rewrite H. reflexivity.
Qed.

(** X13: [validate] returns a result, raising nothing, on every record in
    which no required field is a Decimal NaN, the invoice number, the
    source file and the invoice date have a string form (none holds an
    integer of more than 4300 digits), the currency and the tax IDs are
    falsy (absent, None, empty, zero) or strings, the due date is
    absent, None, a string or a date, every amount is absent, None, or
    converts to a finite decimal of at most 1000 digits with an exponent
    between -1000 and 1000, and there are no line items; whatever the
    other fields hold. *)
Theorem validate_returns rt e inv : well_typed inv -> exists r, validate rt e inv = Ok r.
Proof.
  intros [Hreq Hnum Hfile Hday Hcur Hst Hbt Hdue Hamt Hitems].
  assert (Hnet : amount_ok (get "net_total" inv)) by (apply Hamt; simpl; tauto).
  assert (Htax : amount_ok (get "tax_amount" inv)) by (apply Hamt; simpl; tauto).
  assert (Hgross : amount_ok (get "gross_total" inv)) by (apply Hamt; simpl; tauto).
  unfold validate. rewrite (make_invoice_id_returns inv Hnum Hfile). cbn [mbind outcome_bind].
  unfold _check_required_fields.
  rewrite (required_loop_returns inv required_fields _ Hreq). cbn [mbind outcome_bind].
  unfold _check_formats. rewrite (check_invoice_date_returns rt e inv _ Hday).
  cbn [mbind outcome_bind].
  destruct (check_due_date_returns rt inv
              (with_finding (invoice_date_finding rt e inv)
                 (mk_result (invoice_id (mk_result (the_invoice_id inv) true [] []))
                    (is_valid (mk_result (the_invoice_id inv) true [] []))
                    (errors (mk_result (the_invoice_id inv) true [] [])
                       ++ findings inv required_fields)
                    (warnings (mk_result (the_invoice_id inv) true [] [])))) Hdue)
    as (a2 & ->).
  cbn [mbind outcome_bind].
  destruct (check_currency_plain inv a2 Hcur) as (a3 & ->). cbn [mbind outcome_bind].
  destruct (check_tax_id_plain "seller_tax_id" "Seller" inv a3 Hst) as (a4 & ->).
  cbn [mbind outcome_bind].
  destruct (check_tax_id_plain "buyer_tax_id" "Buyer" inv a4 Hbt) as (r2 & ->).
  cbn [mbind outcome_bind].
  unfold _check_business_rules.
  destruct (amount_ok_to_decimal _ Hnet) as (n & -> & Mn).
  destruct (amount_ok_to_decimal _ Htax) as (t & -> & Mt).
  destruct (amount_ok_to_decimal _ Hgross) as (g & Hg & Mg). rewrite Hg.
  cbn [mbind outcome_bind].
  destruct (check_totals_returns n t g r2 Mn Mt Mg) as (b1 & ->). cbn [mbind outcome_bind].
  rewrite Hitems. cbn [check_line_items_sum truthy mbind outcome_bind].
  unfold amount_fields. cbn [for_each].
  destruct (check_negative_amount_returns inv "net_total" b1 Hnet) as (c1 & ->).
  cbn [mbind outcome_bind].
  destruct (check_negative_amount_returns inv "tax_amount" c1 Htax) as (c2 & ->).
  cbn [mbind outcome_bind].
  destruct (check_negative_amount_returns inv "gross_total" c2 Hgross) as (c3 & ->).
  cbn [mbind outcome_bind iterate enumerate_from for_each].
  destruct (_check_anomalies_returns inv c3 Hgross) as (r4 & ->). cbn [mbind outcome_bind].
  destruct (_check_duplicates_returns e inv r4 Hday) as (r5 & ->).
  cbn [mbind outcome_bind]. eauto.
Qed.

Lemma moderate_int z : Z.abs z < 10 ^ 1000 -> moderate (DFin (z <? 0) (Z.abs_N z) 0).
Proof. intros H. unfold moderate. simpl. rewrite N2Z.inj_abs_N. lia. Qed.

Lemma validate_returns_witness : exists r, validate rt_iso env0 rough_invoice = Ok r.
Proof.
  apply (validate_returns rt_iso env0 rough_invoice).
  constructor.
  - intros f Hf. unfold required_fields in Hf. simpl in Hf.
    repeat (destruct Hf as [<-|Hf]; [reflexivity|]). contradiction.
  - reflexivity.
  - reflexivity.
  - reflexivity.
  - right. exists "BTC". reflexivity.
  - right. exists "??". reflexivity.
  - left. reflexivity.
  - right. left. exists "2024-02-30". reflexivity.
  - intros f Hf. unfold amount_fields in Hf. simpl in Hf.
    destruct Hf as [<-|[<-|[<-|[]]]].
    + right. exists (DFin true 5 0). split; [vm_compute; reflexivity|].
      unfold moderate. simpl. split; [reflexivity|lia].
    + right. exists (DFin false 5 2). split; [vm_compute; reflexivity|].
      unfold moderate. simpl. split; [reflexivity|lia].
    + left. reflexivity.
  - reflexivity.
Defined.

(** ** Line items (rule 4) *)


Lemma exact_mul_value a b :
  is_finite a = true -> is_finite b = true ->
  (dvalue (exact_mul a b) == dvalue a * dvalue b)%Q.
Proof.
  destruct a as [s1 c1 e1| |], b as [s2 c2 e2| |]; try discriminate. intros _ _.
  simpl. unfold value. rewrite Qpower_plus by apply ten_nonzero.
  replace ((if xorb s1 s2 then -1 else 1) * Z.of_N (c1 * c2))
    with (((if s1 then -1 else 1) * Z.of_N c1) * ((if s2 then -1 else 1) * Z.of_N c2))
    by (destruct s1, s2; simpl; lia).
  rewrite inject_Z_mult. ring.
Qed.

Lemma mul_exact a b :
  is_finite a = true -> is_finite b = true -> dec_fits (exact_mul a b) ->
  mul a b = Ok (exact_mul a b).
Proof.
  destruct a as [s1 c1 e1| |], b as [s2 c2 e2| |]; try discriminate. intros _ _.
  simpl. apply fix_finite_fits.
Qed.

Lemma pretty_N_go_length x : forall s (k : nat),
  (x < 10 ^ N.of_nat k)%N -> (String.length (pretty_N_go x s) <= k + String.length s)%nat.
Proof.
  induction (N.lt_wf_0 x) as [x _ IH]. intros s k Hx.
  destruct (N.eq_dec x 0%N) as [->|Hne].
  - rewrite pretty_N_go_0. lia.
  - rewrite pretty_N_go_step by lia.
    destruct k as [|k]; [simpl in Hx; lia|].
    rewrite Nat2N.inj_succ, N.pow_succ_r' in Hx.
    assert (Hq : (x / 10 < 10 ^ N.of_nat k)%N) by (apply N.Div0.div_lt_upper_bound; lia).
    pose proof (IH (x / 10)%N (N.div_lt x 10%N ltac:(lia) ltac:(lia))
                  (String (pretty_N_char (x mod 10)) s) k Hq) as H.
    cbn [String.length] in H. lia.
Qed.

(** An integer below 10^28 in absolute value has a string form. *)
Lemma small_int_str_ok z : (Z.abs_N z < 10 ^ 28)%N -> str_ok (VInt z) = true.
Proof.
  intros H. cbn [str_ok]. apply Nat.leb_le. unfold int_digits, int_max_str_digits.
  unfold pretty, pretty_N. destruct (decide (Z.abs_N z = 0%N)) as [_|Hne]; [simpl; lia|].
  pose proof (pretty_N_go_length (Z.abs_N z) EmptyString 28 H) as Hl.
  cbn [String.length] in Hl. lia.
Qed.

(** X14: Rule 4 on one line item whose quantity is a non-zero [int] [z] and
    whose unit price [p] and line total [t] convert to finite non-zero
    decimals, the product [z * p] and its difference with [t] fitting
    the 28-digit context: the check returns, appends the warning "Line
    item k: quantity * unit_price != line_total" exactly when
    |z * p - t| > 0.01 in exact arithmetic, and changes nothing
    otherwise. *)
Theorem line_item_rule {rt : runtime} idx item z p t r :
  get "quantity" item = VInt z -> z <> 0 ->
  _to_decimal (get "unit_price" item) = Ok (Some p) ->
  _to_decimal (get "line_total" item) = Ok (Some t) ->
  is_finite p = true -> is_finite t = true ->
  Decimal.truthy p = true -> Decimal.truthy t = true ->
  dec_fits (exact_mul (dec_of_int z) p) ->
  dec_fits (exact_sub (exact_mul (dec_of_int z) p) t) ->
  exists bad : bool,
    check_line_item (idx, VDict item) r
    = Ok (if bad then add_warning (line_item_message idx) r else r) /\
    (bad = true <-> (1 # 100 < Qabs (inject_Z z * dvalue p - dvalue t))%Q).
Proof.
  intros Hq Hz Hp Ht Fp Ft Tp Tt Hm Hd.
  unfold check_line_item. cbn [item_get mbind outcome_bind]. rewrite Hp, Ht, Hq.
  cbn [mbind outcome_bind]. rewrite Tp, Tt.
  assert (Hqt : truthy (VInt z) = true).
  { simpl. destruct (Z.eqb_spec z 0); [contradiction|reflexivity]. }
  rewrite Hqt. cbn [andb]. unfold decimal_of_str, call_str.
  assert (Hs : str_ok (VInt z) = true).
  { apply small_int_str_ok. destruct p as [s c x| |]; try discriminate.
    destruct Hm as [Hc _]. simpl in Tp.
    destruct (N.eqb_spec c 0) as [->|Hne]; [discriminate|]. nia. }
  rewrite Hs. cbn [mbind outcome_bind]. unfold decimal_of_string, numeral.
  change (py_str (VInt z)) with (pretty z). rewrite pretty_int_ascii, of_string_int.
  cbn [mbind outcome_bind]. fold (dec_of_int z).
  rewrite (mul_exact (dec_of_int z) p eq_refl Fp Hm). cbn [mbind outcome_bind].
  assert (Fm : is_finite (exact_mul (dec_of_int z) p) = true).
  { destruct p; try discriminate. reflexivity. }
  destruct (differs_exact (exact_mul (dec_of_int z) p) t Fm Ft Hd) as (bad & -> & Hbad).
  cbn [mbind outcome_bind]. exists bad. split; [destruct bad; reflexivity|].
  rewrite Hbad, (exact_mul_value (dec_of_int z) p eq_refl Fp).
  unfold dec_of_int. rewrite int_value. reflexivity.
Qed.

Lemma line_item_rule_witness :
  exists bad : bool,
    check_line_item (rt:=rt_iso) (0%nat, VDict overbilled_item) sample_result
    = Ok (if bad then add_warning (line_item_message 0) sample_result else sample_result) /\
    (bad = true <->
     (1 # 100 < Qabs (inject_Z 1 * dvalue (DFin false 250 (-2))
                      - dvalue (DFin false 300 (-2))))%Q).
Proof.
  apply (line_item_rule (rt:=rt_iso) 0 overbilled_item 1 (DFin false 250 (-2))
           (DFin false 300 (-2)));
    try (vm_compute; reflexivity).
  - discriminate.
  - vm_compute. repeat split; first [reflexivity | intro; discriminate].
  - vm_compute. repeat split; first [reflexivity | intro; discriminate].
Defined.

(** * The regex fallback of the extractor *)

Import Strptime ExtractorFields.

(** ** The record of an unreadable file *)

(** The record that the extractor returns for a file it cannot read is
    rejected by [validate], under every database and on every day: the
    identifier is "UNKNOWN_" followed by the file name, the errors are
    the seven "Missing required field" messages (the default currency
    USD is present), and the warnings are the four of the missing
    optional fields; the duplicate check is not run. *)
Lemma empty_invoice_is_invalid rt e filename :
  validate rt e (_empty_invoice filename)
  = Ok (mk_result ("UNKNOWN_" +:+ filename) false
          ["Missing required field: invoice_number"; "Missing required field: invoice_date";
           "Missing required field: seller_name"; "Missing required field: buyer_name";
           "Missing required field: net_total"; "Missing required field: tax_amount";
           "Missing required field: gross_total"]
          ["Due date is missing"; "Seller tax ID is missing"; "Buyer tax ID is missing";
           "No line items found in invoice"]).
Proof. reflexivity. Qed.

(** ** The currency *)

Lemma detect_currency_allowed text : In (detect_currency text) allowed_currencies.
Proof.
  unfold detect_currency, allowed_currencies.
  repeat match goal with |- context [if ?b then _ else _] => destruct b end; simpl; tauto.
Qed.

(** X15: The currency that the regex fallback writes into a record is always
    one of the allowed codes, so the currency check accepts the record
    without an error; a text holding the euro sign or "EUR" gives EUR
    whatever else it holds, and a text holding no sign or code of the
    euro, the pound or the rupee gives USD. *)
Theorem detected_currency_is_valid {rt : runtime} text inv r :
  get "currency" inv = VStr (detect_currency text) ->
  check_currency inv r = Ok r /\
  In (detect_currency text) allowed_currencies /\
  (substring_of euro_sign text || substring_of "EUR" text = true ->
   detect_currency text = "EUR") /\
  (substring_of pound_sign text || substring_of "GBP" text = false ->
   substring_of rupee_sign text || substring_of "INR" text || substring_of "Rs" text = false ->
   substring_of euro_sign text || substring_of "EUR" text = false ->
   detect_currency text = "USD").
Proof.
  intros Hc. split; [|split; [apply detect_currency_allowed|split]].
  - unfold check_currency. rewrite Hc.
    pose proof (detect_currency_allowed text) as Hin. unfold allowed_currencies in Hin.
    simpl in Hin. destruct Hin as [<-|[<-|[<-|[<-|[]]]]]; reflexivity.
  - intros H. unfold detect_currency. rewrite H. reflexivity.
  - intros Hg Hi He. unfold detect_currency. rewrite He, Hg, Hi.
    destruct (substring_of "$" text || substring_of "USD" text); reflexivity.
Qed.

Lemma detected_currency_is_valid_witness :
  check_currency (rt:=rt_iso)
    (set_field "currency" (VStr (detect_currency "Total: 1.234,56 EUR ($1,400.00)"))
       sample_invoice) sample_result = Ok sample_result /\
  detect_currency "Total: 1.234,56 EUR ($1,400.00)" = "EUR".
Proof.
  destruct (detected_currency_is_valid (rt:=rt_iso) "Total: 1.234,56 EUR ($1,400.00)"
              (set_field "currency" (VStr (detect_currency "Total: 1.234,56 EUR ($1,400.00)"))
                 sample_invoice) sample_result) as (H1 & _ & H2 & _).
  - reflexivity.
  - split; [exact H1|apply H2; reflexivity].
Defined.

(** ** Dates *)

Lemma is_digit_cases c :
  is_digit c = true ->
  c = "0"%char \/ c = "1"%char \/ c = "2"%char \/ c = "3"%char \/ c = "4"%char \/
  c = "5"%char \/ c = "6"%char \/ c = "7"%char \/ c = "8"%char \/ c = "9"%char.
Proof.
  destruct c as [[] [] [] [] [] [] [] []]; intros H; try discriminate H; tauto.
Qed.

Ltac digit_cases H :=
  apply is_digit_cases in H;
  destruct H as [->|[->|[->|[->|[->|[->|[->|[->|[->| ->]]]]]]]]].

Lemma first_match_one {A B} (k : A -> option B) x : first_match k [x] = k x.
Proof. simpl. destruct (k x); reflexivity. Qed.

Lemma first_match_none {A B} (k : A -> option B) l :
  (forall x, In x l -> k x = None) -> first_match k l = None.
Proof.
  induction l as [|x l IH]; intros H; simpl; [reflexivity|].
  rewrite (H x) by (left; reflexivity). apply IH. intros y Hy. apply H. right. exact Hy.
Qed.

Lemma match_lit c r rest f :
  match_format (Lit c :: rest) (String c r) f = match_format rest r f.
Proof.
  cbn [match_format alternatives]. rewrite Ascii.eqb_refl. rewrite first_match_one.
  destruct f as [[y m] d]. reflexivity.
Qed.

Lemma match_lit_other c x r rest f :
  Ascii.eqb x c = false -> match_format (Lit c :: rest) (String x r) f = None.
Proof. intros H. cbn [match_format alternatives]. rewrite H. reflexivity. Qed.

Lemma match_year a b c d r rest f :
  is_digit a = true -> is_digit b = true -> is_digit c = true -> is_digit d = true ->
  match_format (Year :: rest) (String a (String b (String c (String d r)))) f
  = match_format rest r (with_field Year (num4 a b c d) f).
Proof.
  intros Ha Hb Hc Hd. cbn [match_format alternatives]. rewrite Ha, Hb, Hc, Hd.
  cbn [andb]. rewrite first_match_one. reflexivity.
Qed.

Lemma match_year_none a b c r rest f :
  is_digit c = false ->
  match_format (Year :: rest) (String a (String b (String c r))) f = None.
Proof.
  intros Hc. cbn [match_format alternatives]. destruct r as [|d r]; [reflexivity|].
  rewrite Hc, andb_false_r. reflexivity.
Qed.

Lemma match_format_cons d rest s f :
  match_format (d :: rest) s f
  = first_match (fun alt => match_format rest (snd alt) (with_field d (fst alt) f))
      (alternatives d s).
Proof. reflexivity. Qed.

Lemma day_alternatives a b r :
  is_digit a = true -> is_digit b = true ->
  alternatives Day (String a (String b r))
  = ((if day_ok (num2 a b) then [(num2 a b, r)] else [])
     ++ (if digit_in 1 9 a then [(digit_val a, String b r)] else []))%list.
Proof. intros Ha Hb. digit_cases Ha; digit_cases Hb; reflexivity. Qed.

Lemma month_alternatives a b r :
  is_digit a = true -> is_digit b = true ->
  alternatives Month (String a (String b r))
  = ((if month_ok (num2 a b) then [(num2 a b, r)] else [])
     ++ (if digit_in 1 9 a then [(digit_val a, String b r)] else []))%list.
Proof. intros Ha Hb. digit_cases Ha; digit_cases Hb; reflexivity. Qed.

Lemma digit_not_other a c : is_digit a = true -> is_digit c = false -> Ascii.eqb a c = false.
Proof.
  intros Ha Hc. destruct (Ascii.eqb_spec a c) as [->|]; [congruence|reflexivity].
Qed.

(** A day or a month of two digits before a separator: the one-digit
    reading is tried and fails. *)
Lemma match_day sep a b r rest f :
  is_digit sep = false -> is_digit a = true -> is_digit b = true ->
  match_format (Day :: Lit sep :: rest) (String a (String b (String sep r))) f
  = if day_ok (num2 a b) then match_format rest r (with_field Day (num2 a b) f) else None.
Proof.
  intros Hs Ha Hb. rewrite match_format_cons, day_alternatives by assumption.
  destruct (day_ok (num2 a b)), (digit_in 1 9 a); cbn [app first_match fst snd];
    rewrite ?match_lit, ?(match_lit_other sep b) by (apply digit_not_other; assumption);
    try reflexivity; destruct (match_format rest r _); reflexivity.
Qed.

Lemma match_month sep a b r rest f :
  is_digit sep = false -> is_digit a = true -> is_digit b = true ->
  match_format (Month :: Lit sep :: rest) (String a (String b (String sep r))) f
  = if month_ok (num2 a b) then match_format rest r (with_field Month (num2 a b) f) else None.
Proof.
  intros Hs Ha Hb. rewrite match_format_cons, month_alternatives by assumption.
  destruct (month_ok (num2 a b)), (digit_in 1 9 a); cbn [app first_match fst snd];
    rewrite ?match_lit, ?(match_lit_other sep b) by (apply digit_not_other; assumption);
    try reflexivity; destruct (match_format rest r _); reflexivity.
Qed.

(** The same before a character that is not the separator of the
    format: no reading matches. *)
Lemma match_day_none sep a b x r rest f :
  is_digit a = true -> is_digit b = true ->
  Ascii.eqb b sep = false -> Ascii.eqb x sep = false ->
  match_format (Day :: Lit sep :: rest) (String a (String b (String x r))) f = None.
Proof.
  intros Ha Hb Hbs Hxs. rewrite match_format_cons, day_alternatives by assumption.
  destruct (day_ok (num2 a b)), (digit_in 1 9 a); cbn [app first_match fst snd];
    rewrite ?(match_lit_other sep x), ?(match_lit_other sep b) by assumption; reflexivity.
Qed.

Lemma match_month_none sep a b x r rest f :
  is_digit a = true -> is_digit b = true ->
  Ascii.eqb b sep = false -> Ascii.eqb x sep = false ->
  match_format (Month :: Lit sep :: rest) (String a (String b (String x r))) f = None.
Proof.
  intros Ha Hb Hbs Hxs. rewrite match_format_cons, month_alternatives by assumption.
  destruct (month_ok (num2 a b)), (digit_in 1 9 a); cbn [app first_match fst snd];
    rewrite ?(match_lit_other sep x), ?(match_lit_other sep b) by assumption; reflexivity.
Qed.

(** A day of two digits at the end of the string. *)
Lemma match_day_last a b f :
  is_digit a = true -> is_digit b = true ->
  match match_format [Day] (String a (String b EmptyString)) f with
  | Some (g, EmptyString) => Some g
  | _ => None
  end
  = if day_ok (num2 a b) then Some (with_field Day (num2 a b) f) else None.
Proof.
  intros Ha Hb. rewrite match_format_cons, day_alternatives by assumption.
  destruct (day_ok (num2 a b)), (digit_in 1 9 a); reflexivity.
Qed.

Lemma valid_date_fields y m d :
  valid_date y m d = true -> day_ok d = true /\ month_ok m = true.
Proof.
  unfold valid_date, day_ok, month_ok. intros H.
  repeat (apply andb_true_iff in H as [H ?]).
  assert (days_in_month y m <= 31)%N.
  { unfold days_in_month. repeat case_match; lia. }
  apply N.leb_le in H0, H1, H2, H3. 
  split; apply andb_true_iff; split; apply N.leb_le; lia.
Qed.

Lemma valid_or_not y m d :
  (if day_ok d then if month_ok m then iso_if_valid y m d else None else None)
  = iso_if_valid y m d.
Proof.
  unfold iso_if_valid. destruct (valid_date y m d) eqn:E.
  - destruct (valid_date_fields _ _ _ E) as [-> ->]. reflexivity.
  - destruct (day_ok d), (month_ok m); reflexivity.
Qed.

(** A text of ASCII characters other than whitespace is left as it is by
    [strip]. *)
Lemma no_space_lstrip s :
  str_all (fun c => is_ascii c && negb (is_space c)) s = true -> lstrip s = s.
Proof.
  destruct s as [|c s]; [reflexivity|]. cbn [str_all]. intros H.
  apply andb_true_iff in H as [Hc _]. apply andb_true_iff in Hc as [Ha Hc].
  apply negb_true_iff in Hc. apply lstrip_ascii; assumption.
Qed.

Lemma no_space_rstrip s :
  str_all (fun c => is_ascii c && negb (is_space c)) s = true -> rstrip s = s.
Proof.
  induction s as [|c s IH]; [reflexivity|]. cbn [str_all]. intros H.
  apply andb_true_iff in H as [Hc Hs]. apply andb_true_iff in Hc as [Ha Hc].
  apply negb_true_iff in Hc. rewrite rstrip_ascii, (IH Hs) by assumption. reflexivity.
Qed.

Lemma no_space_strip s :
  str_all (fun c => is_ascii c && negb (is_space c)) s = true -> strip s = s.
Proof.
  intros H. unfold strip. rewrite (no_space_lstrip s H). apply no_space_rstrip, H.
Qed.

Lemma digit_no_space c : is_digit c = true -> is_ascii c && negb (is_space c) = true.
Proof. intros H. digit_cases H; reflexivity. Qed.

Section Digits.
Variables a1 a2 b1 b2 y1 y2 y3 y4 : ascii.
Hypothesis Ha1 : is_digit a1 = true.
Hypothesis Ha2 : is_digit a2 = true.
Hypothesis Hb1 : is_digit b1 = true.
Hypothesis Hb2 : is_digit b2 = true.
Hypothesis Hy1 : is_digit y1 = true.
Hypothesis Hy2 : is_digit y2 = true.
Hypothesis Hy3 : is_digit y3 = true.
Hypothesis Hy4 : is_digit y4 = true.

Lemma strip_two_two_four sep :
  is_ascii sep = true -> is_space sep = false ->
  strip (two_two_four sep a1 a2 b1 b2 y1 y2 y3 y4) = two_two_four sep a1 a2 b1 b2 y1 y2 y3 y4.
Proof using Ha1 Ha2 Hb1 Hb2 Hy1 Hy2 Hy3 Hy4.
  intros Ha Hs. apply no_space_strip. unfold two_two_four. cbn [str_all].
  rewrite Ha, Hs, (digit_no_space a1), (digit_no_space a2), (digit_no_space b1),
    (digit_no_space b2), (digit_no_space y1), (digit_no_space y2), (digit_no_space y3),
    (digit_no_space y4) by assumption.
  reflexivity.
Qed.

Lemma strip_four_two_two :
  strip (four_two_two y1 y2 y3 y4 a1 a2 b1 b2) = four_two_two y1 y2 y3 y4 a1 a2 b1 b2.
Proof using Ha1 Ha2 Hb1 Hb2 Hy1 Hy2 Hy3 Hy4.
  apply no_space_strip. unfold four_two_two. cbn [str_all].
  rewrite (digit_no_space a1), (digit_no_space a2), (digit_no_space b1),
    (digit_no_space b2), (digit_no_space y1), (digit_no_space y2), (digit_no_space y3),
    (digit_no_space y4) by assumption.
  reflexivity.
Qed.

(** Day first, then the month. *)
Lemma strptime_day_month sep :
  is_digit sep = false ->
  isoformat <$> strptime (two_two_four sep a1 a2 b1 b2 y1 y2 y3 y4)
                  [Day; Lit sep; Month; Lit sep; Year]
  = iso_if_valid (num4 y1 y2 y3 y4) (num2 b1 b2) (num2 a1 a2).
Proof using Ha1 Ha2 Hb1 Hb2 Hy1 Hy2 Hy3 Hy4.
  intros Hs. unfold strptime, two_two_four.
  rewrite match_day by assumption. rewrite <- valid_or_not.
  destruct (day_ok (num2 a1 a2)); [|reflexivity].
  rewrite match_month by assumption.
  destruct (month_ok (num2 b1 b2)); [|reflexivity].
  rewrite match_year by assumption. cbn [match_format with_field].
  unfold iso_if_valid. destruct (valid_date _ _ _); reflexivity.
Qed.

(** Month first, then the day. *)
Lemma strptime_month_day sep :
  is_digit sep = false ->
  isoformat <$> strptime (two_two_four sep a1 a2 b1 b2 y1 y2 y3 y4)
                  [Month; Lit sep; Day; Lit sep; Year]
  = iso_if_valid (num4 y1 y2 y3 y4) (num2 a1 a2) (num2 b1 b2).
Proof using Ha1 Ha2 Hb1 Hb2 Hy1 Hy2 Hy3 Hy4.
  intros Hs. unfold strptime, two_two_four.
  rewrite match_month by assumption. rewrite <- valid_or_not.
  destruct (month_ok (num2 a1 a2)); [|destruct (day_ok _); reflexivity].
  rewrite match_day by assumption.
  destruct (day_ok (num2 b1 b2)); [|reflexivity].
  rewrite match_year by assumption. cbn [match_format with_field].
  unfold iso_if_valid. destruct (valid_date _ _ _); reflexivity.
Qed.

Lemma strptime_other_separator sep sep' d :
  (d = Day \/ d = Month) -> is_digit sep = false -> is_digit sep' = false ->
  Ascii.eqb sep sep' = false ->
  strptime (two_two_four sep a1 a2 b1 b2 y1 y2 y3 y4)
    [d; Lit sep'; match d with Day => Month | _ => Day end; Lit sep'; Year] = None.
Proof using Ha1 Ha2.
  intros Hd Hs Hs' Hne. unfold strptime, two_two_four.
  destruct Hd as [-> | ->].
  - rewrite match_day_none; auto using digit_not_other.
  - rewrite match_month_none; auto using digit_not_other.
Qed.

Lemma strptime_year_first sep :
  is_digit sep = false ->
  strptime (two_two_four sep a1 a2 b1 b2 y1 y2 y3 y4) [Year; Lit "-"; Month; Lit "-"; Day]
  = None.
Proof using Type.
  intros Hs. unfold strptime, two_two_four. rewrite match_year_none by exact Hs. reflexivity.
Qed.

Lemma parse_date_dotted :
  _parse_date (two_two_four "." a1 a2 b1 b2 y1 y2 y3 y4)
  = iso_if_valid (num4 y1 y2 y3 y4) (num2 b1 b2) (num2 a1 a2).
Proof using Ha1 Ha2 Hb1 Hb2 Hy1 Hy2 Hy3 Hy4.
  unfold _parse_date. rewrite strip_two_two_four by reflexivity.
  unfold formats. cbn [first_match].
  rewrite (strptime_day_month ".") by reflexivity.
  destruct (iso_if_valid _ _ _) as [t|]; [reflexivity|].
  rewrite (strptime_other_separator "." "/" Day) by (auto; reflexivity).
  rewrite (strptime_other_separator "." "/" Month) by (auto; reflexivity).
  rewrite strptime_year_first by reflexivity. reflexivity.
Qed.

(** X16: [_parse_date] reads DD/MM/YYYY day first: a string of that shape
    gives the date with the first number as the day when that is a
    calendar date, and only otherwise the date with the first number as
    the month (so 03/04/2024 is the third of April). *)
Theorem parse_date_day_first :
  _parse_date (two_two_four "/" a1 a2 b1 b2 y1 y2 y3 y4)
  = match iso_if_valid (num4 y1 y2 y3 y4) (num2 b1 b2) (num2 a1 a2) with
    | Some t => Some t
    | None => iso_if_valid (num4 y1 y2 y3 y4) (num2 a1 a2) (num2 b1 b2)
    end.
Proof using Ha1 Ha2 Hb1 Hb2 Hy1 Hy2 Hy3 Hy4.
  unfold _parse_date. rewrite strip_two_two_four by reflexivity.
  unfold formats. cbn [first_match].
  rewrite (strptime_other_separator "/" "." Day) by (auto; reflexivity).
  cbn [fmap option_fmap option_map].
  rewrite (strptime_day_month "/") by reflexivity.
  destruct (iso_if_valid _ (num2 b1 b2) _) as [t|]; [reflexivity|].
  rewrite (strptime_month_day "/") by reflexivity.
  destruct (iso_if_valid _ _ _) as [t|]; [reflexivity|].
  rewrite strptime_year_first by reflexivity. reflexivity.
Qed.

Lemma parse_date_iso :
  _parse_date (four_two_two y1 y2 y3 y4 a1 a2 b1 b2)
  = iso_if_valid (num4 y1 y2 y3 y4) (num2 a1 a2) (num2 b1 b2).
Proof using Ha1 Ha2 Hb1 Hb2 Hy1 Hy2 Hy3 Hy4.
  unfold _parse_date. rewrite strip_four_two_two.
  unfold formats, four_two_two. cbn [first_match].
  assert (H1 : forall sep d, is_digit sep = false ->
            strptime
              (String y1 (String y2 (String y3 (String y4 (String "-" (String a1 (String a2
                 (String "-" (String b1 (String b2 EmptyString))))))))))
              [d; Lit sep; match d with Day => Month | _ => Day end; Lit sep; Year] = None
            \/ (d <> Day /\ d <> Month)).
  { intros sep d Hs. destruct d; [left|left|right|right]; try (split; discriminate).
    - unfold strptime. rewrite match_day_none; auto using digit_not_other.
    - unfold strptime. rewrite match_month_none; auto using digit_not_other. }
  destruct (H1 "."%char Day eq_refl) as [-> |[? _]]; [|congruence].
  destruct (H1 "/"%char Day eq_refl) as [-> |[? _]]; [|congruence].
  destruct (H1 "/"%char Month eq_refl) as [-> |[_ ?]]; [|congruence].
  cbn [fmap option_fmap option_map].
  unfold strptime. rewrite match_year by assumption. rewrite match_lit.
  rewrite match_month by (try reflexivity; assumption).
  rewrite <- valid_or_not.
  destruct (month_ok (num2 a1 a2)); [|destruct (day_ok _); reflexivity].
  pose proof (match_day_last b1 b2
                (with_field Month (num2 a1 a2)
                   (with_field (Lit "-") 0%N (with_field Year (num4 y1 y2 y3 y4) (1900, 1, 1)%N)))
                Hb1 Hb2) as Hlast.
  cbn [with_field] in *.
  destruct (match_format [Day] (String b1 (String b2 EmptyString)) _) as [[g rest]|].
  - destruct rest.
    + destruct (day_ok (num2 b1 b2)); [|discriminate]. injection Hlast as ->.
      unfold iso_if_valid. destruct (valid_date _ _ _); reflexivity.
    + destruct (day_ok (num2 b1 b2)); [discriminate|]. destruct g as [[? ?] ?]. reflexivity.
  - destruct (day_ok (num2 b1 b2)); [discriminate|]. reflexivity.
Qed.

End Digits.

(** *** What [_parse_date] returns is an ISO date *)

Lemma pad0_two n :
  (n < 100)%N ->
  exists a b, pad0 2 n = String a (String b EmptyString) /\
              is_digit a = true /\ is_digit b = true /\ num2 a b = n.
Proof.
  intros Hn.
  assert (H : forallb (fun k =>
            match pad0 2 (N.of_nat k) with
            | String a (String b EmptyString) =>
                is_digit a && is_digit b && (num2 a b =? N.of_nat k)%N
            | _ => false
            end) (seq 0 100) = true) by (vm_compute; reflexivity).
  rewrite forallb_forall in H. specialize (H (N.to_nat n)).
  rewrite N2Nat.id in H.
  assert (Hin : In (N.to_nat n) (seq 0 100)) by (apply in_seq; lia).
  specialize (H Hin).
  destruct (pad0 2 n) as [|a [|b [|c r]]]; try discriminate H.
  apply andb_true_iff in H as [H H3]. apply andb_true_iff in H as [H1 H2].
  apply N.eqb_eq in H3. exists a, b. repeat split; assumption.
Qed.

Lemma pad0_four n :
  (n < 10000)%N ->
  exists a b c d, pad0 4 n = String a (String b (String c (String d EmptyString))) /\
                  is_digit a = true /\ is_digit b = true /\ is_digit c = true /\
                  is_digit d = true /\ num4 a b c d = n.
Proof.
  intros Hn.
  assert (H : forallb (fun k =>
            match pad0 4 (N.of_nat k) with
            | String a (String b (String c (String d EmptyString))) =>
                is_digit a && is_digit b && is_digit c && is_digit d
                && (num4 a b c d =? N.of_nat k)%N
            | _ => false
            end) (seq 0 (100 * 100)) = true) by (vm_compute; reflexivity).
  rewrite forallb_forall in H. specialize (H (N.to_nat n)).
  rewrite N2Nat.id in H.
  assert (Hin : In (N.to_nat n) (seq 0 (100 * 100))) by (apply in_seq; lia).
  specialize (H Hin).
  destruct (pad0 4 n) as [|a [|b [|c [|d [|x r]]]]]; try discriminate H.
  do 4 (apply andb_true_iff in H as [H ?]).
  match goal with E : (_ =? _)%N = true |- _ => apply N.eqb_eq in E end.
  exists a, b, c, d. repeat split; assumption.
Qed.

(** The ISO string of a calendar date, character by character. *)
Lemma isoformat_chars y m d :
  valid_date y m d = true ->
  exists y1 y2 y3 y4 m1 m2 d1 d2,
    isoformat (mk_date y m d) = four_two_two y1 y2 y3 y4 m1 m2 d1 d2 /\
    is_digit y1 = true /\ is_digit y2 = true /\ is_digit y3 = true /\ is_digit y4 = true /\
    is_digit m1 = true /\ is_digit m2 = true /\ is_digit d1 = true /\ is_digit d2 = true /\
    num4 y1 y2 y3 y4 = y /\ num2 m1 m2 = m /\ num2 d1 d2 = d.
Proof.
  intros Hv. destruct (valid_date_fields _ _ _ Hv) as [Hd Hm].
  unfold day_ok in Hd. unfold month_ok in Hm.
  apply andb_true_iff in Hd as [_ Hd]. apply andb_true_iff in Hm as [_ Hm].
  apply N.leb_le in Hd, Hm.
  assert (Hy : (y <= 9999)%N).
  { unfold valid_date in Hv. repeat (apply andb_true_iff in Hv as [Hv ?]).
    match goal with E : (y <=? 9999)%N = true |- _ => apply N.leb_le in E; exact E end. }
  destruct (pad0_four y ltac:(lia)) as (y1 & y2 & y3 & y4 & Ey & ? & ? & ? & ? & ?).
  destruct (pad0_two m ltac:(lia)) as (m1 & m2 & Em & ? & ? & ?).
  destruct (pad0_two d ltac:(lia)) as (d1 & d2 & Ed & ? & ? & ?).
  exists y1, y2, y3, y4, m1, m2, d1, d2.
  split; [|repeat split; assumption].
  unfold isoformat. cbn [year month day]. rewrite Ey, Em, Ed. reflexivity.
Qed.

Lemma two_digits_num2 a b :
  is_digit a = true -> is_digit b = true -> two_digits a b = Some (num2 a b).
Proof. intros Ha Hb. unfold two_digits. rewrite Ha, Hb. reflexivity. Qed.

Lemma iso_date_isoformat y m d :
  valid_date y m d = true -> iso_date (isoformat (mk_date y m d)) = Some (mk_date y m d).
Proof.
  intros Hv.
  destruct (isoformat_chars y m d Hv)
    as (y1 & y2 & y3 & y4 & m1 & m2 & d1 & d2 & -> & ? & ? & ? & ? & ? & ? & ? & ? & Hy & Hm & Hd).
  unfold four_two_two, iso_date.
  rewrite !two_digits_num2 by assumption.
  assert (Hyy : (num2 y1 y2 * 100 + num2 y3 y4 = y)%N) by (unfold num2, num4 in *; lia).
  rewrite Hyy, Hm, Hd.
  unfold valid_date in Hv. repeat (apply andb_true_iff in Hv as [Hv ?]).
  repeat match goal with E : _ = true |- _ => rewrite E; clear E end. reflexivity.
Qed.

Lemma strptime_valid s fmt x :
  strptime s fmt = Some x -> valid_date (year x) (month x) (day x) = true.
Proof.
  unfold strptime. destruct (match_format fmt s _) as [[[[y m] d] rest]|]; [|discriminate].
  destruct rest; [|discriminate].
  destruct (valid_date y m d) eqn:E; [|discriminate]. intros [= <-]. exact E.
Qed.

Lemma _parse_date_valid s t :
  _parse_date s = Some t ->
  exists y m d, valid_date y m d = true /\ t = isoformat (mk_date y m d).
Proof.
  unfold _parse_date.
  assert (H : forall fmts,
            first_match (fun fmt => isoformat <$> strptime (strip s) fmt) fmts = Some t ->
            exists y m d, valid_date y m d = true /\ t = isoformat (mk_date y m d)).
  { induction fmts as [|fmt fmts IH]; simpl; [discriminate|].
    destruct (strptime (strip s) fmt) as [x|] eqn:E; simpl; [|exact IH].
    intros [= <-]. exists (year x), (month x), (day x).
    split; [eapply strptime_valid; exact E|]. destruct x; reflexivity. }
  apply H.
Qed.

(** X17: Whatever [_parse_date] returns is the ISO string YYYY-MM-DD of a
    calendar date (year 1 to 9999): it reads back as that date, and
    [_parse_date] leaves it unchanged. *)
Theorem parse_date_gives_iso s t :
  _parse_date s = Some t ->
  exists y m d,
    valid_date y m d = true /\ t = isoformat (mk_date y m d) /\
    iso_date t = Some (mk_date y m d) /\ _parse_date t = Some t.
Proof.
  intros H. destruct (_parse_date_valid s t H) as (y & m & d & Hv & ->).
  exists y, m, d. split; [exact Hv|]. split; [reflexivity|].
  split; [apply iso_date_isoformat, Hv|].
  destruct (isoformat_chars y m d Hv)
    as (y1 & y2 & y3 & y4 & m1 & m2 & d1 & d2 & E & ? & ? & ? & ? & ? & ? & ? & ? & Hy & Hm & Hd).
  rewrite E at 1. rewrite parse_date_iso by assumption.
  rewrite Hy, Hm, Hd. unfold iso_if_valid. rewrite Hv. reflexivity.
Qed.

Lemma parse_date_gives_iso_witness :
  exists y m d,
    valid_date y m d = true /\ "2024-05-22" = isoformat (mk_date y m d) /\
    iso_date "2024-05-22" = Some (mk_date y m d) /\ _parse_date "2024-05-22" = Some "2024-05-22".
Proof.
  apply (parse_date_gives_iso " 22.05.2024 " "2024-05-22"). vm_compute. reflexivity.
Defined.

(** X18: On the strings that the extractor's patterns find, [_parse_date]
    reads DD.MM.YYYY as day, month, year and YYYY-MM-DD as year, month,
    day: the result is the ISO string when these are a calendar date and
    None otherwise (no other format rescues it). *)
Theorem parse_date_european a1 a2 b1 b2 y1 y2 y3 y4 :
  is_digit a1 = true -> is_digit a2 = true -> is_digit b1 = true -> is_digit b2 = true ->
  is_digit y1 = true -> is_digit y2 = true -> is_digit y3 = true -> is_digit y4 = true ->
  _parse_date (two_two_four "." a1 a2 b1 b2 y1 y2 y3 y4)
  = iso_if_valid (num4 y1 y2 y3 y4) (num2 b1 b2) (num2 a1 a2) /\
  _parse_date (four_two_two y1 y2 y3 y4 b1 b2 a1 a2)
  = iso_if_valid (num4 y1 y2 y3 y4) (num2 b1 b2) (num2 a1 a2).
Proof.
  intros. split; [apply parse_date_dotted|apply parse_date_iso]; assumption.
Qed.

Lemma parse_date_european_witness :
  _parse_date (two_two_four "." "2" "2" "0" "5" "2" "0" "2" "4")
  = iso_if_valid (num4 "2" "0" "2" "4") (num2 "0" "5") (num2 "2" "2") /\
  _parse_date (four_two_two "2" "0" "2" "4" "0" "5" "2" "2")
  = iso_if_valid (num4 "2" "0" "2" "4") (num2 "0" "5") (num2 "2" "2").
Proof.
  apply (parse_date_european "2" "2" "0" "5" "2" "0" "2" "4"); reflexivity.
Defined.

Lemma parse_date_day_first_witness :
  _parse_date (two_two_four "/" "0" "3" "0" "4" "2" "0" "2" "4") = Some "2024-04-03" /\
  _parse_date (two_two_four "/" "0" "5" "2" "2" "2" "0" "2" "4") = Some "2024-05-22".
Proof.
  split.
  - rewrite (parse_date_day_first "0" "3" "0" "4" "2" "0" "2" "4") by reflexivity.
    vm_compute. reflexivity.
  - rewrite (parse_date_day_first "0" "5" "2" "2" "2" "0" "2" "4") by reflexivity.
    vm_compute. reflexivity.
Defined.

(** ** The amounts *)

Lemma amount_ge_trans : Transitive amount_ge.
Proof. intros a b c Hab Hbc. unfold amount_ge in *. eapply Qle_trans; eauto. Qed.

Lemma amount_ge_total : Total amount_ge.
Proof.
  intros a b. unfold amount_ge.
  destruct (Qlt_le_dec (amount_value a) (amount_value b)) as [H|H];
    [right; apply Qlt_le_weak, H|left; exact H].
Qed.

Lemma sorted_amounts amounts :
  StronglySorted amount_ge (merge_sort amount_ge (parse_amounts amounts)) /\
  merge_sort amount_ge (parse_amounts amounts) ≡ₚ parse_amounts amounts.
Proof.
  pose proof amount_ge_trans. pose proof amount_ge_total.
  split; [apply StronglySorted_merge_sort; apply _|apply merge_sort_Permutation].
Qed.

(** X19: The amounts that the regex fallback assigns: the gross total is a
    parsed amount that no parsed amount exceeds, the net total is at most
    the gross total and the tax amount at most the net total; the gross
    total is missing exactly when no amount parses, the net total when
    fewer than two do, the tax amount when fewer than three do. *)
Theorem largest_amount_is_gross amounts gross net tax :
  assign_amounts amounts = (gross, net, tax) ->
  (forall g, gross = Some g ->
     In g (parse_amounts amounts) /\
     forall a, In a (parse_amounts amounts) -> (amount_value a <= amount_value g)%Q) /\
  (forall g n, gross = Some g -> net = Some n -> (amount_value n <= amount_value g)%Q) /\
  (forall n t, net = Some n -> tax = Some t -> (amount_value t <= amount_value n)%Q) /\
  (gross = None <-> parse_amounts amounts = []) /\
  (net = None <-> (length (parse_amounts amounts) < 2)%nat) /\
  (tax = None <-> (length (parse_amounts amounts) < 3)%nat).
Proof.
  unfold assign_amounts. destruct (sorted_amounts amounts) as [Hs Hp].
  set (sorted := merge_sort amount_ge (parse_amounts amounts)) in *.
  intros [= <- <- <-].
  pose proof (Permutation_length Hp) as Hlen.
  split; [|split; [|split; [|split; [|split]]]].
  - intros g Hg. destruct sorted as [|x l]; [discriminate|]. injection Hg as ->.
    split.
    + apply list_elem_of_In. rewrite <- Hp. left.
    + intros a Ha. apply list_elem_of_In in Ha. rewrite <- Hp in Ha.
      apply StronglySorted_cons in Hs as [Hall _].
      apply elem_of_cons in Ha as [->|Ha]; [apply Qle_refl|].
      rewrite Forall_forall in Hall. apply (Hall a Ha).
  - intros g n Hg Hn. destruct sorted as [|x [|y l]]; try discriminate.
    injection Hg as ->. injection Hn as ->.
    apply StronglySorted_cons in Hs as [Hall _].
    rewrite Forall_forall in Hall. apply (Hall n). left.
  - intros n t Hn Ht. destruct sorted as [|x [|y [|z l]]]; try discriminate.
    injection Hn as ->. injection Ht as ->.
    apply StronglySorted_cons in Hs as [_ Hs].
    apply StronglySorted_cons in Hs as [Hall _].
    rewrite Forall_forall in Hall. apply (Hall t). left.
  - destruct sorted as [|x l]; simpl in *.
    + split; [intros _|reflexivity]. destruct (parse_amounts amounts); [reflexivity|discriminate].
    + split; [discriminate|]. intros E. rewrite E in Hlen. discriminate.
  - destruct sorted as [|x [|y l]]; simpl in *; split; intros; try lia; try reflexivity;
      try discriminate.
  - destruct sorted as [|x [|y [|z l]]]; simpl in *; split; intros; try lia; try reflexivity;
      try discriminate.
Qed.

Lemma largest_amount_is_gross_witness :
  (amount_value (100000%N, 2%nat) <= amount_value (123456%N, 2%nat))%Q.
Proof.
  refine (proj1 (proj2 (largest_amount_is_gross ["234,56"; "1.000,00"; "1.234,56"]
                          (Some (123456%N, 2%nat)) (Some (100000%N, 2%nat))
                          (Some (23456%N, 2%nat)) _))
            (123456%N, 2%nat) (100000%N, 2%nat) eq_refl eq_refl).
  vm_compute. reflexivity.
Defined.

(** * The database *)

Import Database.

(** ** The table of invoices *)

Lemma count_positive n s d l :
  (0 <? length (filter (fun r => same_key n s d r = true) l))%nat = existsb (same_key n s d) l.
Proof.
  induction l as [|r l IH]; [reflexivity|]. rewrite filter_cons. simpl existsb.
  destruct (same_key n s d r) eqn:E.
  - rewrite decide_True by reflexivity. reflexivity.
  - rewrite decide_False by discriminate. exact IH.
Qed.

Lemma find_existsb {A} (p : A -> bool) l :
  existsb p l = match List.find p l with Some _ => true | None => false end.
Proof. induction l as [|x l IH]; simpl; [reflexivity|]. destruct (p x); [reflexivity|exact IH]. Qed.

Lemma same_key_refl n s d i : same_key n s d (mk_row i n s d) = true.
Proof. unfold same_key. simpl. rewrite !String.eqb_refl. reflexivity. Qed.

Lemma find_app_new {A} (p : A -> bool) l x :
  existsb p l = false -> p x = true -> List.find p (l ++ [x]) = Some x.
Proof.
  induction l as [|y l IH]; simpl; intros Hl Hx; [rewrite Hx; reflexivity|].
  apply orb_false_iff in Hl as [Hy Hl]. rewrite Hy. apply IH; assumption.
Qed.

Lemma find_same_key n s d l r :
  List.find (same_key n s d) l = Some r ->
  row_number r = n /\ row_seller r = s /\ row_date r = d.
Proof.
  intros H. apply find_some in H as [_ H]. unfold same_key in H.
  apply andb_true_iff in H as [H H3]. apply andb_true_iff in H as [H1 H2].
  apply String.eqb_eq in H1, H2, H3. auto.
Qed.

(** [save_invoice] in terms of the texts of the four NOT NULL columns. *)
Lemma save_invoice_eq sq t inv :
  save_invoice sq t inv
  = if storable inv then
      let existing :=
        from_option id (-1)
          (select_id (text_of sq inv "invoice_number") (text_of sq inv "seller_name")
             (text_of sq inv "invoice_date") t) in
      match text_of sq inv "invoice_number", text_of sq inv "invoice_date",
            text_of sq inv "seller_name", text_of sq inv "buyer_name" with
      | Some n, Some d, Some s, Some _ =>
          if existsb (same_key n s d) (rows t) then (existing, t)
          else (last_id t + 1,
                mk_table (rows t ++ [mk_row (last_id t + 1) n s d]) (last_id t + 1))
      | _, _, _, _ => (existing, t)
      end
    else (-1, t).
Proof.
  unfold save_invoice, storable, text_of, columns. cbn [forallb].
  destruct (json_ok (VDict inv)); [|reflexivity]. simpl negb. cbv iota.
  destruct (bind (get "invoice_number" inv)) as [bn|]; [|reflexivity].
  destruct (bind (get "invoice_date" inv)) as [bd|]; [|reflexivity].
  destruct (bind (get "seller_name" inv)) as [bs|]; [|reflexivity].
  destruct (bind (get "buyer_name" inv)) as [bb|]; [|reflexivity].
  destruct (bind (get "currency" inv)); [|reflexivity].
  destruct (bind (get "net_total" inv)); [|reflexivity].
  destruct (bind (get "tax_amount" inv)); [|reflexivity].
  destruct (bind (get "gross_total" inv)); reflexivity.
Qed.

Lemma check_duplicate_eq sq t inv :
  check_duplicate sq t (get "invoice_number" inv) (get "seller_name" inv)
    (get "invoice_date" inv)
  = match text_of sq inv "invoice_number", text_of sq inv "seller_name",
          text_of sq inv "invoice_date" with
    | Some n, Some s, Some d => existsb (same_key n s d) (rows t)
    | _, _, _ => false
    end.
Proof.
  unfold check_duplicate, text_of.
  destruct (bind (get "invoice_number" inv)) as [bn|]; [|reflexivity].
  destruct (bind (get "seller_name" inv)) as [bs|];
    [|simpl; destruct (as_text sq bn); reflexivity].
  destruct (bind (get "invoice_date" inv)) as [bd|];
    [|simpl; destruct (as_text sq bn), (as_text sq bs); reflexivity].
  simpl. destruct (as_text sq bn), (as_text sq bs), (as_text sq bd); try reflexivity.
  apply count_positive.
Qed.

Lemma save_invoice_round_trip sq t inv i t' :
  save_invoice sq t inv = (i, t') -> 0 < i ->
  check_duplicate sq t' (get "invoice_number" inv) (get "seller_name" inv)
    (get "invoice_date" inv) = true /\
  save_invoice sq t' inv = (i, t') /\
  (t' = t \/ exists r, t' = mk_table (rows t ++ [r]) i /\ row_id r = i /\ i = last_id t + 1).
Proof.
  rewrite !save_invoice_eq, check_duplicate_eq.
  destruct (storable inv); cbv iota zeta; [|intros H; injection H; lia].
  unfold select_id.
  destruct (text_of sq inv "invoice_number") as [n|]; cbv iota; [|intros H; injection H; lia].
  destruct (text_of sq inv "invoice_date") as [d|]; cbv iota;
    [|destruct (text_of sq inv "seller_name"); cbv iota; intros H; injection H; lia].
  destruct (text_of sq inv "seller_name") as [s|]; cbv iota; [|intros H; injection H; lia].
  assert (Hexisting : forall b : bool,
    (if b then (from_option id (-1) (row_id <$> List.find (same_key n s d) (rows t)), t)
     else (from_option id (-1) (row_id <$> List.find (same_key n s d) (rows t)), t)) = (i, t') ->
    0 < i ->
    existsb (same_key n s d) (rows t') = true /\
    (if existsb (same_key n s d) (rows t')
     then (from_option id (-1) (row_id <$> List.find (same_key n s d) (rows t')), t')
     else (last_id t' + 1,
           mk_table (rows t' ++ [mk_row (last_id t' + 1) n s d]) (last_id t' + 1))) = (i, t') /\
    (t' = t \/ exists r, t' = mk_table (rows t ++ [r]) i /\ row_id r = i /\ i = last_id t + 1)).
  { intros b Hb Hi. assert (Hb' : (from_option id (-1)
        (row_id <$> List.find (same_key n s d) (rows t)), t) = (i, t')) by (destruct b; exact Hb).
    injection Hb' as Hid <-. rewrite find_existsb.
    destruct (List.find (same_key n s d) (rows t)) as [r|]; simpl in Hid; [|lia].
    simpl. rewrite Hid. auto. }
  destruct (text_of sq inv "buyer_name") as [b|].
  - destruct (existsb (same_key n s d) (rows t)) eqn:Ee.
    + intros H Hi. destruct (Hexisting true H Hi) as (H1 & H2 & H3). rewrite H1 in *. auto.
    + intros [= <- <-] Hi. simpl rows.
      rewrite existsb_app. simpl existsb. rewrite same_key_refl, orb_true_r.
      rewrite (find_app_new _ _ _ Ee (same_key_refl n s d _)). simpl.
      split; [reflexivity|]. split; [reflexivity|]. right. eexists.
      split; [reflexivity|]. split; reflexivity.
  - intros H Hi. destruct (Hexisting true H Hi) as (H1 & H2 & H3).
    split; [exact H1|]. split; [|exact H3].
    rewrite H1 in H2. exact H2.
Qed.

(** X20: When [save_invoice] returns a positive id, [check_duplicate] on the
    record's number, seller and date answers true afterwards, saving the
    same record again returns the same id and changes nothing, and the
    first call either left the table as it was or appended one row, whose
    id is one above the highest id given before. *)
Theorem saved_invoice_is_a_duplicate sq t inv i t' :
  save_invoice sq t inv = (i, t') -> 0 < i ->
  check_duplicate sq t' (get "invoice_number" inv) (get "seller_name" inv)
    (get "invoice_date" inv) = true /\
  save_invoice sq t' inv = (i, t') /\
  (t' = t \/ exists r, t' = mk_table (rows t ++ [r]) i /\ row_id r = i /\ i = last_id t + 1).
Proof. apply save_invoice_round_trip. Qed.

Lemma saved_invoice_is_a_duplicate_witness :
  check_duplicate (mk_engine fl_repr)
    (mk_table [mk_row 1 "INV-001" "ABC Corp" "2024-01-15"] 1)
    (get "invoice_number" sample_invoice) (get "seller_name" sample_invoice)
    (get "invoice_date" sample_invoice) = true.
Proof.
  refine (proj1 (saved_invoice_is_a_duplicate (mk_engine fl_repr) empty sample_invoice 1
                   (mk_table [mk_row 1 "INV-001" "ABC Corp" "2024-01-15"] 1) _ _)).
  - vm_compute. reflexivity.
  - lia.
Defined.

(** *** The constraints *)

Lemma existsb_key n s d l :
  existsb (same_key n s d) l = false -> ~ In (n, s, d) (map key l).
Proof.
  induction l as [|r l IH]; simpl; [tauto|]. intros H.
  apply orb_false_iff in H as [Hr Hl]. intros [E|Hin]; [|exact (IH Hl Hin)].
  unfold key in E. injection E as E1 E2 E3. unfold same_key in Hr.
  rewrite E1, E2, E3, !String.eqb_refl in Hr. discriminate.
Qed.

(** X21: [save_invoice] keeps the table's constraints (positive ids, none
    above the last one given, no id twice, no number, seller and date
    twice), never lowers the last id and appends at most one row without
    touching the others; [clear_all_data] and the empty table satisfy the
    constraints too. *)
Theorem save_invoice_keeps_constraints sq t inv :
  consistent t ->
  consistent (snd (save_invoice sq t inv)) /\
  last_id t <= last_id (snd (save_invoice sq t inv)) /\
  (exists new, rows (snd (save_invoice sq t inv)) = (rows t ++ new)%list /\
               (length new <= 1)%nat) /\
  consistent (clear_all_data t) /\ consistent empty.
Proof.
  intros [H0 Hr Hi Hk].
  assert (Hsame : consistent t) by (constructor; assumption).
  assert (Hold : consistent t /\ last_id t <= last_id t /\
                 exists new, rows t = (rows t ++ new)%list /\ (length new <= 1)%nat).
  { split; [exact Hsame|]. split; [lia|]. exists []. rewrite app_nil_r. simpl. auto. }
  assert (Hclear : consistent (clear_all_data t) /\ consistent empty).
  { split; constructor; simpl; first [exact H0 | lia | constructor]. }
  cut (consistent (snd (save_invoice sq t inv)) /\
       last_id t <= last_id (snd (save_invoice sq t inv)) /\
       exists new, rows (snd (save_invoice sq t inv)) = (rows t ++ new)%list /\
                   (length new <= 1)%nat); [tauto|].
  rewrite save_invoice_eq.
  destruct (storable inv); cbv iota zeta; [|apply Hold].
  destruct (text_of sq inv "invoice_number") as [n|]; cbv iota; [|apply Hold].
  destruct (text_of sq inv "invoice_date") as [d|]; cbv iota; [|apply Hold].
  destruct (text_of sq inv "seller_name") as [s|]; cbv iota; [|apply Hold].
  destruct (text_of sq inv "buyer_name") as [b|]; cbv iota; [|apply Hold].
  destruct (existsb (same_key n s d) (rows t)) eqn:Ee; [apply Hold|].
  split; [|split].
  - constructor; simpl.
    + lia.
    + apply Forall_app. split.
      * eapply Forall_impl; [exact Hr|]. simpl. intros r Hrr. lia.
      * constructor; [simpl; lia|constructor].
    + rewrite map_app. simpl. apply NoDup_app. split; [exact Hi|]. split.
      * intros x Hx Hnew. apply list_elem_of_In in Hx.
        apply list_elem_of_singleton in Hnew. subst x.
        apply in_map_iff in Hx as (r & Hid & Hin).
        rewrite Forall_forall in Hr. apply list_elem_of_In, Hr in Hin. lia.
      * apply NoDup_singleton.
    + rewrite map_app. simpl. apply NoDup_app. split; [exact Hk|]. split.
      * intros x Hx Hnew. apply list_elem_of_In in Hx.
        apply list_elem_of_singleton in Hnew. subst x.
        exact (existsb_key _ _ _ _ Ee Hx).
      * apply NoDup_singleton.
  - simpl. lia.
  - simpl. exists [mk_row (last_id t + 1) n s d]. split; [reflexivity|simpl; lia].
Qed.

Lemma save_invoice_keeps_constraints_witness :
  consistent (snd (save_invoice (mk_engine fl_repr) empty sample_invoice)).
Proof.
  refine (proj1 (save_invoice_keeps_constraints (mk_engine fl_repr) empty sample_invoice _)).
  constructor; simpl; [lia|constructor|constructor|constructor].
Defined.

(** *** Records that are not stored *)

Lemma text_of_none sq inv f : get f inv = VNone -> text_of sq inv f = None.
Proof. intros H. unfold text_of. rewrite H. reflexivity. Qed.

(** X22: A record whose invoice number, invoice date, seller name or buyer
    name is None is never stored: the table is unchanged; unless the
    missing field is the buyer name, [save_invoice] returns -1 and
    [check_duplicate] answers false for the record; the extractor's empty
    record is answered with -1. *)
Theorem incomplete_invoice_is_not_saved sq t inv f :
  In f ["invoice_number"; "invoice_date"; "seller_name"; "buyer_name"] ->
  get f inv = VNone ->
  snd (save_invoice sq t inv) = t /\
  (f <> "buyer_name" ->
   fst (save_invoice sq t inv) = -1 /\
   check_duplicate sq t (get "invoice_number" inv) (get "seller_name" inv)
     (get "invoice_date" inv) = false) /\
  (forall filename, save_invoice sq t (ExtractorFields._empty_invoice filename) = (-1, t)).
Proof.
  intros Hf Hnone. pose proof (text_of_none sq inv f Hnone) as Ht.
  rewrite save_invoice_eq, check_duplicate_eq. unfold select_id.
  split; [|split; [|reflexivity]].
  - destruct (storable inv); [|reflexivity]. cbv zeta.
    simpl in Hf. destruct Hf as [<-|[<-|[<-|[<-|[]]]]]; rewrite Ht;
      repeat match goal with |- context [match ?x with _ => _ end] => destruct x end;
      reflexivity.
  - intros Hb. simpl in Hf. destruct Hf as [<-|[<-|[<-|[<-|[]]]]]; try contradiction;
      rewrite Ht; (split;
      [destruct (storable inv); [|reflexivity]; cbv zeta;
       repeat match goal with |- context [match ?x with _ => _ end] => destruct x end;
       reflexivity
      |repeat match goal with |- context [match ?x with _ => _ end] => destruct x end;
       reflexivity]).
Qed.

Lemma incomplete_invoice_is_not_saved_witness :
  snd (save_invoice (mk_engine fl_repr) empty (set_field "seller_name" VNone sample_invoice))
  = empty.
Proof.
  refine (proj1 (incomplete_invoice_is_not_saved (mk_engine fl_repr) empty
                   (set_field "seller_name" VNone sample_invoice) "seller_name" _ _)).
  - simpl. tauto.
  - reflexivity.
Defined.

(** *** A stored invoice, validated again *)

Lemma check_duplicate_empty sq number seller date :
  Database.check_duplicate sq empty number seller date = false.
Proof.
  unfold Database.check_duplicate.
  destruct (bind number) as [bn|]; [|reflexivity].
  destruct (bind seller) as [bs|]; [|reflexivity].
  destruct (bind date) as [bd|]; [|reflexivity].
  destruct (as_text sq bn), (as_text sq bs), (as_text sq bd); reflexivity.
Qed.

(** X23: A record with a non-empty number, seller and date (strings) that
    [save_invoice] has stored with a positive id is flagged when it is
    validated against the table afterwards: the warnings hold "Duplicate
    invoice detected: number from seller on date"; validated against an
    empty table, no record gets a duplicate warning. *)
Theorem stored_invoice_is_flagged rt sq t inv i t' day number seller date r :
  save_invoice sq t inv = (i, t') -> 0 < i ->
  get "invoice_number" inv = VStr number -> number <> EmptyString ->
  get "seller_name" inv = VStr seller -> seller <> EmptyString ->
  get "invoice_date" inv = VStr date -> date <> EmptyString ->
  validate rt (env_of sq t' day) inv = Ok r ->
  In ("Duplicate invoice detected: " +:+ number +:+ " from " +:+ seller +:+ " on " +:+ date)
     (warnings r) /\
  (forall r0 m, validate rt (env_of sq empty day) inv = Ok r0 ->
                ~ In ("Duplicate invoice detected: " +:+ m) (warnings r0)).
Proof.
  intros Hs Hi Hn Hnn Hse Hsn Hd Hdn Hv.
  destruct (save_invoice_round_trip sq t inv i t' Hs Hi) as (Hdup & _).
  split.
  - apply (validate_duplicate_finding rt (env_of sq t' day) inv r _ Hv).
    unfold duplicate_finding. rewrite Hn, Hse, Hd in *.
    destruct number; [contradiction|]. destruct seller; [contradiction|].
    destruct date; [contradiction|]. simpl truthy. simpl andb. cbv iota.
    cbn [env_of Validator.check_duplicate py_str]. rewrite Hdup. reflexivity.
  - intros r0 m Hv0 Hin.
    apply (validate_duplicate_finding rt (env_of sq empty day) inv r0 _ Hv0) in Hin.
    unfold duplicate_finding in Hin.
    destruct (truthy _ && truthy _ && truthy _); [|discriminate].
    cbn [env_of Validator.check_duplicate] in Hin.
    rewrite check_duplicate_empty in Hin. discriminate.
Qed.

Lemma stored_invoice_is_flagged_witness :
  exists r,
    validate rt_iso
      (env_of (mk_engine fl_repr) (mk_table [mk_row 1 "INV-001" "ABC Corp" "2024-01-15"] 1)
         (mk_date 2025 1 1)) sample_invoice = Ok r /\
    In ("Duplicate invoice detected: " +:+ "INV-001" +:+ " from " +:+ "ABC Corp" +:+ " on "
          +:+ "2024-01-15") (warnings r).
Proof.
  eexists. split; [vm_compute; reflexivity|].
  refine (proj1 (stored_invoice_is_flagged rt_iso (mk_engine fl_repr) empty sample_invoice 1
                   (mk_table [mk_row 1 "INV-001" "ABC Corp" "2024-01-15"] 1)
                   (mk_date 2025 1 1) "INV-001" "ABC Corp" "2024-01-15" _
                   _ _ _ _ _ _ _ _ _));
    first [ vm_compute; reflexivity | lia | discriminate ].
Defined.
